(** * ScolioAI front-end: shallow embedding of [index.tsx] and its checked properties

    The development follows the last revision of [src/index.tsx] (the one
    with the settings and history panels).  It embeds

    - the resize logic of [compressImage] over IEEE-754 binary64 numbers,
    - [getEnvConfig] and the credential lookup at the head of [handleAnalyze],
    - [handleSaveApiKey], [saveToHistory] and the start-up effect of [App],
    - the [catch] block of [handleAnalyze],
    - [getResultCardClassName], [getResultContent] and the two places where
      the Cobb angle is rendered.

    JavaScript numbers are [spec_float] values at precision 53 / emax 1024
    (the Standard Library's executable specification of binary64).
    JavaScript strings are [string]s read as sequences of code units below
    256; on that range [toLowerCase] and [trim] are per-character and are
    written out in full.  [localStorage] is a [gmap string string]. *)

From Stdlib Require Import ZArith Lia Bool List Ascii String SpecFloat.
From stdpp Require Import base option list strings gmap.

Local Open Scope Z_scope.

(** ** JavaScript numbers *)

Module JSNumber.

Definition number := spec_float.

Definition prec : Z := 53.
Definition emax : Z := 1024.

(** An integer as a Number: an [unsigned long] DOM attribute read by the
    script, or an integer literal such as [1024] or [-1]. *)
Definition of_int (n : Z) : number := binary_normalize prec emax n 0 false.

Definition mul (x y : number) : number := SFmul prec emax x y.
Definition div (x y : number) : number := SFdiv prec emax x y.

(** [x > y], [x === y] on Numbers (false on NaN, +0 equals -0). *)
Definition gt (x y : number) : bool := SFltb y x.
Definition strict_eq (x y : number) : bool := SFeqb x y.

(** Magnitude of a finite number cut to its integer part:
    [Z.shiftl] with a negative amount shifts right. *)
Definition int_part (m : positive) (e : Z) : Z := Z.shiftl (Zpos m) e.

(** WebIDL conversion of a Number to [unsigned long], the type of
    [HTMLCanvasElement.width] and [.height]: NaN, infinities and zeros
    give 0, other values are truncated toward zero and reduced modulo
    2^32. *)
Definition to_unsigned_long (x : number) : Z :=
  match x with
  | S754_finite s m e => (cond_Zopp s (int_part m e)) mod 2 ^ 32
  | _ => 0
  end.

(** The mantissa of the binary64 representation of a positive integer
    below 2^53; its exponent is the number of binary digits minus 53. *)
Definition mantissa (p : positive) : positive :=
  Z.to_pos (Zpos p * 2 ^ (53 - Zpos (digits2_pos p))).

End JSNumber.

Import JSNumber.

(** ** Image Preparer: [compressImage] *)

Definition MAX_WIDTH : number := of_int 1024.
Definition MAX_HEIGHT : number := of_int 1024.

(** The "Resize logic" block: the values of the local variables [width] and
    [height] after it ran, from [img.width] and [img.height]. *)
Definition resize (img_width img_height : Z) : number * number :=
  let width := of_int img_width in
  let height := of_int img_height in
  if gt width height then
    if gt width MAX_WIDTH then
      let height := mul height (div MAX_WIDTH width) in
      let width := MAX_WIDTH in
      (width, height)
    else (width, height)
  else
    if gt height MAX_HEIGHT then
      let width := mul width (div MAX_HEIGHT height) in
      let height := MAX_HEIGHT in
      (width, height)
    else (width, height).

Record canvas := Canvas { canvas_width : Z; canvas_height : Z }.

(** [canvas.width = width; canvas.height = height;] *)
Definition canvas_of (wh : number * number) : canvas :=
  Canvas (to_unsigned_long (fst wh)) (to_unsigned_long (snd wh)).

(** What the host reports for the selected file. *)
Inductive file_outcome :=
| ReadFails
| LoadFails
| Loaded (img_width img_height : Z).

Inductive compress_error :=
| File_read_failed
| Image_load_failed
| Canvas_context_is_null.

(** [compressImage]: the promise either rejects with one of the three errors
    or resolves with the JPEG encoding of the canvas; of the encoding only the
    pixel size of the canvas is kept. *)
Definition compressImage (f : file_outcome) (ctx_available : bool)
  : compress_error + canvas :=
  match f with
  | ReadFails => inl File_read_failed
  | LoadFails => inl Image_load_failed
  | Loaded w h =>
      let c := canvas_of (resize w h) in
      if ctx_available then inr c else inl Canvas_context_is_null
  end.

(** The rounding that the specification speaks of: the nearest integer to
    [n / d], halves up, as [Math.round] does. *)
Definition round_div (n d : Z) : Z := (2 * n + d) / (2 * d).

(** The product actually evaluated for the scaled side, cut by the canvas. *)
Definition scaled (side other : Z) : Z :=
  to_unsigned_long (mul (of_int side) (div (of_int 1024) (of_int other))).

(** ** JavaScript strings *)

Module JSString.


Definition code (c : ascii) : nat := nat_of_ascii c.

(** [toLowerCase] on code units below 256: A-Z and the upper-case letters
    of the Latin-1 supplement (U+00C0-U+00DE without the multiplication
    sign U+00D7) move up by 32, everything else stays. *)
Definition lower_char (c : ascii) : ascii :=
  let n := code c in
  if ((65 <=? n) && (n <=? 90)
      || (192 <=? n) && (n <=? 222) && negb (n =? 215))%nat
  then ascii_of_nat (n + 32) else c.

Fixpoint toLowerCase (s : string) : string :=
  match s with
  | EmptyString => EmptyString
  | String c s' => String (lower_char c) (toLowerCase s')
  end.

(** White space and line terminators below 256: TAB, LF, VT, FF, CR,
    SPACE and NO-BREAK SPACE. *)
Definition is_space (c : ascii) : bool :=
  let n := code c in
  ((9 <=? n) && (n <=? 13) || (n =? 32) || (n =? 160))%nat.

Fixpoint trimStart (s : string) : string :=
  match s with
  | EmptyString => EmptyString
  | String c s' => if is_space c then trimStart s' else s
  end.

Fixpoint trimEnd (s : string) : string :=
  match s with
  | EmptyString => EmptyString
  | String c s' =>
      match trimEnd s' with
      | EmptyString => if is_space c then EmptyString else String c EmptyString
      | t => String c t
      end
  end.

Definition trim (s : string) : string := trimEnd (trimStart s).

(** [s.includes(sub)] *)
Fixpoint includes (s sub : string) : bool :=
  String.prefix sub s ||
  match s with
  | EmptyString => false
  | String _ s' => includes s' sub
  end.

(** Truthiness of a string: only the empty string is falsy. *)
Definition truthy (s : string) : bool := negb (String.eqb s EmptyString).

(** [a || b] where [a] is a string or [undefined]/[null]. *)
Definition or_else (a : option string) (b : string) : string :=
  match a with
  | Some v => if truthy v then v else b
  | None => b
  end.

(** Two strings that differ at most in letter case. *)
Definition same_ignoring_case (s t : string) : Prop :=
  toLowerCase s = toLowerCase t.

End JSString.

Import JSString.

Local Open Scope string_scope.

(** ** Types of [index.tsx] *)

Record AnalysisResult := {
  cobbAngle : number;
  classification : string;
  date : option string;
}.

(** [interface HistoryItem extends AnalysisResult { timestamp: number }] *)
Record HistoryItem := {
  item : AnalysisResult;
  timestamp : Z;
}.

(** ** Result Interpreter *)

Definition getResultCardClassName (classification : string) : string :=
  let c := toLowerCase classification in
  if String.eqb c "normal" then "normal"
  else if String.eqb c "mild" then "mild"
  else if String.eqb c "high-risk" then "high-risk"
  else if String.eqb c "inconclusive" then "high-risk"
  else EmptyString.

(** The children of the [<p>] element that [getResultContent] returns. *)
Inductive jsx :=
| Text (s : string)
| Strong (s : string).

Definition getResultContent (classification : string) : list jsx :=
  let c := toLowerCase classification in
  if String.eqb c "normal" then
    [Text "척추가 "; Strong "정상"; Text " 범위에 있습니다."]
  else if String.eqb c "mild" then
    [Strong "경미한 척추측만증"; Text "이 의심됩니다. 전문의와 상담을 권장합니다."]
  else if String.eqb c "high-risk" then
    [Strong "척추측만증 고위험군"; Text "으로 분류됩니다. 전문가의 진단이 필요합니다."]
  else if String.eqb c "inconclusive" then
    [Strong "분석 실패";
     Text ": 사진이 명확하지 않습니다. 밝고 선명한 등 사진으로 다시 시도해주세요."]
  else
    [Text "분석 결과를 확인하세요."].

(** The severity tiers of the specification, read off the CSS class. *)
Inductive tier := Ok | Warning | Danger | Neutral.

Definition tier_of_class (cls : string) : tier :=
  if String.eqb cls "normal" then Ok
  else if String.eqb cls "mild" then Warning
  else if String.eqb cls "high-risk" then Danger
  else Neutral.

(** ** Rendering of the Cobb angle *)

(** Pieces of text inside an element; the two Number-to-text conversions
    are kept symbolic. *)
Inductive piece :=
| Lit (s : string)
| ToFixed1 (x : number)      (* x.toFixed(1) *)
| NumToString (x : number).  (* the template-literal conversion of x *)

Definition minus_one : number := of_int (-1).

(** Result card:
    [<strong>{result.cobbAngle === -1 ? '--' : result.cobbAngle.toFixed(1)}°</strong>] *)
Definition result_angle_view (r : AnalysisResult) : list piece :=
  [ if strict_eq (cobbAngle r) minus_one then Lit "--" else ToFixed1 (cobbAngle r);
    Lit "°" ].

(** History entry:
    [<strong>{item.cobbAngle > -1 ? `${item.cobbAngle}°` : '--'}</strong>] *)
Definition history_angle_view (h : HistoryItem) : list piece :=
  if gt (cobbAngle (item h)) minus_one
  then [NumToString (cobbAngle (item h)); Lit "°"]
  else [Lit "--"].

(** A rendered angle shows a number when one of its pieces is a converted
    Number. *)
Definition is_numeric (p : piece) : bool :=
  match p with
  | Lit _ => false
  | ToFixed1 _ | NumToString _ => true
  end.

Definition shows_number (v : list piece) : bool := existsb is_numeric v.

Definition shows_placeholder (v : list piece) : bool :=
  match v with
  | Lit "--" :: _ => true
  | _ => false
  end.

(** ** Configuration and state *)

Record EmailJsConfig := {
  publicKey : string;
  serviceId : string;
  templateId : string;
}.

Record EnvConfig := {
  apiKey : string;
  emailJs : EmailJsConfig;
}.

(** The two places configuration is injected: [import.meta.env] and
    [process.env].  [None] stands for an object that does not exist in the
    bundle; a variable missing from the map is [undefined]. *)
Record Environment := {
  import_meta_env : option (gmap string string);
  process_env : option (gmap string string);
}.

(** [if (env.NAME) v = env.NAME;] starting from [v = ''] *)
Definition vite_var (e : Environment) (name : string) : string :=
  match import_meta_env e with
  | Some m => or_else (m !! name) EmptyString
  | None => EmptyString
  end.

(** [if (!v && process.env) v = process.env.A || process.env.B || process.env.C || '';] *)
Definition process_fallback (e : Environment) (v : string) (a b c : string)
  : string :=
  if negb (truthy v) then
    match process_env e with
    | Some m => or_else (m !! a) (or_else (m !! b) (or_else (m !! c) EmptyString))
    | None => v
    end
  else v.

Definition getEnvConfig (e : Environment) : EnvConfig :=
  let apiKey := vite_var e "VITE_API_KEY" in
  let emailJsPublicKey := vite_var e "VITE_EMAILJS_PUBLIC_KEY" in
  let emailJsServiceId := vite_var e "VITE_EMAILJS_SERVICE_ID" in
  let emailJsTemplateId := vite_var e "VITE_EMAILJS_TEMPLATE_ID" in
  let apiKey :=
    process_fallback e apiKey
      "REACT_APP_API_KEY" "NEXT_PUBLIC_API_KEY" "API_KEY" in
  let emailJsPublicKey :=
    process_fallback e emailJsPublicKey
      "REACT_APP_EMAILJS_PUBLIC_KEY" "NEXT_PUBLIC_EMAILJS_PUBLIC_KEY"
      "EMAILJS_PUBLIC_KEY" in
  let emailJsServiceId :=
    process_fallback e emailJsServiceId
      "REACT_APP_EMAILJS_SERVICE_ID" "NEXT_PUBLIC_EMAILJS_SERVICE_ID"
      "EMAILJS_SERVICE_ID" in
  let emailJsTemplateId :=
    process_fallback e emailJsTemplateId
      "REACT_APP_EMAILJS_TEMPLATE_ID" "NEXT_PUBLIC_EMAILJS_TEMPLATE_ID"
      "EMAILJS_TEMPLATE_ID" in
  {| apiKey := apiKey;
     emailJs := {| publicKey := emailJsPublicKey;
                   serviceId := emailJsServiceId;
                   templateId := emailJsTemplateId |} |}.

(** The state variables of [App] that the embedded handlers read or write.
    [imageFile] carries what the host will report when the file is read and
    decoded. *)
Record AppState := {
  imageFile : option file_outcome;
  isLoading : bool;
  result : option AnalysisResult;
  error : string;
  isSettingsModalOpen : bool;
  manualApiKey : string;
  envKeyDetected : bool;
  history : list HistoryItem;
}.

(** The [useState] initial values. *)
Definition initial_state : AppState :=
  {| imageFile := None; isLoading := false; result := None; error := EmptyString;
     isSettingsModalOpen := false; manualApiKey := EmptyString; envKeyDetected := false;
     history := [] |}.

(** The component state together with what lives outside it: the
    [localStorage] area and the [alert] boxes shown so far, oldest first. *)
Record World := {
  state : AppState;
  localStorage : gmap string string;
  alerts : list string;
}.

Definition initial_world (store : gmap string string) : World :=
  {| state := initial_state; localStorage := store; alerts := [] |}.

Definition setImageFile (v : option file_outcome) (s : AppState) : AppState :=
  {| imageFile := v; isLoading := isLoading s; result := result s;
     error := error s; isSettingsModalOpen := isSettingsModalOpen s;
     manualApiKey := manualApiKey s; envKeyDetected := envKeyDetected s;
     history := history s |}.

Definition setIsLoading (v : bool) (s : AppState) : AppState :=
  {| imageFile := imageFile s; isLoading := v; result := result s;
     error := error s; isSettingsModalOpen := isSettingsModalOpen s;
     manualApiKey := manualApiKey s; envKeyDetected := envKeyDetected s;
     history := history s |}.

Definition setResult (v : option AnalysisResult) (s : AppState) : AppState :=
  {| imageFile := imageFile s; isLoading := isLoading s; result := v;
     error := error s; isSettingsModalOpen := isSettingsModalOpen s;
     manualApiKey := manualApiKey s; envKeyDetected := envKeyDetected s;
     history := history s |}.

Definition setError (v : string) (s : AppState) : AppState :=
  {| imageFile := imageFile s; isLoading := isLoading s; result := result s;
     error := v; isSettingsModalOpen := isSettingsModalOpen s;
     manualApiKey := manualApiKey s; envKeyDetected := envKeyDetected s;
     history := history s |}.

Definition setIsSettingsModalOpen (v : bool) (s : AppState) : AppState :=
  {| imageFile := imageFile s; isLoading := isLoading s; result := result s;
     error := error s; isSettingsModalOpen := v;
     manualApiKey := manualApiKey s; envKeyDetected := envKeyDetected s;
     history := history s |}.

Definition setManualApiKey (v : string) (s : AppState) : AppState :=
  {| imageFile := imageFile s; isLoading := isLoading s; result := result s;
     error := error s; isSettingsModalOpen := isSettingsModalOpen s;
     manualApiKey := v; envKeyDetected := envKeyDetected s;
     history := history s |}.

Definition setEnvKeyDetected (v : bool) (s : AppState) : AppState :=
  {| imageFile := imageFile s; isLoading := isLoading s; result := result s;
     error := error s; isSettingsModalOpen := isSettingsModalOpen s;
     manualApiKey := manualApiKey s; envKeyDetected := v;
     history := history s |}.

Definition setHistory (v : list HistoryItem) (s : AppState) : AppState :=
  {| imageFile := imageFile s; isLoading := isLoading s; result := result s;
     error := error s; isSettingsModalOpen := isSettingsModalOpen s;
     manualApiKey := manualApiKey s; envKeyDetected := envKeyDetected s;
     history := v |}.

(** A state update, a [localStorage.setItem] and an [alert] as steps on the
    world. *)
Definition update (f : AppState -> AppState) (w : World) : World :=
  {| state := f (state w); localStorage := localStorage w; alerts := alerts w |}.

Definition setItem (k v : string) (w : World) : World :=
  {| state := state w; localStorage := <[k := v]> (localStorage w);
     alerts := alerts w |}.

Definition getItem (k : string) (w : World) : option string :=
  localStorage w !! k.

Definition alert (msg : string) (w : World) : World :=
  {| state := state w; localStorage := localStorage w;
     alerts := alerts w ++ [msg] |}.

(** ** Host functions *)

(** What [ai.models.generateContent] does: it throws a value whose
    [toString()] is [errorString], or it returns a response whose [text] is a
    string or [undefined]. *)
Inductive ai_response :=
| Throws (errorString : string)
| Responds (text : option string).

(** The functions of the host and of the SDK that the handlers call.
    [JSON.parse] is taken at the two types it is used at: the stored history
    ([None] when it throws) and the model's answer ([inl e] when it throws a
    [SyntaxError] whose [toString()] is [e]). *)
Record Host := {
  env : Environment;
  JSON_parse_history : string -> option (list HistoryItem);
  JSON_stringify_history : list HistoryItem -> string;
  JSON_parse_result : string -> string + AnalysisResult;
  ctx_available : bool;
  generateContent : string -> canvas -> ai_response;
}.

(** ** Credential Resolver *)

(** The head of [handleAnalyze]:
    [let apiKey = envConfig.apiKey;
     if (!apiKey) apiKey = manualApiKey;
     if (!apiKey) apiKey = localStorage.getItem('gemini_api_key') || '';] *)
Definition resolveApiKey (e : Environment) (w : World) : string :=
  let apiKey := apiKey (getEnvConfig e) in
  let apiKey := if negb (truthy apiKey) then manualApiKey (state w) else apiKey in
  let apiKey :=
    if negb (truthy apiKey) then or_else (getItem "gemini_api_key" w) EmptyString
    else apiKey in
  apiKey.

Definition handleSaveApiKey (key : string) (w : World) : World :=
  let trimmedKey := trim key in
  if (10 <? String.length trimmedKey)%nat then
    let w := setItem "gemini_api_key" trimmedKey w in
    let w := update (setManualApiKey trimmedKey) w in
    let w := update (setError EmptyString) w in
    let w := update (setIsSettingsModalOpen false) w in
    alert "API Key가 저장되었습니다. 이제 분석을 시작해보세요." w
  else
    alert "유효한 API Key를 입력해주세요." w.

(** The order of precedence in the words of the specification: the first
    non-empty candidate wins, the empty string when there is none. *)
Fixpoint first_non_empty (candidates : list (option string)) : string :=
  match candidates with
  | [] => EmptyString
  | c :: rest => or_else c (first_non_empty rest)
  end.

Definition lookup_in (m : option (gmap string string)) (name : string)
  : option string :=
  match m with
  | Some m => m !! name
  | None => None
  end.

(** The environment key under its aliases, in the order they are tried. *)
Definition environment_keys (e : Environment) : list (option string) :=
  [ lookup_in (import_meta_env e) "VITE_API_KEY";
    lookup_in (process_env e) "REACT_APP_API_KEY";
    lookup_in (process_env e) "NEXT_PUBLIC_API_KEY";
    lookup_in (process_env e) "API_KEY" ].

(** The in-memory copy of the saved key never disagrees with the saved key:
    it is still empty or it is the string under ['gemini_api_key']. *)
Definition key_in_sync (w : World) : Prop :=
  manualApiKey (state w) = EmptyString \/
  getItem "gemini_api_key" w = Some (manualApiKey (state w)).

(** ** History Store *)

Definition stamp (today : string) (now : Z) (newResult : AnalysisResult)
  : HistoryItem :=
  {| item := {| cobbAngle := cobbAngle newResult;
                classification := classification newResult;
                date := Some today |};
     timestamp := now |}.

(** [today] is [new Date().toLocaleDateString()] and [now] is [Date.now()]
    at the time of the call. *)
Definition saveToHistory (H : Host) (today : string) (now : Z)
    (newResult : AnalysisResult) (w : World) : World :=
  let newItem := stamp today now newResult in
  let updatedHistory := newItem :: history (state w) in
  let w := update (setHistory updatedHistory) w in
  setItem "scolio_history" (JSON_stringify_history H updatedHistory) w.

(** A run of appends, each with its own clock reading, first one first. *)
Fixpoint saveAll (H : Host) (calls : list (string * Z * AnalysisResult))
    (w : World) : World :=
  match calls with
  | [] => w
  | (today, now, r) :: rest => saveAll H rest (saveToHistory H today now r w)
  end.

(** The start-up effect of [App] ("Initialize"), without the EmailJS hook. *)
Definition App_initialize (H : Host) (w : World) : World :=
  let config := getEnvConfig (env H) in
  let w := update (setEnvKeyDetected (truthy (apiKey config))) w in
  let w :=
    match getItem "gemini_api_key" w with
    | Some savedKey =>
        if truthy savedKey then update (setManualApiKey savedKey) w else w
    | None => w
    end in
  match getItem "scolio_history" w with
  | Some savedHistory =>
      if truthy savedHistory then
        match JSON_parse_history H savedHistory with
        | Some parsed => update (setHistory parsed) w
        | None => w
        end
      else w
  | None => w
  end.

(** ** Analysis *)

Definition msg_generic : string := "분석 중 오류가 발생했습니다.".
Definition msg_network : string := " 네트워크 상태를 확인해주세요.".
Definition msg_quota : string :=
  "무료 사용량이 초과되었습니다. 설정(⚙️)에서 본인의 API Key를 등록하면 계속 사용할 수 있습니다.".
Definition msg_auth : string :=
  "API Key 인증 실패. 설정창에서 키를 다시 확인해주세요.".
Definition msg_bad_image : string := "이미지 오류: 다른 사진으로 시도해보세요.".
Definition msg_policy : string :=
  "AI가 이미지를 분석할 수 없습니다. (콘텐츠 정책)".
Definition msg_no_image : string := "이미지를 먼저 업로드해주세요.".
Definition msg_need_key : string :=
  "API Key가 필요합니다. 설정창에서 입력해주세요.".

(** The [catch] block of [handleAnalyze]; [e] is [e.toString()]. *)
Definition handleAnalyze_catch (e : string) (w : World) : World :=
  let errorMsg := msg_generic in
  let errorString := toLowerCase e in
  if includes errorString "429" || includes errorString "quota" then
    let errorMsg := msg_quota in
    let w := update (setIsSettingsModalOpen true) w in
    update (setError errorMsg) w
  else if includes errorString "key" || includes errorString "403"
          || includes errorString "401" then
    let errorMsg := msg_auth in
    let w := update (setIsSettingsModalOpen true) w in
    update (setError errorMsg) w
  else if includes errorString "400" then
    let errorMsg := msg_bad_image in
    update (setError errorMsg) w
  else if includes errorString "safety" then
    let errorMsg := msg_policy in
    update (setError errorMsg) w
  else
    let errorMsg := errorMsg +:+ msg_network in
    update (setError errorMsg) w.

(** The [try] block: what is thrown, as its [toString()], or the world after
    the result was stored. *)
Definition handleAnalyze_try (H : Host) (today : string) (now : Z)
    (file : file_outcome) (apiKey : string) (w : World) : string + World :=
  match compressImage file (ctx_available H) with
  | inl _ => inl "Error: 이미지 처리 실패: 파일이 너무 크거나 손상되었습니다."
  | inr base64Data =>
      match generateContent H apiKey base64Data with
      | Throws e => inl e
      | Responds text =>
          let text := or_else text EmptyString in
          if negb (truthy text) then inl "Error: AI 응답이 없습니다."
          else
            match JSON_parse_result H text with
            | inl e => inl e
            | inr resultJson =>
                let w := update (setResult (Some resultJson)) w in
                inr (saveToHistory H today now resultJson w)
            end
      end
  end.

(** [handleAnalyze] from [setIsLoading(true)] on, once the key is chosen. *)
Definition handleAnalyze_run (H : Host) (today : string) (now : Z)
    (file : file_outcome) (apiKey : string) (w : World) : World :=
  let w := update (setIsLoading true) w in
  let w := update (setError EmptyString) w in
  let w := update (setResult None) w in
  let w :=
    match handleAnalyze_try H today now file apiKey w with
    | inr w' => w'
    | inl e => handleAnalyze_catch e w
    end in
  update (setIsLoading false) w.

Definition handleAnalyze (H : Host) (today : string) (now : Z) (w : World)
  : World :=
  match imageFile (state w) with
  | None => update (setError msg_no_image) w
  | Some file =>
      let apiKey := resolveApiKey (env H) w in
      if negb (truthy apiKey) then
        let w := update (setIsSettingsModalOpen true) w in
        update (setError msg_need_key) w
      else handleAnalyze_run H today now file apiKey w
  end.

(** ** Sample hosts and inputs *)

(** Stand-ins for the host functions, to run the handlers on examples.
    For [JSON.parse] on the history, a function that accepts the empty
    array only. *)
Definition sample_parse_history (s : string) : option (list HistoryItem) :=
  if String.eqb s "[]" then Some [] else None.

(** For [JSON.stringify] on the history: the classifications in order,
    between brackets. *)
Definition sample_stringify_history (h : list HistoryItem) : string :=
  "[" +:+ String.concat "," (map (fun i => classification (item i)) h) +:+ "]".

Definition quote : string := String (ascii_of_nat 34) EmptyString.

(** The text [{"cobbAngle":angle,"classification":"cls"}]. *)
Definition answer_text (angle cls : string) : string :=
  "{" +:+ quote +:+ "cobbAngle" +:+ quote +:+ ":" +:+ angle +:+ ","
  +:+ quote +:+ "classification" +:+ quote +:+ ":" +:+ quote +:+ cls
  +:+ quote +:+ "}".

Definition mild_12 : AnalysisResult :=
  {| cobbAngle := of_int 12; classification := "Mild"; date := None |}.

Definition inconclusive_12 : AnalysisResult :=
  {| cobbAngle := of_int 12; classification := "Inconclusive"; date := None |}.

Definition inconclusive_minus_one : AnalysisResult :=
  {| cobbAngle := minus_one; classification := "Inconclusive"; date := None |}.

(** For [JSON.parse] on the model's answer: two answers are understood. *)
Definition sample_parse_result (s : string) : string + AnalysisResult :=
  if String.eqb s (answer_text "12" "Mild") then inr mild_12
  else if String.eqb s (answer_text "12" "Inconclusive") then inr inconclusive_12
  else inl "SyntaxError: Unexpected token".

(** No key is injected at build time. *)
Definition no_key_env : Environment :=
  {| import_meta_env := Some ∅; process_env := None |}.

(** A key is injected through [process.env.API_KEY]. *)
Definition process_key_env : Environment :=
  {| import_meta_env := Some ∅;
     process_env := Some (<["API_KEY" := "AIzaSyENVIRONMENTKEY"]> ∅) |}.

Definition sample_host (e : Environment) (r : ai_response) : Host :=
  {| env := e;
     JSON_parse_history := sample_parse_history;
     JSON_stringify_history := sample_stringify_history;
     JSON_parse_result := sample_parse_result;
     ctx_available := true;
     generateContent := fun _ _ => r |}.

(** A session in which a photo was picked; [saved] is the content of
    ['gemini_api_key'], already loaded into [manualApiKey]. *)
Definition photo_picked (saved : option string) : World :=
  {| state := setManualApiKey (or_else saved EmptyString)
              (setImageFile (Some (Loaded 800 600)) initial_state);
     localStorage :=
       match saved with
       | Some k => <["gemini_api_key" := k]> ∅
       | None => ∅
       end;
     alerts := [] |}.

(** One call of [saveToHistory] as the record it prepends. *)
Definition stamp_call (c : string * Z * AnalysisResult) : HistoryItem :=
  stamp (fst (fst c)) (snd (fst c)) (snd c).

Definition three_calls : list (string * Z * AnalysisResult) :=
  [ ("2025. 1. 1.", 1735689600000%Z, mild_12);
    ("2025. 1. 2.", 1735776000000%Z, inconclusive_minus_one);
    ("2025. 1. 3.", 1735862400000%Z, inconclusive_12) ].

(** ** The other state variables of [App] *)

(** [{ type, text }] *)
Record FormMessage := {
  message_type : string;
  message_text : string;
}.

(** The state variables that [AppState] leaves out.  The two file inputs
    behind [fileInputRef] and [cameraInputRef] belong to the document and
    are not part of the model. *)
Record PanelState := {
  imageUrl : string;
  isConsultationModalOpen : bool;
  isHistoryModalOpen : bool;
  isSending : bool;
  formMessage : option FormMessage;
}.

Definition initial_panel : PanelState :=
  {| imageUrl := EmptyString; isConsultationModalOpen := false;
     isHistoryModalOpen := false; isSending := false; formMessage := None |}.

Definition setImageUrl (v : string) (p : PanelState) : PanelState :=
  {| imageUrl := v; isConsultationModalOpen := isConsultationModalOpen p;
     isHistoryModalOpen := isHistoryModalOpen p; isSending := isSending p;
     formMessage := formMessage p |}.

Definition setIsConsultationModalOpen (v : bool) (p : PanelState) : PanelState :=
  {| imageUrl := imageUrl p; isConsultationModalOpen := v;
     isHistoryModalOpen := isHistoryModalOpen p; isSending := isSending p;
     formMessage := formMessage p |}.

Definition setIsHistoryModalOpen (v : bool) (p : PanelState) : PanelState :=
  {| imageUrl := imageUrl p; isConsultationModalOpen := isConsultationModalOpen p;
     isHistoryModalOpen := v; isSending := isSending p;
     formMessage := formMessage p |}.

Definition setIsSending (v : bool) (p : PanelState) : PanelState :=
  {| imageUrl := imageUrl p; isConsultationModalOpen := isConsultationModalOpen p;
     isHistoryModalOpen := isHistoryModalOpen p; isSending := v;
     formMessage := formMessage p |}.

Definition setFormMessage (v : option FormMessage) (p : PanelState) : PanelState :=
  {| imageUrl := imageUrl p; isConsultationModalOpen := isConsultationModalOpen p;
     isHistoryModalOpen := isHistoryModalOpen p; isSending := isSending p;
     formMessage := v |}.

(** The whole component: the state and storage of [World] and the panel
    state. *)
Record Session := {
  core : World;
  panel : PanelState;
}.

(** The component after its start-up effect ran on the stored data. *)
Definition start (H : Host) (store : gmap string string) : Session :=
  {| core := App_initialize H (initial_world store); panel := initial_panel |}.

(** ** File selection and reset *)

(** [files] is the [FileList] of the input ([None] for [null]) and
    [objectURL] is what [URL.createObjectURL] returns for its first file. *)
Definition handleFileSelect (files : option (list file_outcome))
    (objectURL : string) (s : Session) : Session :=
  match files with
  | Some (file :: _) =>
      let w := update (setImageFile (Some file)) (core s) in
      let p := setImageUrl objectURL (panel s) in
      let w := update (setResult None) w in
      let w := update (setError EmptyString) w in
      {| core := w; panel := p |}
  | _ => s
  end.

Definition handleReset (s : Session) : Session :=
  let w := update (setImageFile None) (core s) in
  let p := setImageUrl EmptyString (panel s) in
  let w := update (setResult None) w in
  let w := update (setError EmptyString) w in
  {| core := w; panel := p |}.

(** ** Contact Submitter *)

(** A value of the template parameters: a string, the one-decimal text of
    a Number ([toFixed(1)], kept symbolic) or [undefined]. *)
Inductive param :=
| Undefined
| Str (s : string)
| Fixed1 (x : number).

(** [{ ...formData,
       cobb_angle: result?.cobbAngle?.toFixed(1),
       classification: result?.classification }] *)
Definition template_params (formData : gmap string string)
    (r : option AnalysisResult) : gmap string param :=
  let cobb_angle :=
    match r with Some r => Fixed1 (cobbAngle r) | None => Undefined end in
  let cls :=
    match r with Some r => Str (classification r) | None => Undefined end in
  <["classification" := cls]> (<["cobb_angle" := cobb_angle]> (Str <$> formData)).

Definition msg_sent : FormMessage :=
  {| message_type := "success";
     message_text := "상담 신청이 성공적으로 전송되었습니다." |}.

Definition msg_not_sent : FormMessage :=
  {| message_type := "error";
     message_text := "전송 실패. 키 설정을 확인하거나 잠시 후 다시 시도해주세요." |}.

(** What one submission did: the session afterwards, the call made to
    [emailjs.send] if any (service id, template id, parameters) and the
    delay of the timer that will close the panel, if one was set. *)
Record Submission := {
  after : Session;
  sent : option (string * string * gmap string param);
  close_after : option Z;
}.

(** [emailjs] is [window.emailjs]: [None] when the library did not load,
    otherwise whether the promise of [send] resolves for the given call. *)
Definition handleFormSubmit (e : Environment)
    (emailjs : option (string -> string -> gmap string param -> bool))
    (formData : gmap string string) (s : Session) : Submission :=
  let p := setIsSending true (panel s) in
  let p := setFormMessage None p in
  match emailjs with
  | None =>
      let p := setFormMessage (Some msg_not_sent) p in
      {| after := {| core := core s; panel := setIsSending false p |};
         sent := None; close_after := None |}
  | Some send =>
      let config := getEnvConfig e in
      let serviceID :=
        or_else (Some (serviceId (emailJs config))) "YOUR_SERVICE_ID" in
      let templateID :=
        or_else (Some (templateId (emailJs config))) "YOUR_TEMPLATE_ID" in
      let params := template_params formData (result (state (core s))) in
      if send serviceID templateID params then
        let p := setFormMessage (Some msg_sent) p in
        {| after := {| core := core s; panel := setIsSending false p |};
           sent := Some (serviceID, templateID, params);
           close_after := Some 3000%Z |}
      else
        let p := setFormMessage (Some msg_not_sent) p in
        {| after := {| core := core s; panel := setIsSending false p |};
           sent := Some (serviceID, templateID, params);
           close_after := None |}
  end.

(** The form of [ConsultationModal]: its initial [formData] and
    [handleChange] for the input called [name]. *)
Definition initial_formData : gmap string string :=
  <["name" := EmptyString]> (<["age" := EmptyString]> (<["gender" := "male"]>
  (<["phone" := EmptyString]> (<["email" := EmptyString]>
  (<["message" := EmptyString]> ∅))))).

Definition handleChange (name value : string) (formData : gmap string string)
  : gmap string string :=
  <[name := value]> formData.

Definition form_fields : list string :=
  ["name"; "age"; "gender"; "phone"; "email"; "message"].

(** ** History panel *)

Record HistoryRow := {
  row_date : option string;
  badge_class : string;
  badge_label : string;
  row_angle : list piece;
}.

Definition history_row (i : HistoryItem) : HistoryRow :=
  let c := classification (item i) in
  {| row_date := date (item i);
     badge_class := "badge " +:+ toLowerCase c;
     badge_label :=
       if String.eqb c "Normal" then "정상"
       else if String.eqb c "Mild" then "경미" else "위험";
     row_angle := history_angle_view i |}.

(** The list inside [HistoryModal]: the "no saved records" paragraph or one
    row per record. *)
Inductive HistoryList :=
| NoRecords
| Rows (rows : list HistoryRow).

Definition HistoryModal (history : list HistoryItem) : HistoryList :=
  if (length history =? 0)%nat then NoRecords else Rows (map history_row history).

(** ** What [App] renders *)

Definition showSettingsAlert (s : AppState) : bool :=
  negb (envKeyDetected s) && negb (truthy (manualApiKey s)).

(** The preview card of the upload view: the picture, the error paragraph
    when [error] is not empty, and the loader in place of the analyze
    button while [isLoading]. *)
Record PreviewCard := {
  preview_image : string;
  preview_error : option string;
  preview_loading : bool;
}.

Record ResultSection := {
  analyzed_image : string;
  card_class : string;
  card_angle : list piece;
  card_content : list jsx;
}.

(** The [!result] branch (hero with its alert dot, upload buttons, then the
    preview card when a file is picked and the feature sections when not)
    or the [result] branch. *)
Inductive MainView :=
| UploadView (alert_dot : bool) (preview : option PreviewCard)
| ResultsView (r : ResultSection).

Record Page := {
  main : MainView;
  consultationModal : option (bool * option FormMessage);
  settingsModal : option (string * bool);
  historyModal : option HistoryList;
}.

Definition App_render (s : Session) : Page :=
  let st := state (core s) in
  let p := panel s in
  {| main :=
       match result st with
       | None =>
           UploadView (showSettingsAlert st)
             match imageFile st with
             | Some _ =>
                 Some {| preview_image := imageUrl p;
                         preview_error :=
                           if truthy (error st) then Some (error st) else None;
                         preview_loading := isLoading st |}
             | None => None
             end
       | Some r =>
           ResultsView
             {| analyzed_image := imageUrl p;
                card_class := getResultCardClassName (classification r);
                card_angle := result_angle_view r;
                card_content := getResultContent (classification r) |}
       end;
     consultationModal :=
       if isConsultationModalOpen p then Some (isSending p, formMessage p)
       else None;
     settingsModal :=
       if isSettingsModalOpen st then Some (manualApiKey st, envKeyDetected st)
       else None;
     historyModal :=
       if isHistoryModalOpen p then Some (HistoryModal (history st)) else None |}.

Definition analyze_button_rendered (pg : Page) : bool :=
  match main pg with
  | UploadView _ (Some c) => negb (preview_loading c)
  | _ => false
  end.

Definition error_rendered (pg : Page) : option string :=
  match main pg with
  | UploadView _ (Some c) => preview_error c
  | _ => None
  end.

(** ** [handleAnalyze] as an asynchronous function *)

(** What the closure of a running [handleAnalyze] holds while it awaits:
    the file and the key it chose and the [history] of the render in which
    the button was clicked. *)
Record PendingAnalysis := {
  pending_file : file_outcome;
  pending_apiKey : string;
  pending_history : list HistoryItem;
}.

(** [handleAnalyze] up to its first [await]: it has returned, or it is
    waiting with the loader on. *)
Inductive begun :=
| Returned (w : World)
| Awaiting (p : PendingAnalysis) (w : World).

Definition handleAnalyze_begin (e : Environment) (w : World) : begun :=
  match imageFile (state w) with
  | None => Returned (update (setError msg_no_image) w)
  | Some file =>
      let apiKey := resolveApiKey e w in
      if negb (truthy apiKey) then
        let w := update (setIsSettingsModalOpen true) w in
        Returned (update (setError msg_need_key) w)
      else
        let p := {| pending_file := file; pending_apiKey := apiKey;
                    pending_history := history (state w) |} in
        let w := update (setIsLoading true) w in
        let w := update (setError EmptyString) w in
        let w := update (setResult None) w in
        Awaiting p w
  end.

(** What the awaited calls of the [try] block come to: the text of what is
    thrown, or the parsed answer. *)
Definition analysis_outcome (H : Host) (file : file_outcome) (apiKey : string)
  : string + AnalysisResult :=
  match compressImage file (ctx_available H) with
  | inl _ => inl "Error: 이미지 처리 실패: 파일이 너무 크거나 손상되었습니다."
  | inr base64Data =>
      match generateContent H apiKey base64Data with
      | Throws e => inl e
      | Responds text =>
          let text := or_else text EmptyString in
          if negb (truthy text) then inl "Error: AI 응답이 없습니다."
          else JSON_parse_result H text
      end
  end.

(** [saveToHistory] as the closure runs it: [history] is the captured list,
    whatever the state holds by now. *)
Definition saveToHistory_closure (H : Host) (captured : list HistoryItem)
    (today : string) (now : Z) (newResult : AnalysisResult) (w : World)
  : World :=
  let newItem := stamp today now newResult in
  let updatedHistory := newItem :: captured in
  let w := update (setHistory updatedHistory) w in
  setItem "scolio_history" (JSON_stringify_history H updatedHistory) w.

(** The rest of [handleAnalyze] once the awaited calls have settled, on the
    world as it is by then. *)
Definition handleAnalyze_settle (H : Host) (today : string) (now : Z)
    (p : PendingAnalysis) (w : World) : World :=
  let w :=
    match analysis_outcome H (pending_file p) (pending_apiKey p) with
    | inr resultJson =>
        let w := update (setResult (Some resultJson)) w in
        saveToHistory_closure H (pending_history p) today now resultJson w
    | inl e => handleAnalyze_catch e w
    end in
  update (setIsLoading false) w.

(** ** The component as a machine *)

(** The host as it behaves during one analysis: the JSON functions and the
    environment of [H], with the given canvas support and model. *)
Definition answering (H : Host) (ctx : bool)
    (model : string -> canvas -> ai_response) : Host :=
  {| env := env H;
     JSON_parse_history := JSON_parse_history H;
     JSON_stringify_history := JSON_stringify_history H;
     JSON_parse_result := JSON_parse_result H;
     ctx_available := ctx;
     generateContent := model |}.

(** The session and the analysis in flight, if any. *)
Record Running := {
  session : Session;
  in_flight : option PendingAnalysis;
}.

Inductive event :=
| SelectFiles (files : option (list file_outcome)) (objectURL : string)
| ClickAnalyze
| AnalysisSettles (ctx : bool) (model : string -> canvas -> ai_response)
    (today : string) (now : Z)
| SaveKey (key : string)
| ClickReset
| OpenSettings
| CloseSettings
| OpenHistory
| CloseHistory
| OpenConsultation
| CloseConsultation.

Definition on_core (f : World -> World) (r : Running) : Running :=
  {| session := {| core := f (core (session r)); panel := panel (session r) |};
     in_flight := in_flight r |}.

Definition on_panel (f : PanelState -> PanelState) (r : Running) : Running :=
  {| session := {| core := core (session r); panel := f (panel (session r)) |};
     in_flight := in_flight r |}.

(** One event.  A click on the analyze button counts only while the button
    is rendered, and only an analysis in flight can settle; the other
    events are taken at any time. *)
Definition step (H : Host) (ev : event) (r : Running) : Running :=
  match ev with
  | SelectFiles files objectURL =>
      {| session := handleFileSelect files objectURL (session r);
         in_flight := in_flight r |}
  | ClickAnalyze =>
      if analyze_button_rendered (App_render (session r)) then
        match handleAnalyze_begin (env H) (core (session r)) with
        | Returned w =>
            {| session := {| core := w; panel := panel (session r) |};
               in_flight := in_flight r |}
        | Awaiting p w =>
            {| session := {| core := w; panel := panel (session r) |};
               in_flight := Some p |}
        end
      else r
  | AnalysisSettles ctx model today now =>
      match in_flight r with
      | Some p =>
          {| session :=
               {| core := handleAnalyze_settle (answering H ctx model)
                            today now p (core (session r));
                  panel := panel (session r) |};
             in_flight := None |}
      | None => r
      end
  | SaveKey key => on_core (handleSaveApiKey key) r
  | ClickReset =>
      {| session := handleReset (session r); in_flight := in_flight r |}
  | OpenSettings => on_core (update (setIsSettingsModalOpen true)) r
  | CloseSettings => on_core (update (setIsSettingsModalOpen false)) r
  | OpenHistory => on_panel (setIsHistoryModalOpen true) r
  | CloseHistory => on_panel (setIsHistoryModalOpen false) r
  | OpenConsultation =>
      on_panel (fun p => setIsConsultationModalOpen true (setFormMessage None p)) r
  | CloseConsultation => on_panel (setIsConsultationModalOpen false) r
  end.

Definition run (H : Host) (evs : list event) (r : Running) : Running :=
  fold_left (fun r ev => step H ev r) evs r.

Definition booted (H : Host) (store : gmap string string) : Running :=
  {| session := start H store; in_flight := None |}.

(** ** The first revision of the style function *)

(** [getResultCardClassName] as it was before the Inconclusive answer
    existed (the first [App] of [index.tsx]). *)
Definition getResultCardClassName_first (classification : string) : string :=
  let c := toLowerCase classification in
  if String.eqb c "normal" then "normal"
  else if String.eqb c "mild" then "mild"
  else if String.eqb c "high-risk" then "high-risk"
  else EmptyString.

(** ** Invariants of the machine *)

Definition app_state (r : Running) : AppState := state (core (session r)).

(** The loader is on exactly while an analysis is in flight, and the
    closure in flight holds the current history and faces no result. *)
Definition flight_coherent (r : Running) : Prop :=
  match in_flight r with
  | Some p =>
      isLoading (app_state r) = true /\
      pending_history p = history (app_state r) /\
      result (app_state r) = None
  | None => isLoading (app_state r) = false
  end.

(** The two key indicators tell the truth: [envKeyDetected] is whether the
    environment has a key and [manualApiKey] is the saved key, empty when
    there is none. *)
Definition keys_coherent (H : Host) (r : Running) : Prop :=
  envKeyDetected (app_state r) = truthy (apiKey (getEnvConfig (env H))) /\
  manualApiKey (app_state r)
    = or_else (getItem "gemini_api_key" (core (session r))) EmptyString.

(** A key as [handleSaveApiKey] accepts and stores it. *)
Definition well_formed_key (k : string) : Prop :=
  (10 < String.length k)%nat /\ trim k = k.

Definition stored_key_ok (store : gmap string string) : Prop :=
  match store !! "gemini_api_key" with
  | Some k => well_formed_key k
  | None => True
  end.

(** A string that does not begin with white space. *)
Definition starts_clean (s : string) : Prop :=
  match s with
  | EmptyString => True
  | String c _ => is_space c = false
  end.

(** The number of analyses that settle in a run of events. *)
Definition settles (ev : event) : bool :=
  match ev with
  | AnalysisSettles _ _ _ _ => true
  | _ => false
  end.

(** A Number that is not negative: a zero, a positive finite value or
    positive infinity. *)
Definition non_negative (x : number) : bool :=
  match x with
  | S754_zero _ => true
  | S754_finite s _ _ => negb s
  | S754_infinity s => negb s
  | S754_nan => false
  end.

(** The canvas of the same picture turned by a quarter. *)
Definition transpose (c : canvas) : canvas :=
  Canvas (canvas_height c) (canvas_width c).

(** The aliases of one configuration value, in the order they are tried. *)
Definition aliases (e : Environment) (vite a b c : string)
  : list (option string) :=
  [ lookup_in (import_meta_env e) vite;
    lookup_in (process_env e) a;
    lookup_in (process_env e) b;
    lookup_in (process_env e) c ].

(** The five messages the [catch] block can set. *)
Definition catch_messages : list string :=
  [msg_quota; msg_auth; msg_bad_image; msg_policy; msg_generic +:+ msg_network].

(** The form after the inputs changed, first change first. *)
Definition typed (changes : list (string * string)) : gmap string string :=
  fold_left (fun fd c => handleChange (fst c) (snd c) fd) changes initial_formData.

(** A host whose library and model never answer, with the sample JSON
    functions. *)
Definition silent_host : Host := sample_host no_key_env (Throws "unused").

Definition sample_store : gmap string string :=
  <["gemini_api_key" := "AIzaSyTESTKEY1234"]> ∅.

Definition mild_answer (_ : string) (_ : canvas) : ai_response :=
  Responds (Some (answer_text "12" "Mild")).

Definition busy_model (_ : string) (_ : canvas) : ai_response :=
  Throws "ApiError: 429 RESOURCE_EXHAUSTED".

(** ** Rounding of binary64 results

    The invariant of the right shifts that [binary_round_aux] performs before
    rounding: the record after [k] shifts describes [m] cut at [2^k], that
    is, the quotient, and where the remainder lies with respect to the
    half. *)
Definition shifted (m k : Z) (mrs : shr_record) : Prop :=
  (shr_m mrs = m / 2 ^ k /\
   match shr_r mrs, shr_s mrs with
   | false, false => m mod 2 ^ k = 0
   | false, true => 0 < m mod 2 ^ k /\ 2 * (m mod 2 ^ k) < 2 ^ k
   | true, false => 2 * (m mod 2 ^ k) = 2 ^ k
   | true, true => 2 ^ k < 2 * (m mod 2 ^ k)
   end)%Z.

(** * Properties *)

Local Open Scope Z_scope.

(** ** Integers as binary64 numbers *)

Lemma digits2_size p : digits2_pos p = Pos.size p.
Proof. induction p; simpl; congruence. Qed.

Lemma digits2_bounds p :
  2 ^ (Zpos (digits2_pos p) - 1) <= Zpos p < 2 ^ Zpos (digits2_pos p).
Proof.
  rewrite digits2_size. split.
  - pose proof (Pos.size_le p) as H.
    assert (Hs : Zpos (2 ^ Pos.size p) <= Zpos (2 * p)) by exact H.
    rewrite Pos2Z.inj_pow in Hs.
    replace (Zpos (Pos.size p)) with (Z.succ (Zpos (Pos.size p) - 1)) in Hs by lia.
    rewrite Z.pow_succ_r in Hs by lia. lia.
  - pose proof (Pos.size_gt p) as H.
    assert (Hs : Zpos p < Zpos (2 ^ Pos.size p)) by exact H.
    now rewrite Pos2Z.inj_pow in Hs.
Qed.

Lemma iter_xO_Z p k : Zpos (Pos.iter xO p k) = Zpos p * 2 ^ Zpos k.
Proof.
  revert p. induction k using Pos.peano_ind; intros p.
  - simpl. lia.
  - rewrite Pos.iter_succ, Pos2Z.inj_succ, Z.pow_succ_r by lia.
    rewrite Pos2Z.inj_xO, IHk. lia.
Qed.

Lemma digits2_iter_xO p k :
  digits2_pos (Pos.iter xO p k) = (digits2_pos p + k)%positive.
Proof.
  induction k using Pos.peano_ind.
  - simpl. lia.
  - rewrite Pos.iter_succ. simpl. rewrite IHk. lia.
Qed.

Lemma binary_round_aux_canonical s m e :
  Zpos (digits2_pos m) = 53 -> -1021 <= e <= 971 ->
  binary_round_aux prec emax s (Zpos m) e loc_Exact = S754_finite s m e.
Proof.
  intros Hd He. unfold binary_round_aux, shr_fexp. cbn [Zdigits2 shr_record_of_loc].
  rewrite Hd.
  assert (H0 : fexp prec emax (53 + e) - e = 0) by (unfold fexp, SpecFloat.emin, prec, emax; lia).
  rewrite H0. cbn [shr shr_m loc_of_shr_record round_nearest_even Zdigits2].
  rewrite Hd, H0. cbn [shr shr_m].
  unfold prec, emax. destruct (Z.leb_spec e (1024 - 53)); [reflexivity | lia].
Qed.

Lemma of_int_pos p :
  Zpos p < 2 ^ 53 ->
  of_int (Zpos p) = S754_finite false (mantissa p) (Zpos (digits2_pos p) - 53).
Proof.
  intros Hp. pose proof (digits2_bounds p) as [Hlo Hhi].
  assert (Hd : Zpos (digits2_pos p) <= 53).
  { destruct (Z.le_gt_cases (Zpos (digits2_pos p)) 53) as [|Hgt]; [assumption|].
    assert (2 ^ 53 <= 2 ^ (Zpos (digits2_pos p) - 1)) by (apply Z.pow_le_mono_r; lia). lia. }
  unfold of_int, binary_normalize, binary_round, shl_align.
  assert (Hf : fexp prec emax (Zpos (digits2_pos p) + 0) = Zpos (digits2_pos p) - 53)
    by (unfold fexp, SpecFloat.emin, prec, emax; lia).
  rewrite Hf. unfold mantissa.
  destruct (Zpos (digits2_pos p) - 53 - 0) as [|q|q] eqn:Hq; try lia.
  - assert (Hd53 : Zpos (digits2_pos p) = 53) by lia.
    rewrite Hd53. simpl (53 - 53). rewrite Z.mul_1_r. simpl Z.to_pos.
    apply binary_round_aux_canonical; lia.
  - replace (53 - Zpos (digits2_pos p)) with (Zpos q) by lia.
    rewrite <- iter_xO_Z. simpl Z.to_pos.
    apply binary_round_aux_canonical; [|lia].
    rewrite digits2_iter_xO. lia.
Qed.

Lemma digits2_le_53 p : Zpos p < 2 ^ 53 -> Zpos (digits2_pos p) <= 53.
Proof.
  intros Hp. pose proof (digits2_bounds p) as [Hlo _].
  destruct (Z.le_gt_cases (Zpos (digits2_pos p)) 53) as [|Hgt]; [assumption|].
  assert (2 ^ 53 <= 2 ^ (Zpos (digits2_pos p) - 1)) by (apply Z.pow_le_mono_r; lia).
  lia.
Qed.

Lemma mantissa_Z p :
  Zpos p < 2 ^ 53 ->
  Zpos (mantissa p) = Zpos p * 2 ^ (53 - Zpos (digits2_pos p)).
Proof.
  intros Hp. pose proof (digits2_le_53 p Hp).
  unfold mantissa. rewrite Z2Pos.id; [reflexivity|].
  apply Z.mul_pos_pos; [lia|]. apply Z.pow_pos_nonneg; lia.
Qed.

Lemma digits2_mono p q :
  Zpos (digits2_pos p) < Zpos (digits2_pos q) -> Zpos p < Zpos q.
Proof.
  intros Hd. pose proof (digits2_bounds p) as [_ Hp].
  pose proof (digits2_bounds q) as [Hq _].
  assert (2 ^ Zpos (digits2_pos p) <= 2 ^ (Zpos (digits2_pos q) - 1))
    by (apply Z.pow_le_mono_r; lia).
  lia.
Qed.

Lemma gt_of_int a b :
  0 <= a < 2 ^ 53 -> 0 <= b < 2 ^ 53 ->
  gt (of_int a) (of_int b) = (b <? a).
Proof.
  intros Ha Hb. destruct a as [|p|p], b as [|q|q]; try lia.
  - reflexivity.
  - rewrite (of_int_pos q) by lia. reflexivity.
  - rewrite (of_int_pos p) by lia. reflexivity.
  - rewrite (of_int_pos p), (of_int_pos q) by lia.
    unfold gt, SFltb, SFcompare.
    destruct (Z.compare_spec (Zpos (digits2_pos q) - 53) (Zpos (digits2_pos p) - 53))
      as [He|He|He].
    + rewrite Pos.compare_cont_spec. cbn [Pos.switch_Eq].
      change ((mantissa q ?= mantissa p)%positive)
        with (Zpos (mantissa q) ?= Zpos (mantissa p)).
      rewrite !mantissa_Z by lia.
      replace (Zpos (digits2_pos q)) with (Zpos (digits2_pos p)) by lia.
      set (k := 2 ^ (53 - Zpos (digits2_pos p))).
      assert (Hk : 0 < k)
        by (apply Z.pow_pos_nonneg; [lia | pose proof (digits2_le_53 p); lia]).
      destruct (Z.compare_spec (Zpos q * k) (Zpos p * k)) as [Hc|Hc|Hc];
        destruct (Z.ltb_spec (Zpos q) (Zpos p)); try reflexivity; nia.
    + assert (Zpos q < Zpos p) by (apply digits2_mono; lia).
      destruct (Z.ltb_spec (Zpos q) (Zpos p)); [reflexivity | lia].
    + assert (Zpos p < Zpos q) by (apply digits2_mono; lia).
      destruct (Z.ltb_spec (Zpos q) (Zpos p)); [lia | reflexivity].
Qed.

Lemma to_unsigned_long_of_int a :
  0 <= a < 2 ^ 32 -> to_unsigned_long (of_int a) = a.
Proof.
  intros Ha. destruct a as [|p|p]; try lia; [reflexivity|].
  assert (Hp : Zpos p < 2 ^ 53) by lia.
  rewrite of_int_pos by assumption.
  pose proof (digits2_le_53 p Hp) as Hd.
  unfold to_unsigned_long, int_part. cbn [cond_Zopp].
  rewrite mantissa_Z by assumption.
  rewrite Z.shiftl_div_pow2 by lia.
  replace (- (Zpos (digits2_pos p) - 53)) with (53 - Zpos (digits2_pos p)) by lia.
  rewrite Z.div_mul by (apply Z.pow_nonzero; lia).
  apply Z.mod_small. lia.
Qed.

(** ** Image Preparer *)

Example scaled_3071_4096 : scaled 3071 4096 = 767.
Proof. vm_compute. reflexivity. Qed.

(** The exact quotient 1568 * 1024 / 3136 is 512, the binary64 product is
    just below it. *)
Example scaled_1568_3136 : scaled 1568 3136 = 511.
Proof. vm_compute. reflexivity. Qed.

Example resize_800_600 : resize 800 600 = (of_int 800, of_int 600).
Proof. vm_compute. reflexivity. Qed.

Lemma resize_wide w h :
  0 <= w < 2 ^ 32 -> 0 <= h < 2 ^ 32 -> h < w -> 1024 < w ->
  resize w h = (MAX_WIDTH, mul (of_int h) (div MAX_WIDTH (of_int w))).
Proof.
  intros Hw Hh Hlt Hbig. unfold resize, MAX_WIDTH.
  rewrite !gt_of_int by lia.
  destruct (Z.ltb_spec h w); [|lia].
  destruct (Z.ltb_spec 1024 w); [reflexivity|lia].
Qed.

Lemma resize_tall w h :
  0 <= w < 2 ^ 32 -> 0 <= h < 2 ^ 32 -> w <= h -> 1024 < h ->
  resize w h = (mul (of_int w) (div MAX_HEIGHT (of_int h)), MAX_HEIGHT).
Proof.
  intros Hw Hh Hle Hbig. unfold resize, MAX_HEIGHT.
  rewrite !gt_of_int by lia.
  destruct (Z.ltb_spec h w); [lia|].
  destruct (Z.ltb_spec 1024 h); [reflexivity|lia].
Qed.

Lemma resize_small w h :
  0 <= w <= 1024 -> 0 <= h <= 1024 ->
  resize w h = (of_int w, of_int h).
Proof.
  intros Hw Hh. unfold resize, MAX_WIDTH, MAX_HEIGHT.
  rewrite !gt_of_int by lia.
  destruct (Z.ltb_spec h w);
    [destruct (Z.ltb_spec 1024 w) | destruct (Z.ltb_spec 1024 h)];
    solve [reflexivity | lia].
Qed.

(** C1, as amended.  For an image of [w] by [h] pixels (both below 2^32):
    when the width is greater than the height and greater than 1024, the
    canvas is 1024 wide and its height is the binary64 product
    [h * (1024 / w)] cut to its integer part (truncated, not rounded); when
    the height is at least the width and greater than 1024, the canvas is
    1024 high and its width is [w * (1024 / h)] cut in the same way. *)
Theorem compressImage_scales_by_truncation w h :
  0 <= w < 2 ^ 32 -> 0 <= h < 2 ^ 32 ->
  (h < w -> 1024 < w ->
   compressImage (Loaded w h) true = inr (Canvas 1024 (scaled h w))) /\
  (w <= h -> 1024 < h ->
   compressImage (Loaded w h) true = inr (Canvas (scaled w h) 1024)).
Proof.
  intros Hw Hh. split; intros Hcmp Hbig; unfold compressImage, canvas_of.
  - rewrite resize_wide by assumption. reflexivity.
  - rewrite resize_tall by assumption. reflexivity.
Qed.

Lemma compressImage_scales_by_truncation_witness :
  compressImage (Loaded 4096 3071) true = inr (Canvas 1024 767) /\
  compressImage (Loaded 1568 1568) true = inr (Canvas 1023 1024).
Proof.
  split.
  - apply (proj1 (compressImage_scales_by_truncation 4096 3071
                    ltac:(lia) ltac:(lia))); lia.
  - apply (proj2 (compressImage_scales_by_truncation 1568 1568
                    ltac:(lia) ltac:(lia))); lia.
Defined.

(** C1 as stated fails: a 4096 by 3071 image is wider than high and wider
    than 1024, the rounded height would be 768 (from 767.75), and the canvas
    is 767 high. *)
Lemma compressImage_rounding_counterexample :
  3071 <= 4096 /\ 1024 < 4096 /\
  compressImage (Loaded 4096 3071) true = inr (Canvas 1024 767) /\
  round_div (3071 * 1024) 4096 = 768 /\
  compressImage (Loaded 4096 3071) true
    <> inr (Canvas 1024 (round_div (3071 * 1024) 4096)).
Proof.
  repeat split; try lia; try (vm_compute; reflexivity).
  vm_compute. discriminate.
Qed.

(** C2.  An image whose width and height are both at most 1024 is not
    scaled: the canvas has exactly the size of the image. *)
Theorem compressImage_no_upscale w h :
  0 <= w <= 1024 -> 0 <= h <= 1024 ->
  compressImage (Loaded w h) true = inr (Canvas w h).
Proof.
  intros Hw Hh. unfold compressImage, canvas_of.
  rewrite resize_small by assumption. cbn [fst snd].
  rewrite !to_unsigned_long_of_int by lia. reflexivity.
Qed.

Lemma compressImage_no_upscale_witness :
  compressImage (Loaded 800 600) true = inr (Canvas 800 600).
Proof. apply compressImage_no_upscale; lia. Defined.
(** ** Result Interpreter *)

Example toLowerCase_high_risk : toLowerCase "HIGH-RISK" = "high-risk".
Proof. reflexivity. Qed.

Example getResultCardClassName_mild : getResultCardClassName "Mild" = "mild".
Proof. reflexivity. Qed.

Lemma getResultCardClassName_lower s t :
  same_ignoring_case s t ->
  getResultCardClassName s = getResultCardClassName t.
Proof. unfold same_ignoring_case, getResultCardClassName. now intros ->. Qed.

Lemma getResultContent_lower s t :
  same_ignoring_case s t -> getResultContent s = getResultContent t.
Proof. unfold same_ignoring_case, getResultContent. now intros ->. Qed.

Lemma eqb_false_of_neq (a b : string) : a <> b -> String.eqb a b = false.
Proof. intros H. now apply String.eqb_neq. Qed.

(** C6.  The Result Interpreter is defined on every string and only ever
    answers one of the three style classes or the empty class; its answers
    depend on the string up to letter case only; the four classifications
    get their tiers and texts in any letter case (["HIGH-RISK"] exactly as
    ["High-Risk"], the danger tier); every other string, such as ["foo"],
    gets the empty class (no severity styling) and the "check your results"
    text. *)
Theorem result_interpreter_total :
  (forall s, In (getResultCardClassName s) ["normal"; "mild"; "high-risk"; EmptyString]) /\
  (forall s t, same_ignoring_case s t ->
     getResultCardClassName s = getResultCardClassName t /\
     getResultContent s = getResultContent t) /\
  (forall s, same_ignoring_case s "Normal" ->
     tier_of_class (getResultCardClassName s) = Ok) /\
  (forall s, same_ignoring_case s "Mild" ->
     tier_of_class (getResultCardClassName s) = Warning) /\
  (forall s, same_ignoring_case s "High-Risk" ->
     tier_of_class (getResultCardClassName s) = Danger) /\
  (forall s, same_ignoring_case s "Inconclusive" ->
     getResultContent s = getResultContent "Inconclusive" /\
     getResultContent s <> getResultContent "foo") /\
  (getResultCardClassName "HIGH-RISK" = getResultCardClassName "High-Risk" /\
   getResultContent "HIGH-RISK" = getResultContent "High-Risk" /\
   tier_of_class (getResultCardClassName "HIGH-RISK") = Danger) /\
  (forall s,
     ~ same_ignoring_case s "Normal" -> ~ same_ignoring_case s "Mild" ->
     ~ same_ignoring_case s "High-Risk" ->
     ~ same_ignoring_case s "Inconclusive" ->
     getResultCardClassName s = EmptyString /\
     tier_of_class (getResultCardClassName s) = Neutral /\
     getResultContent s = [Text "분석 결과를 확인하세요."]) /\
  (getResultCardClassName "foo" = EmptyString /\
   getResultContent "foo" = [Text "분석 결과를 확인하세요."]).
Proof.
  split; [|split; [|split; [|split; [|split; [|split; [|split; [|split]]]]]]].
  - intros s. unfold getResultCardClassName.
    repeat match goal with |- context [String.eqb ?a ?b] => destruct (String.eqb a b) end;
      cbn; tauto.
  - intros s t Hst. split;
      [now apply getResultCardClassName_lower | now apply getResultContent_lower].
  - intros s Hs. now rewrite (getResultCardClassName_lower _ _ Hs).
  - intros s Hs. now rewrite (getResultCardClassName_lower _ _ Hs).
  - intros s Hs. now rewrite (getResultCardClassName_lower _ _ Hs).
  - intros s Hs. rewrite (getResultContent_lower _ _ Hs). split; [reflexivity|].
    vm_compute. discriminate.
  - repeat split.
  - intros s Hn Hm Hh Hi. unfold same_ignoring_case in *.
    change (toLowerCase "Normal") with "normal" in Hn.
    change (toLowerCase "Mild") with "mild" in Hm.
    change (toLowerCase "High-Risk") with "high-risk" in Hh.
    change (toLowerCase "Inconclusive") with "inconclusive" in Hi.
    unfold getResultCardClassName, getResultContent.
    rewrite !eqb_false_of_neq by assumption. repeat split.
  - split; reflexivity.
Qed.

Lemma result_interpreter_total_witness :
  tier_of_class (getResultCardClassName "HIGH-RISK") = Danger /\
  tier_of_class (getResultCardClassName "mild") = Warning /\
  getResultCardClassName "foo" = EmptyString /\
  getResultContent "foo" = [Text "분석 결과를 확인하세요."].
Proof.
  destruct result_interpreter_total
    as (_ & _ & _ & Hmild & Hhigh & _ & _ & Hother & _).
  split; [apply Hhigh; reflexivity|].
  split; [apply Hmild; reflexivity|].
  destruct (Hother "foo") as (Hclass & _ & Htext);
    try (vm_compute; discriminate).
  split; [exact Hclass | exact Htext].
Defined.

(** C10.  In any letter case, ["Inconclusive"] gets the style class of
    ["High-Risk"], that is ["high-risk"] (the danger tier), not the empty
    class of the neutral tier. *)
Theorem inconclusive_is_styled_as_high_risk s :
  same_ignoring_case s "Inconclusive" ->
  getResultCardClassName s = getResultCardClassName "High-Risk" /\
  getResultCardClassName s = "high-risk" /\
  tier_of_class (getResultCardClassName s) = Danger /\
  getResultCardClassName s <> EmptyString.
Proof.
  intros Hs. rewrite (getResultCardClassName_lower _ _ Hs).
  repeat split. vm_compute. discriminate.
Qed.

Lemma inconclusive_is_styled_as_high_risk_witness :
  same_ignoring_case "inCONclusive" "Inconclusive" /\
  getResultCardClassName "inCONclusive" = "high-risk".
Proof.
  split; [reflexivity|].
  apply (inconclusive_is_styled_as_high_risk "inCONclusive"). reflexivity.
Defined.


(** ** Rendering of the angle *)

Lemma minus_one_finite : minus_one = S754_finite true 4503599627370496 (-52).
Proof. reflexivity. Qed.

Lemma strict_eq_minus_one x : strict_eq x minus_one = true -> x = minus_one.
Proof.
  rewrite minus_one_finite. unfold strict_eq, SFeqb, SFcompare.
  destruct x as [s|s| |s m e]; try discriminate.
  - destruct s; discriminate.
  - destruct s; [|discriminate].
    destruct (Z.compare_spec e (-52)) as [He|He|He]; try discriminate.
    rewrite Pos.compare_cont_spec. cbn [Pos.switch_Eq].
    destruct (Pos.compare_spec m 4503599627370496) as [Hm|Hm|Hm];
      try discriminate.
    intros _. now subst.
Qed.

Lemma gt_minus_one_self : gt minus_one minus_one = false.
Proof. reflexivity. Qed.


(** C3, as amended.  The placeholder follows the angle, not the
    classification: whenever [cobbAngle] is the sentinel -1 the result card
    shows ["--"] (before the degree sign) and a history entry shows ["--"],
    neither shows a number; for every other angle the result card shows the
    number with one decimal, whatever the classification. *)
Theorem placeholder_follows_the_angle :
  (forall r, strict_eq (cobbAngle r) minus_one = true ->
     result_angle_view r = [Lit "--"; Lit "°"] /\
     shows_number (result_angle_view r) = false) /\
  (forall h, strict_eq (cobbAngle (item h)) minus_one = true ->
     history_angle_view h = [Lit "--"] /\
     shows_number (history_angle_view h) = false) /\
  (forall r, strict_eq (cobbAngle r) minus_one = false ->
     result_angle_view r = [ToFixed1 (cobbAngle r); Lit "°"]).
Proof.
  split; [|split].
  - intros r Hr. unfold result_angle_view. rewrite Hr. split; reflexivity.
  - intros h Hh. apply strict_eq_minus_one in Hh.
    unfold history_angle_view. rewrite Hh, gt_minus_one_self. split; reflexivity.
  - intros r Hr. unfold result_angle_view. now rewrite Hr.
Qed.


Lemma placeholder_follows_the_angle_witness :
  result_angle_view inconclusive_minus_one = [Lit "--"; Lit "°"] /\
  history_angle_view (stamp "2025. 1. 2." 1735776000000 inconclusive_minus_one)
    = [Lit "--"] /\
  result_angle_view mild_12 = [ToFixed1 (of_int 12); Lit "°"].
Proof.
  destruct placeholder_follows_the_angle as (Hcard & Hentry & Hnumber).
  split; [apply (Hcard inconclusive_minus_one); reflexivity|].
  split.
  - apply (Hentry (stamp "2025. 1. 2." 1735776000000 inconclusive_minus_one)).
    reflexivity.
  - apply (Hnumber mild_12). reflexivity.
Defined.

(** C3 as stated fails: when the model answers
    [{"cobbAngle":12,"classification":"Inconclusive"}], [handleAnalyze]
    stores that result as it is; its classification is Inconclusive, its
    angle is not -1, and both the result card and the history entry show the
    number 12. *)
Lemma inconclusive_with_a_number_counterexample :
  result (state (handleAnalyze
                   (sample_host no_key_env
                      (Responds (Some (answer_text "12" "Inconclusive"))))
                   "2025. 1. 1." 1735689600000
                   (photo_picked (Some "AIzaSyTESTKEY1234"))))
    = Some inconclusive_12 /\
  history (state (handleAnalyze
                    (sample_host no_key_env
                       (Responds (Some (answer_text "12" "Inconclusive"))))
                    "2025. 1. 1." 1735689600000
                    (photo_picked (Some "AIzaSyTESTKEY1234"))))
    = [stamp "2025. 1. 1." 1735689600000 inconclusive_12] /\
  classification inconclusive_12 = "Inconclusive" /\
  cobbAngle inconclusive_12 <> minus_one /\
  result_angle_view inconclusive_12 = [ToFixed1 (of_int 12); Lit "°"] /\
  history_angle_view (stamp "2025. 1. 1." 1735689600000 inconclusive_12)
    = [NumToString (of_int 12); Lit "°"] /\
  shows_number (result_angle_view inconclusive_12) = true /\
  shows_placeholder (result_angle_view inconclusive_12) = false.
Proof.
  repeat split; try reflexivity. vm_compute. discriminate.
Qed.

(** ** Credential Resolver *)

Example trim_padded : trim "  AIzaSyTESTKEY1234 " = "AIzaSyTESTKEY1234".
Proof. reflexivity. Qed.

Example trim_blank : trim "   " = EmptyString.
Proof. reflexivity. Qed.

Example getEnvConfig_process_key :
  apiKey (getEnvConfig process_key_env) = "AIzaSyENVIRONMENTKEY".
Proof. vm_compute. reflexivity. Qed.

Lemma truthy_false s : truthy s = false <-> s = EmptyString.
Proof.
  unfold truthy. rewrite negb_false_iff. apply String.eqb_eq.
Qed.

Lemma truthy_true s : truthy s = true <-> s <> EmptyString.
Proof.
  unfold truthy. rewrite negb_true_iff. apply String.eqb_neq.
Qed.


Lemma apiKey_getEnvConfig e :
  apiKey (getEnvConfig e) = first_non_empty (environment_keys e).
Proof.
  unfold getEnvConfig, environment_keys, vite_var, process_fallback, lookup_in.
  cbn [apiKey first_non_empty].
  destruct (import_meta_env e) as [m|], (process_env e) as [pm|]; cbn [or_else].
  - destruct (m !! "VITE_API_KEY") as [v|]; cbn [or_else].
    + destruct (truthy v) eqn:Hv; cbn [negb]; [now rewrite Hv | reflexivity].
    + reflexivity.
  - destruct (m !! "VITE_API_KEY") as [v|]; cbn [or_else].
    + destruct (truthy v) eqn:Hv; cbn [negb]; [now rewrite Hv | reflexivity].
    + reflexivity.
  - reflexivity.
  - reflexivity.
Qed.

Lemma first_non_empty_app l saved :
  first_non_empty (l ++ [saved]) =
  if truthy (first_non_empty l) then first_non_empty l
  else or_else saved EmptyString.
Proof.
  induction l as [|c l IH]; [reflexivity|].
  cbn [List.app first_non_empty]. rewrite IH.
  destruct c as [v|]; cbn [or_else]; [|reflexivity].
  destruct (truthy v) eqn:Hv; [now rewrite Hv | reflexivity].
Qed.

Lemma resolveApiKey_in_sync e w :
  key_in_sync w ->
  resolveApiKey e w =
  if truthy (apiKey (getEnvConfig e)) then apiKey (getEnvConfig e)
  else or_else (getItem "gemini_api_key" w) EmptyString.
Proof.
  intros Hsync. unfold resolveApiKey.
  destruct (truthy (apiKey (getEnvConfig e))) eqn:He; cbn [negb].
  - now rewrite He.
  - destruct Hsync as [Hm|Hm].
    + rewrite Hm. reflexivity.
    + destruct (truthy (manualApiKey (state w))) eqn:Hk; cbn [negb].
      * rewrite Hm. cbn [or_else]. now rewrite Hk.
      * reflexivity.
Qed.

Lemma key_in_sync_initial store : key_in_sync (initial_world store).
Proof. now left. Qed.

Lemma key_in_sync_initialize H store :
  key_in_sync (App_initialize H (initial_world store)).
Proof.
  unfold App_initialize, key_in_sync, getItem. cbn.
  repeat case_match; cbn; auto.
Qed.

Lemma key_in_sync_save key w :
  key_in_sync w -> key_in_sync (handleSaveApiKey key w).
Proof.
  intros Hs. unfold handleSaveApiKey.
  destruct (10 <? String.length (trim key))%nat; [|exact Hs].
  right. unfold getItem. cbn. apply lookup_insert_eq.
Qed.

Lemma key_in_sync_saveToHistory H today now r w :
  key_in_sync w -> key_in_sync (saveToHistory H today now r w).
Proof.
  intros [Hs|Hs]; [now left | right].
  unfold getItem, saveToHistory in *. cbn.
  rewrite lookup_insert_ne by discriminate. exact Hs.
Qed.

Lemma handleAnalyze_keeps_key H today now w :
  manualApiKey (state (handleAnalyze H today now w)) = manualApiKey (state w) /\
  getItem "gemini_api_key" (handleAnalyze H today now w)
    = getItem "gemini_api_key" w.
Proof.
  unfold handleAnalyze, handleAnalyze_run, handleAnalyze_try,
    handleAnalyze_catch, saveToHistory, getItem.
  repeat case_match; simplify_eq; cbn; split; try reflexivity;
    now rewrite lookup_insert_ne.
Qed.

Lemma key_in_sync_handleAnalyze H today now w :
  key_in_sync w -> key_in_sync (handleAnalyze H today now w).
Proof.
  unfold key_in_sync.
  destruct (handleAnalyze_keeps_key H today now w) as [-> ->]. tauto.
Qed.


(** C4.  In a session whose in-memory key agrees with the saved key, and
    with a photo picked: the key used by [handleAnalyze] is the first
    non-empty one among the environment key under its aliases (in the order
    VITE_API_KEY, REACT_APP_API_KEY, NEXT_PUBLIC_API_KEY, API_KEY) and then
    the key saved on the device.  So a non-empty environment key wins, with
    none the saved key is used, the analysis runs with the key found, and
    with no key at all the analysis does not start: the settings panel is
    opened and the "API key needed" message is set. *)
Theorem credential_resolution_order H today now w file :
  key_in_sync w ->
  imageFile (state w) = Some file ->
  let envKey := first_non_empty (environment_keys (env H)) in
  let saved := or_else (getItem "gemini_api_key" w) EmptyString in
  apiKey (getEnvConfig (env H)) = envKey /\
  resolveApiKey (env H) w =
    first_non_empty (environment_keys (env H) ++ [getItem "gemini_api_key" w]) /\
  (envKey <> EmptyString -> resolveApiKey (env H) w = envKey) /\
  (envKey = EmptyString -> resolveApiKey (env H) w = saved) /\
  (resolveApiKey (env H) w <> EmptyString ->
   handleAnalyze H today now w =
   handleAnalyze_run H today now file (resolveApiKey (env H) w) w) /\
  (envKey = EmptyString -> saved = EmptyString ->
   handleAnalyze H today now w =
   update (setError msg_need_key) (update (setIsSettingsModalOpen true) w)).
Proof.
  intros Hsync Hfile envKey saved.
  assert (Henv : apiKey (getEnvConfig (env H)) = envKey) by apply apiKey_getEnvConfig.
  assert (Hres : resolveApiKey (env H) w =
                 if truthy envKey then envKey else saved).
  { rewrite resolveApiKey_in_sync by assumption. now rewrite Henv. }
  split; [exact Henv|]. split.
  { rewrite first_non_empty_app. exact Hres. }
  split; [|split; [|split]].
  - intros Hne. apply truthy_true in Hne. now rewrite Hres, Hne.
  - intros He. apply truthy_false in He. now rewrite Hres, He.
  - intros Hne. unfold handleAnalyze. rewrite Hfile.
    apply truthy_true in Hne. now rewrite Hne.
  - intros He Hs. unfold handleAnalyze. rewrite Hfile.
    apply truthy_false in He. rewrite Hres, He, Hs. reflexivity.
Qed.

Lemma credential_resolution_order_witness :
  resolveApiKey no_key_env (photo_picked (Some "AIzaSyTESTKEY1234"))
    = "AIzaSyTESTKEY1234" /\
  resolveApiKey process_key_env (photo_picked (Some "AIzaSyTESTKEY1234"))
    = "AIzaSyENVIRONMENTKEY" /\
  isSettingsModalOpen
    (state (handleAnalyze (sample_host no_key_env (Throws "unused"))
            "2025. 1. 1." 1735689600000 (photo_picked None))) = true.
Proof.
  pose proof (credential_resolution_order
                (sample_host no_key_env (Throws "unused"))
                "2025. 1. 1." 1735689600000
                (photo_picked (Some "AIzaSyTESTKEY1234")) (Loaded 800 600)
                (or_intror eq_refl) eq_refl) as (_ & _ & _ & Hsaved & _).
  pose proof (credential_resolution_order
                (sample_host process_key_env (Throws "unused"))
                "2025. 1. 1." 1735689600000
                (photo_picked (Some "AIzaSyTESTKEY1234")) (Loaded 800 600)
                (or_intror eq_refl) eq_refl) as (_ & _ & Henv & _).
  pose proof (credential_resolution_order
                (sample_host no_key_env (Throws "unused"))
                "2025. 1. 1." 1735689600000
                (photo_picked None) (Loaded 800 600)
                (or_introl eq_refl) eq_refl) as (_ & _ & _ & _ & _ & Hnone).
  split; [exact (Hsaved eq_refl)|].
  split; [apply Henv; discriminate|].
  rewrite (Hnone eq_refl eq_refl). reflexivity.
Defined.


(** C5.  [handleSaveApiKey] on a candidate whose trimmed length is at most
    10 changes neither the storage nor the state and reports the "enter a
    valid key" alert; on a candidate whose trimmed length is above 10 it
    writes the trimmed key under ['gemini_api_key'] (over any previous
    value) and into the session, so that the next key lookup returns it
    unless an environment key takes precedence. *)
Theorem save_key_threshold key w :
  ((String.length (trim key) <= 10)%nat ->
   localStorage (handleSaveApiKey key w) = localStorage w /\
   state (handleSaveApiKey key w) = state w /\
   alerts (handleSaveApiKey key w)
     = (alerts w ++ ["유효한 API Key를 입력해주세요."])%list) /\
  ((10 < String.length (trim key))%nat ->
   localStorage (handleSaveApiKey key w)
     = <["gemini_api_key" := trim key]> (localStorage w) /\
   getItem "gemini_api_key" (handleSaveApiKey key w) = Some (trim key) /\
   manualApiKey (state (handleSaveApiKey key w)) = trim key /\
   forall e,
     resolveApiKey e (handleSaveApiKey key w) =
     if truthy (first_non_empty (environment_keys e))
     then first_non_empty (environment_keys e) else trim key).
Proof.
  unfold handleSaveApiKey. split; intros Hlen.
  - destruct (Nat.ltb_spec 10 (String.length (trim key))); [lia|].
    repeat split.
  - destruct (Nat.ltb_spec 10 (String.length (trim key))); [|lia].
    split; [reflexivity|]. split; [apply lookup_insert_eq|].
    split; [reflexivity|]. intros e.
    unfold resolveApiKey. rewrite apiKey_getEnvConfig.
    destruct (truthy (first_non_empty (environment_keys e))) eqn:He; cbn [negb].
    + now rewrite He.
    + cbn [state update setIsSettingsModalOpen setError setManualApiKey
             manualApiKey alert setItem].
      assert (Ht : truthy (trim key) = true).
      { apply truthy_true. intros Hk. rewrite Hk in *. cbn in *. lia. }
      now rewrite Ht.
Qed.

Lemma save_key_threshold_witness :
  localStorage (handleSaveApiKey "short" (initial_world ∅)) = ∅ /\
  getItem "gemini_api_key"
    (handleSaveApiKey "  AIzaSyTESTKEY1234 "
       (initial_world (<["gemini_api_key" := "AIzaSyOLDKEY0000"]> ∅)))
    = Some "AIzaSyTESTKEY1234" /\
  resolveApiKey no_key_env
    (handleSaveApiKey "  AIzaSyTESTKEY1234 "
       (initial_world (<["gemini_api_key" := "AIzaSyOLDKEY0000"]> ∅)))
    = "AIzaSyTESTKEY1234".
Proof.
  pose proof (proj1 (save_key_threshold "short" (initial_world ∅))
                ltac:(vm_compute; lia)) as (Hstore & _).
  pose proof (proj2 (save_key_threshold "  AIzaSyTESTKEY1234 "
                       (initial_world (<["gemini_api_key" := "AIzaSyOLDKEY0000"]> ∅)))
                ltac:(vm_compute; lia)) as (_ & Hget & _ & Hres).
  split; [exact Hstore|]. split; [exact Hget|]. exact (Hres no_key_env).
Defined.

(** ** History Store *)

Section History.

Variable H : Host.


Lemma saveToHistory_history today now r w :
  history (state (saveToHistory H today now r w))
    = stamp today now r :: history (state w).
Proof. reflexivity. Qed.

Lemma saveToHistory_stored today now r w :
  getItem "scolio_history" (saveToHistory H today now r w)
    = Some (JSON_stringify_history H (stamp today now r :: history (state w))).
Proof. unfold getItem, saveToHistory, setItem. cbn. apply lookup_insert_eq. Qed.

Lemma saveAll_history calls w :
  history (state (saveAll H calls w))
    = (rev (map stamp_call calls) ++ history (state w))%list.
Proof.
  revert w. induction calls as [|[[today now] r] calls IH]; intros w.
  - reflexivity.
  - cbn [saveAll map rev]. rewrite IH, saveToHistory_history.
    rewrite <- app_assoc. reflexivity.
Qed.

Lemma saveAll_stored calls w :
  calls <> [] ->
  getItem "scolio_history" (saveAll H calls w)
    = Some (JSON_stringify_history H (history (state (saveAll H calls w)))).
Proof.
  revert w. induction calls as [|[[today now] r] calls IH]; intros w Hne.
  - contradiction.
  - cbn [saveAll]. destruct calls as [|c calls'].
    + cbn [saveAll]. apply saveToHistory_stored.
    + apply IH. discriminate.
Qed.

End History.


(** C7.  Each [saveToHistory] puts one new record, carrying the given date
    and timestamp and the result's angle and classification, in front of the
    history and writes the whole new sequence under ['scolio_history']; a
    run of appends from any state leaves the records most recent first in
    front of the earlier history, in memory and in storage; three appends to
    an empty history leave exactly three records, the last one first. *)
Theorem history_append_prepends H :
  (forall today now r,
     date (item (stamp today now r)) = Some today /\
     timestamp (stamp today now r) = now /\
     cobbAngle (item (stamp today now r)) = cobbAngle r /\
     classification (item (stamp today now r)) = classification r) /\
  (forall today now r w,
     history (state (saveToHistory H today now r w))
       = stamp today now r :: history (state w) /\
     getItem "scolio_history" (saveToHistory H today now r w)
       = Some (JSON_stringify_history H
                 (history (state (saveToHistory H today now r w))))) /\
  (forall calls w,
     history (state (saveAll H calls w))
       = (rev (map stamp_call calls) ++ history (state w))%list /\
     (calls <> [] ->
      getItem "scolio_history" (saveAll H calls w)
        = Some (JSON_stringify_history H (history (state (saveAll H calls w)))))) /\
  (forall c1 c2 c3 w,
     history (state w) = [] ->
     history (state (saveAll H [c1; c2; c3] w))
       = [stamp_call c3; stamp_call c2; stamp_call c1] /\
     getItem "scolio_history" (saveAll H [c1; c2; c3] w)
       = Some (JSON_stringify_history H
                 [stamp_call c3; stamp_call c2; stamp_call c1]) /\
     length (history (state (saveAll H [c1; c2; c3] w))) = 3%nat).
Proof.
  split; [|split; [|split]].
  - intros today now r. repeat split.
  - intros today now r w. split;
      [apply saveToHistory_history | apply saveToHistory_stored].
  - intros calls w. split; [apply saveAll_history | apply saveAll_stored].
  - intros c1 c2 c3 w Hempty.
    assert (Hh : history (state (saveAll H [c1; c2; c3] w))
                 = [stamp_call c3; stamp_call c2; stamp_call c1]).
    { rewrite saveAll_history, Hempty. reflexivity. }
    split; [exact Hh|]. split.
    + rewrite saveAll_stored by discriminate. now rewrite Hh.
    + now rewrite Hh.
Qed.


Lemma history_append_prepends_witness :
  map timestamp
    (history (state (saveAll (sample_host no_key_env (Throws "unused"))
                       three_calls (initial_world ∅))))
    = [1735862400000; 1735776000000; 1735689600000]%Z /\
  getItem "scolio_history"
    (saveAll (sample_host no_key_env (Throws "unused"))
       three_calls (initial_world ∅))
    = Some "[Inconclusive,Inconclusive,Mild]".
Proof.
  destruct (history_append_prepends (sample_host no_key_env (Throws "unused")))
    as (_ & _ & _ & Hthree).
  destruct (Hthree ("2025. 1. 1.", 1735689600000%Z, mild_12)
                   ("2025. 1. 2.", 1735776000000%Z, inconclusive_minus_one)
                   ("2025. 1. 3.", 1735862400000%Z, inconclusive_12)
                   (initial_world ∅) eq_refl) as (Hh & Hs & _).
  split.
  - unfold three_calls. rewrite Hh. reflexivity.
  - unfold three_calls. rewrite Hs. reflexivity.
Defined.

(** C8.  At start-up, when ['scolio_history'] is missing or holds a value
    that [JSON.parse] rejects, the history is the empty list, no error
    message is set, no alert is shown, no panel is opened and the storage is
    left as it was. *)
Theorem history_load_is_lenient H store :
  (store !! "scolio_history" = None \/
   exists s, store !! "scolio_history" = Some s /\ JSON_parse_history H s = None) ->
  history (state (App_initialize H (initial_world store))) = [] /\
  error (state (App_initialize H (initial_world store))) = EmptyString /\
  isSettingsModalOpen (state (App_initialize H (initial_world store))) = false /\
  alerts (App_initialize H (initial_world store)) = [] /\
  localStorage (App_initialize H (initial_world store)) = store.
Proof.
  intros Hbad. unfold App_initialize, getItem. cbn.
  destruct (store !! "gemini_api_key") as [k|]; [destruct (truthy k)|]; cbn;
    (destruct Hbad as [Hnone | (s & Hs & Hparse)];
     [rewrite Hnone | rewrite Hs, Hparse; destruct (truthy s)]);
    repeat split.
Qed.

Lemma history_load_is_lenient_witness :
  history (state (App_initialize (sample_host no_key_env (Throws "unused"))
                    (initial_world (<["scolio_history" := "[{oops"]> ∅)))) = [] /\
  history (state (App_initialize (sample_host no_key_env (Throws "unused"))
                    (initial_world ∅))) = [].
Proof.
  split.
  - apply (history_load_is_lenient (sample_host no_key_env (Throws "unused"))
             (<["scolio_history" := "[{oops"]> ∅)).
    right. exists "[{oops". split; reflexivity.
  - apply (history_load_is_lenient (sample_host no_key_env (Throws "unused")) ∅).
    left. reflexivity.
Defined.

(** ** Failures of the analysis *)

Example includes_429 : includes "apierror: 429 resource_exhausted" "429" = true.
Proof. reflexivity. Qed.

Lemma handleAnalyze_catch_quota e w :
  includes (toLowerCase e) "429" = true \/ includes (toLowerCase e) "quota" = true ->
  handleAnalyze_catch e w
    = update (setError msg_quota) (update (setIsSettingsModalOpen true) w).
Proof.
  intros Hq. unfold handleAnalyze_catch.
  assert (Hor : includes (toLowerCase e) "429" || includes (toLowerCase e) "quota" = true)
    by (apply orb_true_iff; exact Hq).
  now rewrite Hor.
Qed.

Lemma handleAnalyze_catch_unmatched e w :
  Forall (fun sub => includes (toLowerCase e) sub = false)
    ["429"; "quota"; "key"; "403"; "401"; "400"; "safety"] ->
  handleAnalyze_catch e w = update (setError (msg_generic +:+ msg_network)) w.
Proof.
  intros Hall. unfold handleAnalyze_catch.
  repeat match goal with
         | Hf : Forall _ (_ :: _) |- _ =>
             apply Forall_cons_iff in Hf; destruct Hf as [? Hf]
         end.
  repeat match goal with Hi : includes _ _ = false |- _ => rewrite Hi; clear Hi end.
  reflexivity.
Qed.


(** C9.  In the [catch] block, an error whose lower-cased text contains
    ["429"] or ["quota"] always gets the quota message and opens the
    settings panel, whatever else the text contains (the test comes before
    the tests for the key, bad-input and content-policy texts); a text with
    none of the seven substrings gets the generic message with the network
    hint and leaves the panel as it was; and when the model call itself
    throws such a 429 or quota error, [handleAnalyze] ends with that
    message, the panel open, the loading flag cleared and no result. *)
Theorem rate_limit_is_classified_first :
  (forall e w,
     includes (toLowerCase e) "429" = true \/ includes (toLowerCase e) "quota" = true ->
     error (state (handleAnalyze_catch e w)) = msg_quota /\
     isSettingsModalOpen (state (handleAnalyze_catch e w)) = true) /\
  (forall e w,
     Forall (fun sub => includes (toLowerCase e) sub = false)
       ["429"; "quota"; "key"; "403"; "401"; "400"; "safety"] ->
     error (state (handleAnalyze_catch e w)) = msg_generic +:+ msg_network /\
     isSettingsModalOpen (state (handleAnalyze_catch e w))
       = isSettingsModalOpen (state w)) /\
  (forall H today now w file c e,
     imageFile (state w) = Some file ->
     resolveApiKey (env H) w <> EmptyString ->
     compressImage file (ctx_available H) = inr c ->
     generateContent H (resolveApiKey (env H) w) c = Throws e ->
     includes (toLowerCase e) "429" = true \/ includes (toLowerCase e) "quota" = true ->
     error (state (handleAnalyze H today now w)) = msg_quota /\
     isSettingsModalOpen (state (handleAnalyze H today now w)) = true /\
     isLoading (state (handleAnalyze H today now w)) = false /\
     result (state (handleAnalyze H today now w)) = None /\
     history (state (handleAnalyze H today now w)) = history (state w)).
Proof.
  split; [|split].
  - intros e w Hq. now rewrite handleAnalyze_catch_quota.
  - intros e w Hall. now rewrite handleAnalyze_catch_unmatched.
  - intros H today now w file c e Hfile Hkey Hc Hthrow Hq.
    unfold handleAnalyze. rewrite Hfile.
    apply truthy_true in Hkey. rewrite Hkey. cbn [negb].
    unfold handleAnalyze_run, handleAnalyze_try.
    rewrite Hc, Hthrow, handleAnalyze_catch_quota by assumption.
    repeat split.
Qed.

Lemma rate_limit_is_classified_first_witness :
  error (state (handleAnalyze_catch
                  "ApiError: 429 quota exceeded for this API key (safety 400)"
                  (initial_world ∅))) = msg_quota /\
  error (state (handleAnalyze_catch "TypeError: Failed to fetch"
                  (initial_world ∅))) = msg_generic +:+ msg_network /\
  isSettingsModalOpen
    (state (handleAnalyze
              (sample_host no_key_env (Throws "ApiError: 429 RESOURCE_EXHAUSTED"))
              "2025. 1. 1." 1735689600000
              (photo_picked (Some "AIzaSyTESTKEY1234")))) = true.
Proof.
  destruct rate_limit_is_classified_first as (Hquota & Hother & Hend).
  split; [|split].
  - apply Hquota. left. reflexivity.
  - apply Hother. repeat constructor.
  - apply (Hend (sample_host no_key_env (Throws "ApiError: 429 RESOURCE_EXHAUSTED"))
             "2025. 1. 1." 1735689600000%Z
             (photo_picked (Some "AIzaSyTESTKEY1234"))
             (Loaded 800 600) (Canvas 800 600) "ApiError: 429 RESOURCE_EXHAUSTED");
      first [reflexivity | discriminate | (left; reflexivity)].
Defined.

(** ** The component as a machine *)

Lemma run_app H evs ev r : run H (evs ++ [ev]) r = step H ev (run H evs r).
Proof. unfold run. now rewrite fold_left_app. Qed.

Lemma run_invariant H (P : Running -> Prop) r0 :
  P r0 -> (forall ev r, P r -> P (step H ev r)) ->
  forall evs, P (run H evs r0).
Proof.
  intros H0 Hstep evs. induction evs as [|ev evs IH] using rev_ind.
  - exact H0.
  - rewrite run_app. now apply Hstep.
Qed.

Lemma analysis_outcome_try H today now file k w :
  handleAnalyze_try H today now file k w =
  match analysis_outcome H file k with
  | inl e => inl e
  | inr r => inr (saveToHistory H today now r (update (setResult (Some r)) w))
  end.
Proof.
  unfold handleAnalyze_try, analysis_outcome.
  repeat case_match; simplify_eq; reflexivity.
Qed.

Lemma handleAnalyze_begin_settle H today now w :
  handleAnalyze H today now w =
  match handleAnalyze_begin (env H) w with
  | Returned w' => w'
  | Awaiting p w' => handleAnalyze_settle H today now p w'
  end.
Proof.
  unfold handleAnalyze, handleAnalyze_begin.
  destruct (imageFile (state w)) as [file|]; [|reflexivity].
  destruct (negb (truthy (resolveApiKey (env H) w))); [reflexivity|].
  unfold handleAnalyze_run, handleAnalyze_settle.
  rewrite analysis_outcome_try. cbn [pending_file pending_apiKey pending_history].
  destruct (analysis_outcome H file (resolveApiKey (env H) w)); reflexivity.
Qed.

Lemma button_needs_idle s :
  analyze_button_rendered (App_render s) = true ->
  isLoading (state (core s)) = false /\
  result (state (core s)) = None /\
  imageFile (state (core s)) <> None.
Proof.
  unfold analyze_button_rendered, App_render. cbn [main].
  destruct (result (state (core s))); [discriminate|].
  destruct (imageFile (state (core s))); [|discriminate].
  cbn [preview_loading]. intros Hb. apply negb_true_iff in Hb. now repeat split.
Qed.

Lemma handleSaveApiKey_keeps key w :
  isLoading (state (handleSaveApiKey key w)) = isLoading (state w) /\
  history (state (handleSaveApiKey key w)) = history (state w) /\
  result (state (handleSaveApiKey key w)) = result (state w) /\
  imageFile (state (handleSaveApiKey key w)) = imageFile (state w) /\
  envKeyDetected (state (handleSaveApiKey key w)) = envKeyDetected (state w) /\
  getItem "scolio_history" (handleSaveApiKey key w) = getItem "scolio_history" w.
Proof.
  unfold handleSaveApiKey, getItem.
  destruct (10 <? String.length (trim key))%nat; cbn; repeat split.
  now rewrite lookup_insert_ne.
Qed.

Lemma flight_coherent_booted H store : flight_coherent (booted H store).
Proof.
  unfold flight_coherent, booted, start, app_state, App_initialize, getItem. cbn.
  repeat case_match; reflexivity.
Qed.

Lemma flight_coherent_step H ev r :
  flight_coherent r -> flight_coherent (step H ev r).
Proof.
  intros Hr. destruct ev; cbn [step]; try exact Hr.
  - (* SelectFiles *)
    unfold flight_coherent, app_state, handleFileSelect in *. cbn.
    destruct files as [[|file files]|]; try exact Hr.
    cbn. destruct (in_flight r); [|exact Hr]. tauto.
  - (* ClickAnalyze *)
    destruct (analyze_button_rendered (App_render (session r))) eqn:Hb;
      [|exact Hr].
    apply button_needs_idle in Hb as (Hidle & Hres & Hfile).
    unfold flight_coherent, app_state in Hr.
    destruct (in_flight r) as [p|] eqn:Hp; [destruct Hr; congruence|].
    unfold handleAnalyze_begin.
    destruct (imageFile (state (core (session r)))) as [file|]; [|congruence].
    destruct (negb (truthy (resolveApiKey (env H) (core (session r))))).
    + unfold flight_coherent, app_state. cbn. assumption.
    + unfold flight_coherent, app_state. cbn. auto.
  - (* AnalysisSettles *)
    destruct (in_flight r) as [p|] eqn:Hp; [|exact Hr].
    unfold flight_coherent, app_state. cbn. reflexivity.
  - (* SaveKey *)
    destruct (handleSaveApiKey_keeps key (core (session r)))
      as (Hl & Hh & Hres & _).
    unfold flight_coherent, app_state, on_core in *.
    cbn [session core in_flight]. rewrite Hl, Hh, Hres. exact Hr.
  - (* ClickReset *)
    unfold flight_coherent, app_state, handleReset in *. cbn.
    destruct (in_flight r); [|exact Hr]. tauto.
Qed.

Lemma flight_coherent_run H store evs :
  flight_coherent (run H evs (booted H store)).
Proof.
  apply run_invariant; [apply flight_coherent_booted|].
  intros ev r. apply flight_coherent_step.
Qed.

Lemma handleAnalyze_catch_keeps e w :
  manualApiKey (state (handleAnalyze_catch e w)) = manualApiKey (state w) /\
  envKeyDetected (state (handleAnalyze_catch e w)) = envKeyDetected (state w) /\
  imageFile (state (handleAnalyze_catch e w)) = imageFile (state w) /\
  history (state (handleAnalyze_catch e w)) = history (state w) /\
  result (state (handleAnalyze_catch e w)) = result (state w) /\
  isLoading (state (handleAnalyze_catch e w)) = isLoading (state w) /\
  localStorage (handleAnalyze_catch e w) = localStorage w /\
  alerts (handleAnalyze_catch e w) = alerts w.
Proof. unfold handleAnalyze_catch. repeat case_match; repeat split. Qed.

Lemma handleAnalyze_settle_keeps H today now p w :
  manualApiKey (state (handleAnalyze_settle H today now p w))
    = manualApiKey (state w) /\
  envKeyDetected (state (handleAnalyze_settle H today now p w))
    = envKeyDetected (state w) /\
  imageFile (state (handleAnalyze_settle H today now p w))
    = imageFile (state w) /\
  getItem "gemini_api_key" (handleAnalyze_settle H today now p w)
    = getItem "gemini_api_key" w.
Proof.
  unfold handleAnalyze_settle.
  destruct (analysis_outcome H (pending_file p) (pending_apiKey p)) as [e|res].
  - destruct (handleAnalyze_catch_keeps e w) as (Hm & He & Hi & _ & _ & _ & Hs & _).
    unfold getItem. cbn. now rewrite Hm, He, Hi, Hs.
  - unfold getItem, saveToHistory_closure. cbn. repeat split.
    now rewrite lookup_insert_ne.
Qed.

Lemma handleAnalyze_begin_keeps e w :
  match handleAnalyze_begin e w with
  | Returned w' | Awaiting _ w' =>
      manualApiKey (state w') = manualApiKey (state w) /\
      envKeyDetected (state w') = envKeyDetected (state w) /\
      imageFile (state w') = imageFile (state w) /\
      history (state w') = history (state w) /\
      localStorage w' = localStorage w
  end.
Proof.
  unfold handleAnalyze_begin.
  destruct (imageFile (state w)) eqn:Hf; [|cbn; rewrite Hf; now repeat split].
  destruct (negb (truthy (resolveApiKey e w))); cbn; rewrite Hf; now repeat split.
Qed.

Lemma well_formed_key_truthy k : well_formed_key k -> truthy k = true.
Proof.
  intros [Hlen _]. apply truthy_true. intros ->. cbn in Hlen. lia.
Qed.

Lemma keys_coherent_booted H store : keys_coherent H (booted H store).
Proof.
  unfold keys_coherent, booted, start, app_state, App_initialize, getItem. cbn.
  destruct (store !! "gemini_api_key") as [k|] eqn:Hk; cbn;
    [destruct (truthy k) eqn:Ht|];
    repeat case_match; cbn; rewrite ?Hk; cbn; rewrite ?Ht; split; reflexivity.
Qed.

Lemma keys_coherent_step H ev r :
  keys_coherent H r -> keys_coherent H (step H ev r).
Proof.
  intros Hr. destruct ev; cbn [step]; try exact Hr.
  - unfold handleFileSelect. destruct files as [[|file files]|]; exact Hr.
  - destruct (analyze_button_rendered (App_render (session r))); [|exact Hr].
    pose proof (handleAnalyze_begin_keeps (env H) (core (session r))) as Hk.
    unfold keys_coherent, app_state, getItem in *.
    destruct (handleAnalyze_begin (env H) (core (session r)));
      destruct Hk as (Hm & He & _ & _ & Hs); cbn; now rewrite Hm, He, Hs.
  - destruct (in_flight r) as [p|]; [|exact Hr].
    destruct (handleAnalyze_settle_keeps (answering H ctx model) today now p
                (core (session r))) as (Hm & He & _ & Hs).
    unfold keys_coherent, app_state in *. cbn [session core].
    now rewrite Hm, He, Hs.
  - unfold keys_coherent, app_state, on_core in *. cbn [session core].
    destruct (handleSaveApiKey_keeps key (core (session r)))
      as (_ & _ & _ & _ & He & _).
    rewrite He. split; [apply Hr|].
    unfold handleSaveApiKey, getItem.
    destruct (10 <? String.length (trim key))%nat eqn:Hlen; [|apply Hr].
    cbn. rewrite lookup_insert_eq. cbn.
    assert (Ht : truthy (trim key) = true).
    { apply truthy_true. intros Hk. rewrite Hk in Hlen. discriminate. }
    now rewrite Ht.
Qed.

Lemma keys_coherent_run H store evs :
  keys_coherent H (run H evs (booted H store)).
Proof.
  apply run_invariant; [apply keys_coherent_booted|].
  intros ev r. apply keys_coherent_step.
Qed.

Lemma resolveApiKey_coherent H r :
  keys_coherent H r ->
  resolveApiKey (env H) (core (session r)) =
  if envKeyDetected (app_state r) then apiKey (getEnvConfig (env H))
  else manualApiKey (app_state r).
Proof.
  intros [He Hm]. unfold app_state in *. rewrite resolveApiKey_in_sync.
  - now rewrite He, Hm.
  - unfold key_in_sync. rewrite Hm.
    destruct (getItem "gemini_api_key" (core (session r))) as [k|]; cbn;
      [destruct (truthy k); auto | auto].
Qed.

(** ** Trimming *)

Lemma trimStart_starts_clean s : starts_clean (trimStart s).
Proof.
  induction s as [|c s IH]; cbn; [exact I|].
  destruct (is_space c) eqn:Hc; [exact IH | exact Hc].
Qed.

Lemma trimStart_clean s : starts_clean s -> trimStart s = s.
Proof. destruct s as [|c s]; cbn; [reflexivity|]. now intros ->. Qed.

Lemma trimEnd_starts_clean s : starts_clean s -> starts_clean (trimEnd s).
Proof.
  destruct s as [|c s]; cbn; [exact id|]. intros Hc.
  destruct (trimEnd s); [rewrite Hc|]; exact Hc.
Qed.

Lemma trimEnd_cons c s :
  trimEnd (String c s) =
  match trimEnd s with
  | EmptyString => if is_space c then EmptyString else String c EmptyString
  | t => String c t
  end.
Proof. reflexivity. Qed.

Lemma trimEnd_idempotent s : trimEnd (trimEnd s) = trimEnd s.
Proof.
  induction s as [|c s IH]; [reflexivity|]. rewrite (trimEnd_cons c s).
  destruct (trimEnd s) as [|d t] eqn:Ht.
  - destruct (is_space c) eqn:Hc; cbn; [reflexivity | now rewrite Hc].
  - rewrite trimEnd_cons, IH. reflexivity.
Qed.

Lemma trim_idempotent s : trim (trim s) = trim s.
Proof.
  unfold trim.
  rewrite (trimStart_clean (trimEnd (trimStart s))).
  - apply trimEnd_idempotent.
  - apply trimEnd_starts_clean, trimStart_starts_clean.
Qed.

Lemma trimStart_length s : (String.length (trimStart s) <= String.length s)%nat.
Proof.
  induction s as [|c s IH]; cbn; [lia|]. destruct (is_space c); cbn; lia.
Qed.

Lemma trimEnd_length s : (String.length (trimEnd s) <= String.length s)%nat.
Proof.
  induction s as [|c s IH]; cbn; [lia|].
  destruct (trimEnd s); [destruct (is_space c)|]; cbn in *; lia.
Qed.

Lemma trim_length s : (String.length (trim s) <= String.length s)%nat.
Proof.
  unfold trim. etransitivity; [apply trimEnd_length | apply trimStart_length].
Qed.

(** X1.  While an analysis is in flight the analyze button is not rendered
    (the loader is), so a click on it cannot start a second analysis. *)
Theorem one_analysis_at_a_time H store evs p :
  in_flight (run H evs (booted H store)) = Some p ->
  analyze_button_rendered (App_render (session (run H evs (booted H store))))
    = false /\
  step H ClickAnalyze (run H evs (booted H store)) = run H evs (booted H store).
Proof.
  intros Hp. pose proof (flight_coherent_run H store evs) as Hc.
  unfold flight_coherent in Hc. rewrite Hp in Hc. destruct Hc as (Hload & _).
  assert (Hb : analyze_button_rendered
                 (App_render (session (run H evs (booted H store)))) = false).
  { destruct (analyze_button_rendered _) eqn:Hb; [|reflexivity].
    apply button_needs_idle in Hb as (Hidle & _). unfold app_state in Hload.
    congruence. }
  split; [exact Hb|]. cbn [step]. now rewrite Hb.
Qed.

(** X6.  In every reachable state the alert dot on the settings button is
    shown exactly when no key can be found; when the analyze button is there,
    a click with the dot shown is refused (the key message is set and the
    settings panel opens), and a click with the dot off starts an analysis
    with a non-empty key. *)
Theorem alert_dot_tells_missing_key H store evs :
  showSettingsAlert (app_state (run H evs (booted H store)))
    = negb (truthy (resolveApiKey (env H)
                      (core (session (run H evs (booted H store)))))) /\
  (analyze_button_rendered
     (App_render (session (run H evs (booted H store)))) = true ->
   (showSettingsAlert (app_state (run H evs (booted H store))) = true ->
    error (app_state (step H ClickAnalyze (run H evs (booted H store))))
      = msg_need_key /\
    isSettingsModalOpen
      (app_state (step H ClickAnalyze (run H evs (booted H store)))) = true /\
    in_flight (step H ClickAnalyze (run H evs (booted H store))) = None) /\
   (showSettingsAlert (app_state (run H evs (booted H store))) = false ->
    exists p,
      in_flight (step H ClickAnalyze (run H evs (booted H store))) = Some p /\
      pending_apiKey p <> EmptyString /\
      isLoading (app_state (step H ClickAnalyze (run H evs (booted H store))))
        = true /\
      error (app_state (step H ClickAnalyze (run H evs (booted H store))))
        = EmptyString)).
Proof.
  set (r := run H evs (booted H store)).
  assert (Hdot : showSettingsAlert (app_state r)
                 = negb (truthy (resolveApiKey (env H) (core (session r))))).
  { pose proof (keys_coherent_run H store evs) as Hk. fold r in Hk.
    rewrite (resolveApiKey_coherent H _ Hk). destruct Hk as [He Hm].
    unfold showSettingsAlert.
    destruct (envKeyDetected (app_state r)) eqn:Hd.
    - cbn [negb andb]. now rewrite <- He.
    - reflexivity. }
  split; [exact Hdot|]. intros Hb. cbn [step]. rewrite Hb.
  apply button_needs_idle in Hb as (Hidle & _ & Hfile).
  assert (Hfree : in_flight r = None).
  { pose proof (flight_coherent_run H store evs) as Hc. fold r in Hc.
    unfold flight_coherent, app_state in Hc.
    destruct (in_flight r); [destruct Hc; congruence | reflexivity]. }
  unfold handleAnalyze_begin, app_state in *.
  destruct (imageFile (state (core (session r)))) as [file|]; [|congruence].
  rewrite <- Hdot. split.
  - intros ->. repeat split. exact Hfree.
  - intros Hoff. rewrite Hoff. eexists. split; [reflexivity|].
    cbn. repeat split. apply truthy_true.
    rewrite Hoff in Hdot. now apply negb_false_iff.
Qed.

Lemma step_history H ev r :
  flight_coherent r ->
  exists added,
    history (app_state (step H ev r)) = (added ++ history (app_state r))%list /\
    (length added <= if settles ev then 1 else 0)%nat.
Proof.
  intros Hr.
  assert (Hsame : forall r', history (app_state r') = history (app_state r) ->
            exists added,
              history (app_state r') = (added ++ history (app_state r))%list /\
              (length added <= if settles ev then 1 else 0)%nat).
  { intros r' ->. exists []. split; [reflexivity | cbn; lia]. }
  destruct ev; cbn [step]; try (apply Hsame; reflexivity).
  - apply Hsame. unfold handleFileSelect.
    destruct files as [[|file files]|]; reflexivity.
  - apply Hsame.
    destruct (analyze_button_rendered (App_render (session r))); [|reflexivity].
    pose proof (handleAnalyze_begin_keeps (env H) (core (session r))) as Hk.
    destruct (handleAnalyze_begin (env H) (core (session r)));
      destruct Hk as (_ & _ & _ & Hh & _); exact Hh.
  - destruct (in_flight r) as [p|] eqn:Hp; [|apply Hsame; reflexivity].
    unfold flight_coherent in Hr. rewrite Hp in Hr. destruct Hr as (_ & Hcap & _).
    unfold app_state, handleAnalyze_settle in *. cbn [session core].
    destruct (analysis_outcome (answering H ctx model) (pending_file p)
                (pending_apiKey p)) as [e|res].
    + exists []. split; [|cbn; lia].
      destruct (handleAnalyze_catch_keeps e (core (session r)))
        as (_ & _ & _ & Hh & _). cbn. exact Hh.
    + exists [stamp today now res]. split; [|cbn; lia]. cbn. now rewrite Hcap.
  - apply Hsame. unfold on_core, app_state. cbn [session core].
    apply handleSaveApiKey_keeps.
Qed.

(** X3.  Whatever the user does, the history is the start-up history with new
    records in front: no event removes or reorders a record, and there are at
    most as many new records as analyses that settled. *)
Theorem history_only_grows H store evs :
  exists added,
    history (app_state (run H evs (booted H store)))
      = (added ++ history (app_state (booted H store)))%list /\
    (length added <= length (List.filter settles evs))%nat.
Proof.
  induction evs as [|ev evs IH] using rev_ind.
  - exists []. split; [reflexivity | cbn; lia].
  - destruct IH as (added & Hh & Hlen). rewrite run_app.
    destruct (step_history H ev (run H evs (booted H store))
                (flight_coherent_run H store evs)) as (one & Hone & Hlen1).
    exists (one ++ added)%list. split.
    + rewrite Hone, Hh. now rewrite <- app_assoc.
    + rewrite List.filter_app, !length_app. cbn [List.filter].
      destruct (settles ev); cbn [length] in *; lia.
Qed.

(** X5.  Whenever a result is on screen, it is the newest history record: the
    history begins with that result, stamped. *)
Theorem shown_result_is_newest_record H store evs res :
  result (app_state (run H evs (booted H store))) = Some res ->
  exists today now rest,
    history (app_state (run H evs (booted H store)))
      = stamp today now res :: rest.
Proof.
  revert res.
  apply (run_invariant H (fun r => forall res,
           result (app_state r) = Some res ->
           exists today now rest,
             history (app_state r) = stamp today now res :: rest)).
  - intros res. unfold booted, start, app_state, App_initialize, getItem. cbn.
    repeat case_match; discriminate.
  - intros ev r Hr res. destruct ev; cbn [step]; try apply Hr.
    + unfold handleFileSelect.
      destruct files as [[|file files]|]; try apply Hr. discriminate.
    + destruct (analyze_button_rendered (App_render (session r))); [|apply Hr].
      unfold handleAnalyze_begin.
      destruct (imageFile (state (core (session r)))); [|apply Hr].
      destruct (negb (truthy (resolveApiKey (env H) (core (session r)))));
        [apply Hr | discriminate].
    + destruct (in_flight r) as [p|]; [|apply Hr].
      unfold app_state, handleAnalyze_settle. cbn [session core].
      destruct (analysis_outcome (answering H ctx model) (pending_file p)
                  (pending_apiKey p)) as [e|res'].
      * destruct (handleAnalyze_catch_keeps e (core (session r)))
          as (_ & _ & _ & Hh & Hres & _).
        cbn. rewrite Hh, Hres. apply Hr.
      * cbn. intros [= <-]. eauto.
    + unfold on_core, app_state. cbn [session core].
      destruct (handleSaveApiKey_keeps key (core (session r)))
        as (_ & Hh & Hres & _).
      rewrite Hh, Hres. apply Hr.
    + discriminate.
Qed.

(** X4.  The stored history is never stale: either no record was added since
    start-up and the stored value is untouched, or the stored value is the
    serialization of the history in memory. *)
Theorem stored_history_is_current H store evs :
  (history (app_state (run H evs (booted H store)))
     = history (app_state (booted H store)) /\
   getItem "scolio_history" (core (session (run H evs (booted H store))))
     = store !! "scolio_history") \/
  getItem "scolio_history" (core (session (run H evs (booted H store))))
    = Some (JSON_stringify_history H
              (history (app_state (run H evs (booted H store))))).
Proof.
  apply (run_invariant H (fun r =>
           (history (app_state r) = history (app_state (booted H store)) /\
            getItem "scolio_history" (core (session r))
              = store !! "scolio_history") \/
           getItem "scolio_history" (core (session r))
             = Some (JSON_stringify_history H (history (app_state r))))).
  - left. split; [reflexivity|].
    unfold booted, start, App_initialize, getItem. cbn.
    repeat case_match; reflexivity.
  - intros ev r Hr. destruct ev; cbn [step]; try exact Hr.
    + unfold handleFileSelect. destruct files as [[|file files]|]; exact Hr.
    + destruct (analyze_button_rendered (App_render (session r))); [|exact Hr].
      pose proof (handleAnalyze_begin_keeps (env H) (core (session r))) as Hk.
      unfold app_state, getItem in *.
      destruct (handleAnalyze_begin (env H) (core (session r)));
        destruct Hk as (_ & _ & _ & Hh & Hs); cbn [session core];
        now rewrite Hh, Hs.
    + destruct (in_flight r) as [p|]; [|exact Hr].
      unfold app_state, getItem, handleAnalyze_settle in *. cbn [session core].
      destruct (analysis_outcome (answering H ctx model) (pending_file p)
                  (pending_apiKey p)) as [e|res].
      * destruct (handleAnalyze_catch_keeps e (core (session r)))
          as (_ & _ & _ & Hh & _ & _ & Hs & _).
        cbn. now rewrite Hh, Hs.
      * right. cbn. apply lookup_insert_eq.
    + unfold on_core, app_state in *. cbn [session core].
      destruct (handleSaveApiKey_keeps key (core (session r)))
        as (_ & Hh & _ & _ & _ & Hs).
      now rewrite Hh, Hs.
Qed.

(** X7.  If the key in storage at start-up is absent or well formed (longer
    than 10 and without surrounding white space), it stays so whatever the
    user does: nothing but an accepted, trimmed key is ever written. *)
Theorem stored_key_stays_well_formed H store evs :
  stored_key_ok store ->
  stored_key_ok (localStorage (core (session (run H evs (booted H store))))).
Proof.
  intros Hok. apply (run_invariant H (fun r =>
    stored_key_ok (localStorage (core (session r))))).
  - unfold booted, start, App_initialize, getItem. cbn.
    repeat case_match; exact Hok.
  - intros ev r Hr. destruct ev; cbn [step]; try exact Hr.
    + unfold handleFileSelect. destruct files as [[|file files]|]; exact Hr.
    + destruct (analyze_button_rendered (App_render (session r))); [|exact Hr].
      pose proof (handleAnalyze_begin_keeps (env H) (core (session r))) as Hk.
      destruct (handleAnalyze_begin (env H) (core (session r)));
        destruct Hk as (_ & _ & _ & _ & Hs); cbn [session core]; now rewrite Hs.
    + destruct (in_flight r) as [p|]; [|exact Hr]. cbn [session core].
      pose proof (handleAnalyze_settle_keeps (answering H ctx model) today now
                    p (core (session r))) as (_ & _ & _ & Hs).
      unfold stored_key_ok, getItem in *. now rewrite Hs.
    + unfold on_core, stored_key_ok, handleSaveApiKey in *. cbn [session core].
      destruct (Nat.ltb_spec 10 (String.length (trim key))); [|exact Hr].
      cbn. rewrite lookup_insert_eq. split; [assumption | apply trim_idempotent].
Qed.

(** ** Failures and success of one analysis *)

Lemma internal_errors_unmatched :
  Forall (fun e =>
            Forall (fun sub => includes (toLowerCase e) sub = false)
              ["429"; "quota"; "key"; "403"; "401"; "400"; "safety"])
    ["Error: 이미지 처리 실패: 파일이 너무 크거나 손상되었습니다.";
     "Error: AI 응답이 없습니다."].
Proof. repeat constructor. Qed.

Lemma analysis_outcome_internal H file k :
  file = ReadFails \/ file = LoadFails \/ ctx_available H = false \/
  (exists c, compressImage file (ctx_available H) = inr c /\
             (generateContent H k c = Responds None \/
              generateContent H k c = Responds (Some EmptyString))) ->
  analysis_outcome H file k
    = inl "Error: 이미지 처리 실패: 파일이 너무 크거나 손상되었습니다." \/
  analysis_outcome H file k = inl "Error: AI 응답이 없습니다.".
Proof.
  unfold analysis_outcome.
  intros [-> | [-> | [Hctx | (c & Hc & Hgen)]]].
  - now left.
  - now left.
  - left. unfold compressImage. rewrite Hctx. now destruct file.
  - right. rewrite Hc. now destruct Hgen as [-> | ->].
Qed.

Lemma handleAnalyze_outcome H today now w file :
  imageFile (state w) = Some file ->
  resolveApiKey (env H) w <> EmptyString ->
  handleAnalyze H today now w =
  update (setIsLoading false)
    match analysis_outcome H file (resolveApiKey (env H) w) with
    | inl e =>
        handleAnalyze_catch e
          (update (setResult None)
             (update (setError EmptyString) (update (setIsLoading true) w)))
    | inr res =>
        saveToHistory H today now res
          (update (setResult (Some res))
             (update (setResult None)
                (update (setError EmptyString) (update (setIsLoading true) w))))
    end.
Proof.
  intros Hfile Hkey. unfold handleAnalyze. rewrite Hfile.
  apply truthy_true in Hkey. rewrite Hkey. cbn [negb].
  unfold handleAnalyze_run. rewrite analysis_outcome_try.
  now destruct (analysis_outcome H file (resolveApiKey (env H) w)).
Qed.

(** X9.  When the picture cannot be read or decoded, the canvas has no 2D
    context, or the model returns no text, [handleAnalyze] shows the generic
    message with the network hint (the text of the error thrown inside matches
    none of the substrings), leaves the settings panel as it was, clears the
    loader and records nothing. *)
Theorem internal_failures_show_generic_message H today now w file :
  imageFile (state w) = Some file ->
  resolveApiKey (env H) w <> EmptyString ->
  file = ReadFails \/ file = LoadFails \/ ctx_available H = false \/
  (exists c, compressImage file (ctx_available H) = inr c /\
             (generateContent H (resolveApiKey (env H) w) c = Responds None \/
              generateContent H (resolveApiKey (env H) w) c
                = Responds (Some EmptyString))) ->
  error (state (handleAnalyze H today now w)) = msg_generic +:+ msg_network /\
  isSettingsModalOpen (state (handleAnalyze H today now w))
    = isSettingsModalOpen (state w) /\
  result (state (handleAnalyze H today now w)) = None /\
  isLoading (state (handleAnalyze H today now w)) = false /\
  history (state (handleAnalyze H today now w)) = history (state w) /\
  localStorage (handleAnalyze H today now w) = localStorage w.
Proof.
  intros Hfile Hkey Hwhy.
  rewrite (handleAnalyze_outcome H today now w file Hfile Hkey).
  pose proof internal_errors_unmatched as Hun.
  apply Forall_cons_iff in Hun as [Himg Hun].
  apply Forall_cons_iff in Hun as [Hempty _].
  destruct (analysis_outcome_internal H file _ Hwhy) as [-> | ->];
    rewrite handleAnalyze_catch_unmatched by assumption; repeat split.
Qed.

Lemma internal_failures_show_generic_message_witness :
  error (state (handleAnalyze
                  (sample_host no_key_env (Responds None))
                  "2025. 1. 1." 1735689600000
                  (photo_picked (Some "AIzaSyTESTKEY1234"))))
    = msg_generic +:+ msg_network.
Proof.
  apply (internal_failures_show_generic_message
           (sample_host no_key_env (Responds None))
           "2025. 1. 1." 1735689600000%Z
           (photo_picked (Some "AIzaSyTESTKEY1234")) (Loaded 800 600)
           eq_refl).
  - discriminate.
  - right. right. right. exists (Canvas 800 600). split; [reflexivity|].
    left. reflexivity.
Defined.

(** X10.  In the [catch] block, an error text without 429 and quota that
    contains key, 403 or 401 gets the key message and opens the settings
    panel; without those, one that contains 400 gets the picture message, and
    without 400 one that contains safety gets the content-policy message, both
    leaving the panel as it was. *)
Theorem catch_block_branches e w :
  includes (toLowerCase e) "429" = false ->
  includes (toLowerCase e) "quota" = false ->
  (includes (toLowerCase e) "key" = true \/
   includes (toLowerCase e) "403" = true \/
   includes (toLowerCase e) "401" = true ->
   error (state (handleAnalyze_catch e w)) = msg_auth /\
   isSettingsModalOpen (state (handleAnalyze_catch e w)) = true) /\
  (includes (toLowerCase e) "key" = false ->
   includes (toLowerCase e) "403" = false ->
   includes (toLowerCase e) "401" = false ->
   (includes (toLowerCase e) "400" = true ->
    error (state (handleAnalyze_catch e w)) = msg_bad_image /\
    isSettingsModalOpen (state (handleAnalyze_catch e w))
      = isSettingsModalOpen (state w)) /\
   (includes (toLowerCase e) "400" = false ->
    includes (toLowerCase e) "safety" = true ->
    error (state (handleAnalyze_catch e w)) = msg_policy /\
    isSettingsModalOpen (state (handleAnalyze_catch e w))
      = isSettingsModalOpen (state w))).
Proof.
  intros H429 Hquota. unfold handleAnalyze_catch. rewrite H429, Hquota.
  cbn [orb]. split.
  - intros Hauth.
    assert (Hor : includes (toLowerCase e) "key" || includes (toLowerCase e) "403"
                  || includes (toLowerCase e) "401" = true).
    { rewrite !orb_true_iff. tauto. }
    rewrite Hor. split; reflexivity.
  - intros -> -> ->. cbn [orb]. split.
    + intros ->. split; reflexivity.
    + intros -> ->. split; reflexivity.
Qed.

Lemma catch_block_branches_witness :
  error (state (handleAnalyze_catch
                  "ApiError: API key not valid (400 INVALID_ARGUMENT)"
                  (initial_world ∅))) = msg_auth /\
  error (state (handleAnalyze_catch "ApiError: 400 bad request"
                  (initial_world ∅))) = msg_bad_image /\
  error (state (handleAnalyze_catch "Error: blocked by SAFETY filter"
                  (initial_world ∅))) = msg_policy.
Proof.
  split; [|split].
  - apply (proj1 (catch_block_branches
                    "ApiError: API key not valid (400 INVALID_ARGUMENT)"
                    (initial_world ∅) eq_refl eq_refl)).
    left. reflexivity.
  - apply (proj2 (catch_block_branches "ApiError: 400 bad request"
                    (initial_world ∅) eq_refl eq_refl)); reflexivity.
  - apply (proj2 (catch_block_branches "Error: blocked by SAFETY filter"
                    (initial_world ∅) eq_refl eq_refl)); reflexivity.
Defined.

Lemma handleAnalyze_catch_message e w :
  In (error (state (handleAnalyze_catch e w))) catch_messages /\
  error (state (handleAnalyze_catch e w)) <> EmptyString.
Proof.
  unfold handleAnalyze_catch, catch_messages.
  repeat case_match; cbn; split; try discriminate; tauto.
Qed.

(** X11.  The [catch] block always sets one of five messages, never the empty
    one; it never closes the settings panel, and it opens it only with the
    quota or the key message. *)
Theorem catch_block_always_reports e w :
  In (error (state (handleAnalyze_catch e w))) catch_messages /\
  error (state (handleAnalyze_catch e w)) <> EmptyString /\
  (isSettingsModalOpen (state w) = true ->
   isSettingsModalOpen (state (handleAnalyze_catch e w)) = true) /\
  (isSettingsModalOpen (state (handleAnalyze_catch e w))
     <> isSettingsModalOpen (state w) ->
   error (state (handleAnalyze_catch e w)) = msg_quota \/
   error (state (handleAnalyze_catch e w)) = msg_auth).
Proof.
  unfold handleAnalyze_catch, catch_messages.
  repeat case_match; cbn; repeat split;
    try discriminate; try tauto; try (intros; congruence).
Qed.

Lemma catch_block_always_reports_witness :
  error (state (handleAnalyze_catch
                  "ApiError: API key not valid (400 INVALID_ARGUMENT)"
                  (initial_world ∅))) = msg_quota \/
  error (state (handleAnalyze_catch
                  "ApiError: API key not valid (400 INVALID_ARGUMENT)"
                  (initial_world ∅))) = msg_auth.
Proof.
  apply (proj2 (proj2 (proj2 (catch_block_always_reports
                                "ApiError: API key not valid (400 INVALID_ARGUMENT)"
                                (initial_world ∅))))).
  vm_compute. discriminate.
Defined.

(** X12.  When the model answers with a text that parses, [handleAnalyze]
    stores the result, clears error and loader, leaves the settings panel
    alone, puts the stamped record in front of the history in memory and in
    storage, and the page shows the result cards with the style class, angle
    and text of that answer. *)
Theorem successful_analysis_is_shown_and_recorded H today now w p file c text res :
  imageFile (state w) = Some file ->
  resolveApiKey (env H) w <> EmptyString ->
  compressImage file (ctx_available H) = inr c ->
  generateContent H (resolveApiKey (env H) w) c = Responds (Some text) ->
  text <> EmptyString ->
  JSON_parse_result H text = inr res ->
  result (state (handleAnalyze H today now w)) = Some res /\
  error (state (handleAnalyze H today now w)) = EmptyString /\
  isLoading (state (handleAnalyze H today now w)) = false /\
  isSettingsModalOpen (state (handleAnalyze H today now w))
    = isSettingsModalOpen (state w) /\
  history (state (handleAnalyze H today now w))
    = stamp today now res :: history (state w) /\
  getItem "scolio_history" (handleAnalyze H today now w)
    = Some (JSON_stringify_history H (stamp today now res :: history (state w))) /\
  main (App_render {| core := handleAnalyze H today now w; panel := p |})
    = ResultsView
        {| analyzed_image := imageUrl p;
           card_class := getResultCardClassName (classification res);
           card_angle := result_angle_view res;
           card_content := getResultContent (classification res) |}.
Proof.
  intros Hfile Hkey Hc Hgen Htext Hparse.
  rewrite (handleAnalyze_outcome H today now w file Hfile Hkey).
  assert (Hout : analysis_outcome H file (resolveApiKey (env H) w) = inr res).
  { unfold analysis_outcome. rewrite Hc, Hgen. cbn [or_else].
    apply truthy_true in Htext. rewrite !Htext. cbn [negb]. exact Hparse. }
  rewrite Hout. unfold App_render, getItem, saveToHistory. cbn.
  repeat split. apply lookup_insert_eq.
Qed.

Lemma successful_analysis_is_shown_and_recorded_witness :
  result (state (handleAnalyze
                   (sample_host no_key_env
                      (Responds (Some (answer_text "12" "Mild"))))
                   "2025. 1. 1." 1735689600000
                   (photo_picked (Some "AIzaSyTESTKEY1234"))))
    = Some mild_12.
Proof.
  apply (successful_analysis_is_shown_and_recorded
           (sample_host no_key_env (Responds (Some (answer_text "12" "Mild"))))
           "2025. 1. 1." 1735689600000%Z
           (photo_picked (Some "AIzaSyTESTKEY1234")) initial_panel
           (Loaded 800 600) (Canvas 800 600) (answer_text "12" "Mild") mild_12);
    first [reflexivity | discriminate].
Defined.

(** ** Configuration *)

Lemma process_fallback_aliases e vite a b c :
  process_fallback e (vite_var e vite) a b c
    = first_non_empty (aliases e vite a b c).
Proof.
  unfold aliases, vite_var, process_fallback, lookup_in.
  cbn [first_non_empty].
  destruct (import_meta_env e) as [m|], (process_env e) as [pm|]; cbn [or_else];
    try reflexivity;
    (destruct (m !! vite) as [v|]; cbn [or_else]; [|reflexivity];
     destruct (truthy v) eqn:Hv; cbn [negb]; [now rewrite Hv | reflexivity]).
Qed.

(** X17.  Each of the three EmailJS settings of [getEnvConfig] is the first
    non-empty value among its Vite variable and its three [process.env]
    aliases, in that order, independently of the others. *)
Theorem email_settings_precedence e :
  publicKey (emailJs (getEnvConfig e))
    = first_non_empty
        (aliases e "VITE_EMAILJS_PUBLIC_KEY" "REACT_APP_EMAILJS_PUBLIC_KEY"
           "NEXT_PUBLIC_EMAILJS_PUBLIC_KEY" "EMAILJS_PUBLIC_KEY") /\
  serviceId (emailJs (getEnvConfig e))
    = first_non_empty
        (aliases e "VITE_EMAILJS_SERVICE_ID" "REACT_APP_EMAILJS_SERVICE_ID"
           "NEXT_PUBLIC_EMAILJS_SERVICE_ID" "EMAILJS_SERVICE_ID") /\
  templateId (emailJs (getEnvConfig e))
    = first_non_empty
        (aliases e "VITE_EMAILJS_TEMPLATE_ID" "REACT_APP_EMAILJS_TEMPLATE_ID"
           "NEXT_PUBLIC_EMAILJS_TEMPLATE_ID" "EMAILJS_TEMPLATE_ID").
Proof.
  unfold getEnvConfig. cbn [emailJs publicKey serviceId templateId].
  repeat split; apply process_fallback_aliases.
Qed.

(** ** Saving a key *)

(** X8.  Saving an acceptable key stores its trimmed form; saving what the
    settings panel then shows (the stored key), or the same input again,
    changes neither the storage nor the state. *)
Theorem saving_the_saved_key_again key w :
  (10 < String.length (trim key))%nat ->
  manualApiKey (state (handleSaveApiKey key w)) = trim key /\
  localStorage (handleSaveApiKey (manualApiKey (state (handleSaveApiKey key w)))
                  (handleSaveApiKey key w))
    = localStorage (handleSaveApiKey key w) /\
  manualApiKey (state (handleSaveApiKey
                         (manualApiKey (state (handleSaveApiKey key w)))
                         (handleSaveApiKey key w)))
    = trim key /\
  localStorage (handleSaveApiKey key (handleSaveApiKey key w))
    = localStorage (handleSaveApiKey key w) /\
  state (handleSaveApiKey key (handleSaveApiKey key w))
    = state (handleSaveApiKey key w).
Proof.
  intros Hlen.
  assert (Hm : manualApiKey (state (handleSaveApiKey key w)) = trim key).
  { unfold handleSaveApiKey.
    destruct (Nat.ltb_spec 10 (String.length (trim key))); [reflexivity | lia]. }
  rewrite Hm. split; [reflexivity|].
  unfold handleSaveApiKey. rewrite trim_idempotent.
  destruct (Nat.ltb_spec 10 (String.length (trim key))); [|lia].
  cbn. rewrite insert_insert_eq. repeat split.
Qed.

Lemma saving_the_saved_key_again_witness :
  localStorage (handleSaveApiKey "AIzaSyTESTKEY1234"
                  (handleSaveApiKey "  AIzaSyTESTKEY1234 " (initial_world ∅)))
    = localStorage (handleSaveApiKey "  AIzaSyTESTKEY1234 " (initial_world ∅)).
Proof.
  apply (saving_the_saved_key_again "  AIzaSyTESTKEY1234 " (initial_world ∅)).
  vm_compute. lia.
Defined.

(** ** History panel *)

(** X20.  The history panel shows the "no records" paragraph exactly for the
    empty history, and otherwise one row per record, in the order of the
    history. *)
Theorem history_panel_lists_every_record h :
  (h = [] -> HistoryModal h = NoRecords) /\
  (h <> [] ->
   HistoryModal h = Rows (map history_row h) /\
   length (map history_row h) = length h /\
   forall n i, h !! n = Some i -> map history_row h !! n = Some (history_row i)).
Proof.
  split.
  - now intros ->.
  - intros Hne. destruct h as [|i h]; [contradiction|].
    split; [reflexivity|]. split; [apply length_map|].
    intros n j Hn. rewrite list_lookup_fmap, Hn. reflexivity.
Qed.

Lemma history_panel_lists_every_record_witness :
  HistoryModal [] = NoRecords /\
  HistoryModal [stamp "2025. 1. 1." 1735689600000 mild_12]
    = Rows [history_row (stamp "2025. 1. 1." 1735689600000 mild_12)].
Proof.
  split.
  - apply (proj1 (history_panel_lists_every_record [])). reflexivity.
  - apply (proj2 (history_panel_lists_every_record
                    [stamp "2025. 1. 1." 1735689600000 mild_12])).
    discriminate.
Defined.

(** X21.  The badge label of a history row is matched exactly: only ["Normal"]
    is labelled normal and only ["Mild"] mild, every other classification gets
    the risk label.  So a record classified ["normal"] in another letter case
    gets the normal style class and the risk label. *)
Theorem history_badge_is_case_sensitive i :
  (badge_label (history_row i) = "정상" <-> classification (item i) = "Normal") /\
  (badge_label (history_row i) = "경미" <-> classification (item i) = "Mild") /\
  (classification (item i) <> "Normal" -> classification (item i) <> "Mild" ->
   badge_label (history_row i) = "위험") /\
  (same_ignoring_case (classification (item i)) "Normal" ->
   classification (item i) <> "Normal" ->
   getResultCardClassName (classification (item i)) = "normal" /\
   badge_class (history_row i) = "badge normal" /\
   badge_label (history_row i) = "위험").
Proof.
  unfold history_row. cbn [badge_label badge_class].
  destruct (String.eqb_spec (classification (item i)) "Normal") as [Hn|Hn];
    [|destruct (String.eqb_spec (classification (item i)) "Mild") as [Hm|Hm]].
  - rewrite Hn. split; [tauto|]. split; [split; discriminate|].
    split; [congruence | congruence].
  - rewrite Hm. split; [split; discriminate|]. split; [tauto|].
    split; [congruence|]. intros Hs. vm_compute in Hs. discriminate.
  - split; [split; [discriminate | contradiction]|].
    split; [split; [discriminate | contradiction]|].
    split; [reflexivity|]. intros Hs _.
    rewrite (getResultCardClassName_lower _ _ Hs).
    unfold same_ignoring_case in Hs. rewrite Hs. repeat split.
Qed.

Lemma history_badge_is_case_sensitive_witness :
  badge_label (history_row (stamp "2025. 1. 1." 1735689600000
                 {| cobbAngle := of_int 4; classification := "normal";
                    date := None |})) = "위험".
Proof.
  apply (history_badge_is_case_sensitive
           (stamp "2025. 1. 1." 1735689600000
              {| cobbAngle := of_int 4; classification := "normal";
                 date := None |})); [reflexivity | discriminate].
Defined.

(** ** Rendering of the angle *)

(** X22.  An angle that is not negative is always shown as a number, by the
    result card and by the history row; the placeholder never replaces a
    measurement. *)
Theorem measured_angles_are_shown_as_numbers r today now :
  non_negative (cobbAngle r) = true ->
  result_angle_view r = [ToFixed1 (cobbAngle r); Lit "°"] /\
  history_angle_view (stamp today now r) = [NumToString (cobbAngle r); Lit "°"].
Proof.
  intros Hx. unfold result_angle_view, history_angle_view.
  cbn [stamp item cobbAngle]. rewrite minus_one_finite.
  destruct (cobbAngle r) as [s|s| |s m e]; try discriminate.
  - split; reflexivity.
  - destruct s; [discriminate|]. split; reflexivity.
  - destruct s; [discriminate|]. split; reflexivity.
Qed.

Lemma measured_angles_are_shown_as_numbers_witness :
  result_angle_view mild_12 = [ToFixed1 (of_int 12); Lit "°"] /\
  history_angle_view (stamp "2025. 1. 1." 1735689600000 mild_12)
    = [NumToString (of_int 12); Lit "°"].
Proof.
  apply (measured_angles_are_shown_as_numbers mild_12
           "2025. 1. 1." 1735689600000%Z).
  reflexivity.
Defined.

(** ** The first revision *)

(** X23.  The style function agrees with its first revision on every
    classification except Inconclusive (in any letter case), which the first
    revision left unstyled and the current one styles as high-risk. *)
Theorem style_differs_from_first_revision_on_inconclusive_only s :
  (~ same_ignoring_case s "Inconclusive" ->
   getResultCardClassName s = getResultCardClassName_first s) /\
  (same_ignoring_case s "Inconclusive" ->
   getResultCardClassName_first s = EmptyString /\
   getResultCardClassName s = "high-risk").
Proof.
  unfold same_ignoring_case, getResultCardClassName, getResultCardClassName_first.
  change (toLowerCase "Inconclusive") with "inconclusive".
  split.
  - intros Hne. apply String.eqb_neq in Hne. now rewrite Hne.
  - intros ->. split; reflexivity.
Qed.

Lemma style_differs_from_first_revision_on_inconclusive_only_witness :
  getResultCardClassName "Mild" = getResultCardClassName_first "Mild" /\
  getResultCardClassName_first "INCONCLUSIVE" = EmptyString.
Proof.
  split.
  - apply (proj1 (style_differs_from_first_revision_on_inconclusive_only "Mild")).
    vm_compute. discriminate.
  - apply (proj2 (style_differs_from_first_revision_on_inconclusive_only
                    "INCONCLUSIVE")).
    reflexivity.
Defined.

(** ** Image Preparer *)

(** X24.  For a picture that is not square, swapping width and height swaps
    the width and height of the canvas. *)
Theorem turned_picture_gives_turned_canvas w h :
  0 <= w < 2 ^ 32 -> 0 <= h < 2 ^ 32 -> w <> h ->
  compressImage (Loaded h w) true
    = match compressImage (Loaded w h) true with
      | inr c => inr (transpose c)
      | inl err => inl err
      end.
Proof.
  intros Hw Hh Hne. unfold compressImage, canvas_of, transpose.
  destruct (Z.lt_ge_cases 1024 w) as [Hbw|Hsw];
    destruct (Z.lt_ge_cases 1024 h) as [Hbh|Hsh];
    destruct (Z.lt_ge_cases h w) as [Hlt|Hge].
  - rewrite (resize_wide w h), (resize_tall h w) by lia. reflexivity.
  - rewrite (resize_tall w h), (resize_wide h w) by lia. reflexivity.
  - rewrite (resize_wide w h), (resize_tall h w) by lia. reflexivity.
  - lia.
  - lia.
  - rewrite (resize_tall w h), (resize_wide h w) by lia. reflexivity.
  - rewrite (resize_small w h), (resize_small h w) by lia. reflexivity.
  - rewrite (resize_small w h), (resize_small h w) by lia. reflexivity.
Qed.

Lemma turned_picture_gives_turned_canvas_witness :
  compressImage (Loaded 3071 4096) true = inr (Canvas 767 1024).
Proof.
  apply (turned_picture_gives_turned_canvas 4096 3071); lia.
Defined.

(** ** The scaled side, to the pixel *)

Lemma shr_1_nonneg mrs :
  0 <= shr_m mrs ->
  shr_m (shr_1 mrs) = shr_m mrs / 2 /\
  shr_r (shr_1 mrs) = Z.odd (shr_m mrs) /\
  shr_s (shr_1 mrs) = shr_r mrs || shr_s mrs.
Proof.
  destruct mrs as [m r s]. cbn [shr_m shr_r shr_s]. intros Hm.
  destruct m as [|[p|p|]|p]; try lia; cbn [shr_1 shr_m shr_r shr_s].
  - repeat split.
  - repeat split. rewrite Pos2Z.inj_xI.
    apply Z.div_unique with (r := 1); lia.
  - repeat split. rewrite Pos2Z.inj_xO.
    apply Z.div_unique with (r := 0); lia.
  - repeat split.
Qed.

Lemma mod_pow2_succ m k :
  0 <= m -> 0 <= k ->
  m mod 2 ^ (k + 1) = m mod 2 ^ k + (if Z.odd (m / 2 ^ k) then 2 ^ k else 0).
Proof.
  intros Hm Hk. rewrite Z.pow_add_r, Z.pow_1_r by lia.
  assert (Hp : 0 < 2 ^ k) by (apply Z.pow_pos_nonneg; lia).
  rewrite Z.rem_mul_r by lia.
  rewrite (Zmod_odd (m / 2 ^ k)). destruct (Z.odd (m / 2 ^ k)); lia.
Qed.

Lemma shifted_step m k mrs :
  0 <= m -> 0 <= k -> shifted m k mrs -> shifted m (k + 1) (shr_1 mrs).
Proof.
  intros Hm Hk [Hq Hloc].
  assert (Hp : 0 < 2 ^ k) by (apply Z.pow_pos_nonneg; lia).
  assert (Hq0 : 0 <= shr_m mrs) by (rewrite Hq; apply Z.div_pos; lia).
  destruct (shr_1_nonneg mrs Hq0) as (Hm1 & Hr1 & Hs1).
  pose proof (Z.mod_pos_bound m (2 ^ k) Hp) as Hrem.
  unfold shifted. rewrite Hm1, Hr1, Hs1, Hq. split.
  - rewrite Z.pow_add_r, Z.pow_1_r by lia. now rewrite Z.div_div by lia.
  - rewrite mod_pow2_succ by lia. rewrite Z.pow_add_r, Z.pow_1_r by lia.
    destruct (Z.odd (m / 2 ^ k)), (shr_r mrs), (shr_s mrs); cbn [orb]; lia.
Qed.

Lemma iter_pos_nat {A} (f : A -> A) p x :
  SpecFloat.iter_pos f p x = Nat.iter (Pos.to_nat p) f x.
Proof.
  revert x. induction p as [p IH|p IH|]; intros x; cbn [SpecFloat.iter_pos].
  - rewrite !IH, Pos2Nat.inj_xI.
    replace (S (2 * Pos.to_nat p)) with (Pos.to_nat p + (Pos.to_nat p + 1))%nat by lia.
    rewrite !Nat.iter_add. reflexivity.
  - rewrite !IH, Pos2Nat.inj_xO.
    replace (2 * Pos.to_nat p)%nat with (Pos.to_nat p + Pos.to_nat p)%nat by lia.
    rewrite Nat.iter_add. reflexivity.
  - reflexivity.
Qed.

Lemma shifted_iter m n mrs :
  0 <= m -> shifted m 0 mrs -> shifted m (Z.of_nat n) (Nat.iter n shr_1 mrs).
Proof.
  intros Hm H0. induction n as [|n IH]; [exact H0|].
  rewrite Nat2Z.inj_succ. cbn [Nat.iter]. unfold Z.succ.
  apply shifted_step; [lia | lia | exact IH].
Qed.

Lemma shifted_start m : shifted m 0 (Build_shr_record m false false).
Proof.
  unfold shifted. cbn. rewrite Z.div_1_r, Z.mod_1_r. split; reflexivity.
Qed.

Lemma shr_exact m e p :
  0 <= m ->
  exists mrs, shr (Build_shr_record m false false) e (Zpos p) = (mrs, e + Zpos p) /\
              shifted m (Zpos p) mrs.
Proof.
  intros Hm. cbn [shr]. eexists. split; [reflexivity|].
  rewrite iter_pos_nat, <- positive_nat_Z.
  apply shifted_iter; [assumption | apply shifted_start].
Qed.

(** Rounding the shifted mantissa to nearest lands within half a step. *)
Lemma round_shifted m k mrs :
  0 <= m -> 0 <= k -> shifted m k mrs ->
  let r := round_nearest_even (shr_m mrs) (loc_of_shr_record mrs) in
  (r = m / 2 ^ k \/ r = m / 2 ^ k + 1) /\
  2 * Z.abs (r * 2 ^ k - m) <= 2 ^ k /\
  (m mod 2 ^ k = 0 -> r * 2 ^ k = m).
Proof.
  intros Hm Hk [Hq Hloc] r. subst r.
  assert (Hp : 0 < 2 ^ k) by (apply Z.pow_pos_nonneg; lia).
  pose proof (Z.div_mod m (2 ^ k) ltac:(lia)) as Hdm.
  pose proof (Z.mod_pos_bound m (2 ^ k) Hp) as Hrem.
  destruct mrs as [q rb sb]. cbn [shr_m shr_r shr_s] in *. subst q.
  destruct rb, sb; cbn [loc_of_shr_record round_nearest_even].
  - split; [now right|]. split; nia.
  - destruct (Z.even (m / 2 ^ k)); (split; [tauto|]); split; nia.
  - split; [now left|]. split; nia.
  - split; [now left|]. split; nia.
Qed.

Lemma digits2_unique p k :
  2 ^ (k - 1) <= Zpos p < 2 ^ k -> Zpos (digits2_pos p) = k.
Proof.
  intros [Hlo Hhi]. pose proof (digits2_bounds p) as [Hl Hh].
  assert (Hk : 0 < k).
  { destruct (Z.lt_ge_cases 0 k); [assumption|].
    assert (2 ^ k <= 2 ^ 0) by (apply Z.pow_le_mono_r; lia). cbn in *; lia. }
  destruct (Z.lt_trichotomy (Zpos (digits2_pos p)) k) as [Hlt | [Heq | Hgt]];
    [|assumption|].
  - assert (2 ^ Zpos (digits2_pos p) <= 2 ^ (k - 1))
      by (apply Z.pow_le_mono_r; lia). lia.
  - assert (2 ^ k <= 2 ^ (Zpos (digits2_pos p) - 1))
      by (apply Z.pow_le_mono_r; lia). lia.
Qed.

Lemma shr_fexp_rest m e :
  2 ^ 52 <= Zpos m < 2 ^ 53 -> -1074 <= e ->
  shr_fexp prec emax (Zpos m) e loc_Exact
    = (Build_shr_record (Zpos m) false false, e).
Proof.
  intros Hm He. unfold shr_fexp. cbn [Zdigits2 shr_record_of_loc].
  rewrite (digits2_unique m 53) by (cbn; lia).
  replace (fexp prec emax (53 + e) - e) with 0
    by (unfold fexp, SpecFloat.emin, prec, emax; lia).
  reflexivity.
Qed.

(** The last two steps of [binary_round_aux] on a rounded mantissa that
    has 53 digits, or is [2^53] after a carry. *)
Lemma finish_round r e :
  2 ^ 52 <= r <= 2 ^ 53 -> -1074 <= e -> e + 1 <= 971 ->
  exists mp ep,
    (let '(mrs, e') := shr_fexp prec emax r e loc_Exact in
     match shr_m mrs with
     | Z0 => S754_zero false
     | Zpos m => if e' <=? emax - prec then S754_finite false m e'
                 else S754_infinity false
     | Zneg _ => S754_nan
     end) = S754_finite false mp ep /\
    e <= ep /\ Zpos mp * 2 ^ (ep - e) = r /\ 2 ^ 52 <= Zpos mp < 2 ^ 53.
Proof.
  intros Hr He Hmax.
  destruct (Z.eq_dec r (2 ^ 53)) as [-> | Hne].
  - exists 4503599627370496%positive, (e + 1).
    unfold shr_fexp. change (2 ^ 53) with 9007199254740992.
    change (Zdigits2 9007199254740992) with 54.
    replace (fexp prec emax (54 + e) - e) with 1
      by (unfold fexp, SpecFloat.emin, prec, emax; lia).
    cbn [shr_record_of_loc shr SpecFloat.iter_pos shr_1 shr_m].
    unfold emax, prec. destruct (Z.leb_spec (e + 1) (1024 - 53)); [|lia].
    split; [reflexivity|]. split; [lia|].
    replace (e + 1 - e) with 1 by lia. split; [reflexivity | cbn; lia].
  - destruct r as [|m|m]; try (cbn in Hr; lia).
    exists m, e. rewrite shr_fexp_rest by lia. cbn [shr_m].
    unfold emax, prec. destruct (Z.leb_spec e (1024 - 53)); [|lia].
    split; [reflexivity|]. split; [lia|].
    rewrite Z.sub_diag, Z.mul_1_r. split; [reflexivity | lia].
Qed.

(** Rounding an exact integer mantissa of more than 53 digits: the result
    is a normal number within half a step of it, the step being
    [2^(d - 53)] in units of [2^e]. *)
Lemma binary_round_aux_exact_value m e :
  53 < Zpos (digits2_pos m) ->
  -1074 <= e -> e + Zpos (digits2_pos m) - 53 + 1 <= 971 ->
  exists mp ep,
    binary_round_aux prec emax false (Zpos m) e loc_Exact
      = S754_finite false mp ep /\
    e <= ep /\ 2 ^ 52 <= Zpos mp < 2 ^ 53 /\
    2 * Z.abs (Zpos mp * 2 ^ (ep - e) - Zpos m) <= 2 ^ (Zpos (digits2_pos m) - 53) /\
    (Zpos m mod 2 ^ (Zpos (digits2_pos m) - 53) = 0 ->
     Zpos mp * 2 ^ (ep - e) = Zpos m).
Proof.
  intros Hd He Hmax. set (d := Zpos (digits2_pos m)) in *.
  set (n := d - 53). assert (Hn : 0 < n) by (unfold n; lia).
  unfold binary_round_aux, shr_fexp at 1. cbn [Zdigits2 shr_record_of_loc].
  fold d. replace (fexp prec emax (d + e) - e) with n
    by (unfold fexp, SpecFloat.emin, prec, emax, n; lia).
  destruct n as [|pn|pn] eqn:Hpn; try lia.
  destruct (shr_exact (Zpos m) e pn ltac:(lia)) as (mrs & Hshr & Hsh).
  rewrite Hshr.
  pose proof (digits2_bounds m) as [Hlo Hhi]. fold d in Hlo, Hhi.
  assert (Hp : 0 < 2 ^ Zpos pn) by (apply Z.pow_pos_nonneg; lia).
  assert (Hfl : 2 ^ 52 <= Zpos m / 2 ^ Zpos pn < 2 ^ 53).
  { replace d with (53 + Zpos pn) in Hhi by lia.
    replace (d - 1) with (52 + Zpos pn) in Hlo by lia.
    rewrite Z.pow_add_r in Hlo, Hhi by lia. split.
    - apply Z.div_le_lower_bound; lia.
    - apply Z.div_lt_upper_bound; lia. }
  destruct (round_shifted (Zpos m) (Zpos pn) mrs ltac:(lia) ltac:(lia) Hsh)
    as (Hr & Habs & Hexact).
  set (r := round_nearest_even (shr_m mrs) (loc_of_shr_record mrs)) in *.
  destruct (finish_round r (e + Zpos pn) ltac:(lia) ltac:(lia) ltac:(lia))
    as (mp & ep & Heq & Hep & Hval & Hmp).
  exists mp, ep. split; [exact Heq|]. split; [lia|]. split; [exact Hmp|].
  replace (ep - e) with ((ep - (e + Zpos pn)) + Zpos pn) by lia.
  rewrite Z.pow_add_r by lia. rewrite Z.mul_assoc, Hval.
  replace (d - 53) with (Zpos pn) by lia. split; [exact Habs | exact Hexact].
Qed.

Lemma new_location_spec nb k :
  0 < nb -> 0 <= k < nb ->
  match new_location nb k with
  | loc_Exact => k = 0
  | loc_Inexact Lt => 0 < k /\ 2 * k < nb
  | loc_Inexact Eq => 2 * k = nb
  | loc_Inexact Gt => nb < 2 * k
  end.
Proof.
  intros Hnb Hk. unfold new_location, new_location_even, new_location_odd.
  destruct (Z.even nb) eqn:Hev; destruct (Z.eqb_spec k 0) as [Hz|Hz];
    try assumption.
  - destruct (Z.compare_spec (2 * k) nb); lia.
  - assert (Hodd : Z.odd nb = true) by (rewrite <- Z.negb_even, Hev; reflexivity).
    apply Z.odd_spec in Hodd as [c Hc].
    destruct (Z.compare_spec (2 * k + 1) nb); lia.
Qed.

Lemma loc_of_shr_record_of_loc m l :
  loc_of_shr_record (shr_record_of_loc m l) = l /\
  shr_m (shr_record_of_loc m l) = m.
Proof. destruct l as [|[| |]]; split; reflexivity. Qed.

(** Rounding a quotient of 53 digits with its remainder, away from the
    carry. *)
Lemma binary_round_aux_quotient q e nb k :
  2 ^ 52 <= q <= 2 ^ 53 - 2 -> -1074 <= e -> e + 1 <= 971 ->
  0 < nb -> 0 <= k < nb ->
  exists mp,
    binary_round_aux prec emax false q e (new_location nb k)
      = S754_finite false mp e /\
    2 ^ 52 <= Zpos mp < 2 ^ 53 /\
    2 * Z.abs (Zpos mp * nb - (q * nb + k)) <= nb.
Proof.
  intros Hq He Hmax Hnb Hk.
  destruct q as [|pq|pq]; try (cbn in Hq; lia).
  pose proof (new_location_spec nb k Hnb Hk) as Hloc.
  unfold binary_round_aux, shr_fexp at 1. cbn [Zdigits2].
  rewrite (digits2_unique pq 53) by (cbn; lia).
  replace (fexp prec emax (53 + e) - e) with 0
    by (unfold fexp, SpecFloat.emin, prec, emax; lia).
  cbn [shr].
  destruct (loc_of_shr_record_of_loc (Zpos pq) (new_location nb k)) as [-> ->].
  set (r := round_nearest_even (Zpos pq) (new_location nb k)).
  assert (Hr : (r = Zpos pq \/ r = Zpos pq + 1) /\
               2 * Z.abs (r * nb - (Zpos pq * nb + k)) <= nb).
  { subst r. destruct (new_location nb k) as [|[| |]];
      cbn [round_nearest_even]; try destruct (Z.even (Zpos pq));
      (split; [tauto | nia]). }
  destruct Hr as [Hr Habs].
  destruct (finish_round r e ltac:(lia) He Hmax)
    as (mp & ep & Heq & Hep & Hval & Hmp).
  assert (Hr53 : r < 2 ^ 53) by lia.
  destruct r as [|pr|pr]; try lia.
  rewrite shr_fexp_rest in Heq by lia. cbn [shr_m] in Heq.
  unfold emax, prec in *. destruct (Z.leb_spec e (1024 - 53)); [|lia].
  injection Heq as <- <-.
  rewrite shr_fexp_rest by lia. cbn [shr_m].
  destruct (Z.leb_spec e (1024 - 53)); [|lia].
  exists pr. split; [reflexivity|]. split; [lia | exact Habs].
Qed.

Lemma of_int_1024 : of_int 1024 = S754_finite false 4503599627370496 (-42).
Proof. reflexivity. Qed.

Lemma mantissa_bounds p :
  Zpos p < 2 ^ 53 -> 2 ^ 52 <= Zpos (mantissa p) < 2 ^ 53.
Proof.
  intros Hp. rewrite mantissa_Z by assumption.
  pose proof (digits2_bounds p) as [Hlo Hhi].
  pose proof (digits2_le_53 p Hp) as Hd.
  set (d := Zpos (digits2_pos p)) in *.
  assert (Hk : 0 < 2 ^ (53 - d)) by (apply Z.pow_pos_nonneg; lia).
  split.
  - replace 52 with ((d - 1) + (53 - d)) by lia. rewrite Z.pow_add_r by lia. nia.
  - replace 53 with (d + (53 - d)) at 2 by lia. rewrite Z.pow_add_r by lia. nia.
Qed.

(** [1024 / b] in binary64, for an integer [b] between 1025 and 2^32: a
    normal number [mq * 2^eq]; in units of [2^(-42 - d)], where [d] is the
    number of binary digits of [b], it is within half a unit of the exact
    quotient. *)
Lemma div_1024 pb :
  1024 < Zpos pb < 2 ^ 32 ->
  exists mq eq,
    div (of_int 1024) (of_int (Zpos pb)) = S754_finite false mq eq /\
    -42 - Zpos (digits2_pos pb) <= eq /\
    2 ^ 52 <= Zpos mq < 2 ^ 53 /\
    2 * Z.abs (Zpos mq * 2 ^ (eq - (-42 - Zpos (digits2_pos pb)))
               * Zpos (mantissa pb) - 2 ^ 105)
      <= Zpos (mantissa pb).
Proof.
  intros Hb. assert (Hb53 : Zpos pb < 2 ^ 53) by lia.
  rewrite of_int_1024, (of_int_pos pb) by assumption.
  pose proof (mantissa_bounds pb Hb53) as Hmb.
  pose proof (digits2_bounds pb) as [Hdlo Hdhi].
  set (db := Zpos (digits2_pos pb)) in *. set (mb := mantissa pb) in *.
  assert (Hdb : 11 <= db <= 32).
  { split.
    - destruct (Z.lt_ge_cases db 11); [|lia].
      assert (2 ^ db <= 2 ^ 10) by (apply Z.pow_le_mono_r; lia). lia.
    - destruct (Z.lt_ge_cases 32 db); [|lia].
      assert (2 ^ 32 <= 2 ^ (db - 1)) by (apply Z.pow_le_mono_r; lia). lia. }
  unfold div, SFdiv, SFdiv_core_binary. cbn [xorb Zdigits2].
  change (Zpos (digits2_pos 4503599627370496)) with 53.
  rewrite (digits2_unique mb 53) by (cbn; lia).
  replace (Z.min (fexp prec emax (53 + -42 - (53 + (db - 53)))) (-42 - (db - 53)))
    with (-42 - db) by (unfold fexp, SpecFloat.emin, prec, emax; lia).
  replace (-42 - (db - 53) - (-42 - db)) with 53 by lia.
  change (Z.shiftl 4503599627370496 53) with (2 ^ 105).
  pose proof (Z_div_mod (2 ^ 105) (Zpos mb) ltac:(lia)) as Hdm.
  destruct (Z.div_eucl (2 ^ 105) (Zpos mb)) as [q r]. destruct Hdm as [Hqr Hr].
  destruct (Z.eq_dec (Zpos mb) (2 ^ 52)) as [Hpow | Hnot].
  - (* a power of two: the quotient is exact *)
    assert (Hq : q = 2 ^ 53 /\ r = 0).
    { rewrite Hpow in *. change (2 ^ 105) with (2 ^ 52 * 2 ^ 53) in Hqr. nia. }
    destruct Hq as [-> ->].
    replace (new_location (Zpos mb) 0) with loc_Exact
      by (unfold new_location; now destruct (Z.even (Zpos mb))).
    change (2 ^ 53) with (Zpos 9007199254740992).
    destruct (binary_round_aux_exact_value 9007199254740992 (-42 - db))
      as (mp & ep & Heq & Hep & Hmp & _ & Hexact).
    + change (Zpos (digits2_pos 9007199254740992)) with 54. lia.
    + lia.
    + change (Zpos (digits2_pos 9007199254740992)) with 54. lia.
    + exists mp, ep. split; [exact Heq|]. split; [lia|]. split; [exact Hmp|].
      rewrite Hexact by reflexivity. rewrite Hpow.
      change (Zpos 9007199254740992 * 2 ^ 52 - 2 ^ 105) with 0. cbn. lia.
  - assert (Hq : 2 ^ 52 <= q <= 2 ^ 53 - 2).
    { assert (2 ^ 52 + 1 <= Zpos mb) by lia.
      change (2 ^ 105) with (2 ^ 52 * 2 ^ 53) in Hqr.
      change (2 ^ 53) with 9007199254740992 in *.
      change (2 ^ 52) with 4503599627370496 in *. nia. }
    destruct (binary_round_aux_quotient q (-42 - db) (Zpos mb) r
                Hq ltac:(lia) ltac:(lia) ltac:(lia) Hr)
      as (mp & Heq & Hmp & Habs).
    exists mp, (-42 - db). split; [exact Heq|]. split; [lia|].
    split; [exact Hmp|].
    rewrite Z.sub_diag, Z.mul_1_r.
    replace (2 ^ 105) with (q * Zpos mb + r) by lia. exact Habs.
Qed.

Lemma pow2_le_inv x y : 0 <= x -> 2 ^ x <= 2 ^ y -> x <= y.
Proof.
  intros Hx Hle. destruct (Z.le_gt_cases x y) as [|Hgt]; [assumption|].
  destruct (Z.lt_ge_cases y 0) as [Hneg|Hy].
  - rewrite (Z.pow_neg_r 2 y) in Hle by assumption.
    assert (0 < 2 ^ x) by (apply Z.pow_pos_nonneg; lia). lia.
  - assert (2 ^ y < 2 ^ x) by (apply Z.pow_lt_mono_r; lia). lia.
Qed.

(** The integer part of a positive number given by its mantissa in units
    of [2^E]. *)
Lemma int_part_units mp ep E :
  E <= ep -> E < 0 -> ep <= 0 ->
  int_part mp ep = (Zpos mp * 2 ^ (ep - E)) / 2 ^ (- E).
Proof.
  intros HE Hneg Hep. unfold int_part. rewrite Z.shiftl_div_pow2 by lia.
  replace (- E) with (- ep + (ep - E)) by lia.
  rewrite Z.pow_add_r by lia.
  rewrite Z.div_mul_cancel_r; [reflexivity | |];
    apply Z.pow_nonzero; lia.
Qed.

(** From "within one unit" to the integer part. *)
Lemma floor_of_close V D X b :
  0 < D -> 0 < b -> 0 <= X -> 0 <= V ->
  Z.abs (V * b - X * D) < D ->
  X / b - 1 <= V / D <= X / b /\
  (X mod b <> 0 -> V / D = X / b).
Proof.
  intros HD Hb HX HV Hclose.
  pose proof (Z.div_mod V D ltac:(lia)) as HVd.
  pose proof (Z.mod_pos_bound V D HD) as HVm.
  pose proof (Z.div_mod X b ltac:(lia)) as HXd.
  pose proof (Z.mod_pos_bound X b Hb) as HXm.
  set (F := V / D) in *. set (Fx := X / b) in *.
  assert (Hup : F <= Fx).
  { destruct (Z.le_gt_cases F Fx) as [|Hgt]; [assumption|]. exfalso.
    assert (Fx + 1 <= F) by lia.
    assert ((Fx + 1) * D <= V) by nia.
    assert ((Fx + 1) * D * b <= V * b) by nia.
    assert (X + 1 <= (Fx + 1) * b) by nia.
    assert ((X + 1) * D <= (Fx + 1) * b * D) by nia.
    lia. }
  assert (Hlow : Fx - 1 <= F).
  { destruct (Z.le_gt_cases (Fx - 1) F) as [|Hgt]; [assumption|]. exfalso.
    assert (F + 2 <= Fx) by lia.
    assert (V < (F + 1) * D) by nia.
    assert (V * b < (F + 1) * D * b) by nia.
    assert ((F + 2) * b <= X) by nia.
    assert ((F + 2) * b * D <= X * D) by nia.
    nia. }
  split; [lia|]. intros Hr.
  destruct (Z.eq_dec F Fx) as [|Hne]; [assumption|]. exfalso.
  assert (F + 1 <= Fx) by lia.
  assert (V < (F + 1) * D) by nia.
  assert (V * b < (F + 1) * D * b) by nia.
  assert ((F + 1) * b + 1 <= X) by nia.
  assert (((F + 1) * b + 1) * D <= X * D) by nia.
  nia.
Qed.

Lemma combine_errors x q b ma D :
  2 * Z.abs x <= 9007199254740992 ->
  2 * Z.abs q <= b ->
  0 < b < 4294967296 -> 0 <= ma < 9007199254740992 ->
  19807040628566084398385987584 <= D ->
  Z.abs (x * b + ma * q) < D.
Proof.
  intros Hx Hq Hb Hma HD.
  pose proof (Z.abs_triangle (x * b) (ma * q)) as Htri.
  rewrite !Z.abs_mul, (Z.abs_eq b), (Z.abs_eq ma) in Htri by lia.
  set (u := Z.abs x) in *. set (v := Z.abs q) in *.
  assert (Hu : 0 <= u) by apply Z.abs_nonneg.
  assert (Hv : 0 <= v) by apply Z.abs_nonneg.
  assert (H1 : u * b <= 4503599627370496 * b).
  { apply Z.mul_le_mono_nonneg_r; lia. }
  assert (H2 : 2 * (ma * v) <= 9007199254740992 * b).
  { transitivity (ma * b).
    - replace (2 * (ma * v)) with (ma * (2 * v)) by ring.
      apply Z.mul_le_mono_nonneg_l; lia.
    - apply Z.mul_le_mono_nonneg_r; lia. }
  assert (H3 : 9007199254740992 * b < 9007199254740992 * 4294967296).
  { apply Z.mul_lt_mono_pos_l; lia. }
  lia.
Qed.

Lemma pow2_split x y : 0 <= x -> 0 <= y -> 2 ^ (x + y) = 2 ^ x * 2 ^ y.
Proof. intros. now apply Z.pow_add_r. Qed.

(** The product [a * (1024 / b)] in binary64, for integers
    [0 < a <= b] with [1024 < b < 2^32]: a positive normal number; in units
    of [2^E] it is less than one unit of [b] away from [1024 * a / b]. *)
Lemma scaled_product pa pb :
  Zpos pa <= Zpos pb -> 1024 < Zpos pb < 2 ^ 32 ->
  exists mp ep E,
    mul (of_int (Zpos pa)) (div (of_int 1024) (of_int (Zpos pb)))
      = S754_finite false mp ep /\
    E <= ep /\ E < 0 /\ 2 ^ 52 <= Zpos mp /\
    Z.abs (Zpos mp * 2 ^ (ep - E) * Zpos pb - 1024 * Zpos pa * 2 ^ (- E))
      < 2 ^ (- E).
Proof.
  intros Hab Hb.
  assert (Ha53 : Zpos pa < 2 ^ 53) by lia.
  assert (Hb53 : Zpos pb < 2 ^ 53) by lia.
  destruct (div_1024 pb Hb) as (mq & eq & Hdiv & Heq & Hmq & Hq).
  rewrite Hdiv, (of_int_pos pa) by assumption.
  pose proof (mantissa_bounds pa Ha53) as Hma.
  pose proof (mantissa_bounds pb Hb53) as Hmb.
  pose proof (mantissa_Z pa Ha53) as HmaZ.
  pose proof (mantissa_Z pb Hb53) as HmbZ.
  pose proof (digits2_le_53 pa Ha53) as Hda53.
  pose proof (digits2_le_53 pb Hb53) as Hdb53.
  assert (Hdab : Zpos (digits2_pos pa) <= Zpos (digits2_pos pb)).
  { destruct (Z.le_gt_cases (Zpos (digits2_pos pa)) (Zpos (digits2_pos pb)))
      as [|Hgt]; [assumption|].
    pose proof (digits2_mono pb pa ltac:(lia)). lia. }
  set (a := Zpos pa) in *. set (b := Zpos pb) in *.
  set (da := Zpos (digits2_pos pa)) in *. set (db := Zpos (digits2_pos pb)) in *.
  set (ma := Zpos (mantissa pa)) in *. set (mb := Zpos (mantissa pb)) in *.
  set (G := eq - (-42 - db)) in *.
  assert (HG0 : 0 <= G) by (unfold G; lia).
  set (PG := 2 ^ G) in *.
  assert (HPG : 0 < PG) by (apply Z.pow_pos_nonneg; lia).
  change (2 ^ 52) with 4503599627370496 in *.
  change (2 ^ 53) with 9007199254740992 in *.
  change (2 ^ 105) with 40564819207303340847894502572032 in *.
  assert (HG1 : G <= 1).
  { apply pow2_le_inv; [assumption|]. fold PG. change (2 ^ 1) with 2.
    assert (4503599627370496 * 4503599627370496 <= Zpos mq * mb) by nia.
    assert (PG * (4503599627370496 * 4503599627370496) <= PG * (Zpos mq * mb))
      by nia.
    nia. }
  (* the product of the mantissas *)
  unfold mul, SFmul. cbn [xorb].
  set (M := (mantissa pa * mq)%positive).
  assert (HM : Zpos M = ma * Zpos mq) by reflexivity.
  assert (HMb : 2 ^ 104 <= Zpos M < 2 ^ 106).
  { rewrite HM. change (2 ^ 104) with (4503599627370496 * 4503599627370496).
    change (2 ^ 106) with (9007199254740992 * 9007199254740992). nia. }
  pose proof (digits2_bounds M) as [HdMlo HdMhi].
  set (dM := Zpos (digits2_pos M)) in *.
  assert (HdM : 105 <= dM <= 106).
  { split.
    - destruct (Z.le_gt_cases 105 dM) as [|Hlt]; [assumption|].
      assert (2 ^ dM <= 2 ^ 104) by (apply Z.pow_le_mono_r; lia). lia.
    - destruct (Z.le_gt_cases dM 106) as [|Hgt]; [assumption|].
      assert (2 ^ 106 <= 2 ^ (dM - 1)) by (apply Z.pow_le_mono_r; lia). lia. }
  assert (Hda1 : 1 <= da) by (unfold da; lia).
  assert (Hdb11 : 11 <= db).
  { destruct (Z.lt_ge_cases db 11); [|lia].
    pose proof (digits2_bounds pb) as [_ Hhi]. fold db b in Hhi.
    assert (2 ^ db <= 2 ^ 10) by (apply Z.pow_le_mono_r; lia).
    change (2 ^ 10) with 1024 in *. lia. }
  set (E := da - 53 + eq).
  destruct (binary_round_aux_exact_value M E) as (mp & ep & Hres & Hep & Hmp & Habs & _).
  { fold dM. lia. }
  { unfold E. lia. }
  { fold dM. unfold E, G in *. lia. }
  exists mp, ep, E. split; [exact Hres|]. split; [exact Hep|].
  assert (HEneg : E < 0) by (unfold E, G in *; lia).
  split; [exact HEneg|]. split; [lia|].
  fold dM in Habs.
  assert (Hstep : 2 ^ (dM - 53) <= 9007199254740992).
  { change 9007199254740992 with (2 ^ 53). apply Z.pow_le_mono_r; lia. }
  set (Vp := Zpos mp * 2 ^ (ep - E)) in *.
  set (D := 2 ^ (- E)).
  set (Ka := 2 ^ (53 - da)) in *. set (Kb := 2 ^ (53 - db)) in *.
  set (W := 2 ^ (52 + db - G)).
  assert (HKa : 0 < Ka) by (apply Z.pow_pos_nonneg; lia).
  assert (HKb : 0 < Kb) by (apply Z.pow_pos_nonneg; lia).
  assert (HW : 0 < W) by (apply Z.pow_pos_nonneg; lia).
  assert (Hi : 1024 * D = Ka * W).
  { unfold D, Ka, W, E, G. change 1024 with (2 ^ 10).
    rewrite <- !Z.pow_add_r by lia. f_equal. lia. }
  assert (Hii : W * Kb * PG = 40564819207303340847894502572032).
  { unfold W, Kb, PG. rewrite <- !Z.pow_add_r by lia.
    replace (52 + db - G + (53 - db) + G) with 105 by lia. reflexivity. }
  assert (HD94 : 2 ^ 94 <= D).
  { unfold D. apply Z.pow_le_mono_r; [lia|]. unfold E, G in *. lia. }
  change (2 ^ 94) with 19807040628566084398385987584 in HD94.
  (* the quotient against [W] *)
  assert (HqW : 2 * Z.abs (Zpos mq * b - W) <= b).
  { assert (Hfac : Zpos mq * PG * mb - 40564819207303340847894502572032
                   = (Kb * PG) * (Zpos mq * b - W)).
    { rewrite <- Hii, HmbZ. fold Kb. ring. }
    rewrite Hfac in Hq. rewrite Z.abs_mul in Hq.
    rewrite (Z.abs_eq (Kb * PG)) in Hq by nia.
    rewrite HmbZ in Hq. fold Kb in Hq.
    set (v := Z.abs (Zpos mq * b - W)) in *.
    assert (Hv : 0 <= v) by apply Z.abs_nonneg.
    assert (Hkv : Kb * 1 * v <= Kb * PG * v).
    { apply Z.mul_le_mono_nonneg_r; [lia|].
      apply Z.mul_le_mono_nonneg_l; lia. }
    apply (Z.mul_le_mono_pos_l _ _ Kb HKb). lia. }
  (* the two errors together *)
  assert (Hsplit : Vp * b - 1024 * a * D
                   = (Vp - Zpos M) * b + ma * (Zpos mq * b - W)).
  { rewrite HM. replace (1024 * a * D) with (a * (1024 * D)) by ring.
    rewrite Hi, HmaZ. fold Ka. ring. }
  rewrite Hsplit.
  change (2 ^ 32) with 4294967296 in Hb.
  apply combine_errors; [lia | exact HqW | lia | lia | exact HD94].
Qed.

Lemma scaled_zero b : 1024 < b < 2 ^ 32 -> scaled 0 b = 0.
Proof.
  intros Hb. destruct b as [|pb|pb]; try lia.
  destruct (div_1024 pb Hb) as (mq & eq & Hdiv & _).
  unfold scaled. rewrite Hdiv. reflexivity.
Qed.

Lemma scaled_floor a b :
  0 <= a <= b -> 1024 < b < 2 ^ 32 ->
  1024 * a / b - 1 <= scaled a b <= 1024 * a / b /\
  ((1024 * a) mod b <> 0 -> scaled a b = 1024 * a / b).
Proof.
  intros Ha Hb. destruct a as [|pa|pa]; try lia.
  - rewrite scaled_zero by assumption. rewrite Z.mul_0_r, Z.div_0_l by lia.
    split; [lia | reflexivity].
  - destruct b as [|pb|pb]; try lia.
    destruct (scaled_product pa pb ltac:(lia) Hb)
      as (mp & ep & E & Hres & HE & HEneg & Hmp & Hclose).
    unfold scaled. rewrite Hres. unfold to_unsigned_long. cbn [cond_Zopp].
    set (D := 2 ^ (- E)) in *.
    assert (HD : 0 < D) by (apply Z.pow_pos_nonneg; lia).
    set (Vp := Zpos mp * 2 ^ (ep - E)) in *.
    assert (HVp : 0 <= Vp).
    { unfold Vp. apply Z.mul_nonneg_nonneg; [lia|]. apply Z.pow_nonneg. lia. }
    assert (Hep : ep <= 0).
    { destruct (Z.le_gt_cases ep 0) as [|Hpos]; [assumption|]. exfalso.
      assert (Hbig : 2 * D <= 2 ^ (ep - E)).
      { unfold D. change 2 with (2 ^ 1) at 1. rewrite <- Z.pow_add_r by lia.
        apply Z.pow_le_mono_r; lia. }
      change (2 ^ 52) with 4503599627370496 in Hmp.
      change (2 ^ 32) with 4294967296 in Hb.
      assert (4503599627370496 * (2 * D) <= Vp).
      { unfold Vp. apply Z.mul_le_mono_nonneg; lia. }
      assert (4503599627370496 * (2 * D) * Zpos pb <= Vp * Zpos pb)
        by (apply Z.mul_le_mono_nonneg_r; lia).
      assert (1024 * Zpos pa * D <= 1024 * Zpos pb * D)
        by (apply Z.mul_le_mono_nonneg_r; lia).
      assert (1025 * Zpos pb * D <= 4503599627370496 * (2 * D) * Zpos pb) by nia.
      assert (D <= Zpos pb * D) by nia.
      lia. }
    rewrite (int_part_units mp ep E HE HEneg Hep). fold D Vp.
    destruct (floor_of_close Vp D (1024 * Zpos pa) (Zpos pb)
                HD ltac:(lia) ltac:(lia) HVp Hclose) as (Hbounds & Hexact).
    assert (Hquot : 1024 * Zpos pa / Zpos pb <= 1024).
    { apply Z.div_le_upper_bound; lia. }
    assert (Hnn : 0 <= Vp / D) by (apply Z.div_pos; lia).
    rewrite Z.mod_small by (change (2 ^ 32) with 4294967296; lia).
    split; [exact Hbounds | exact Hexact].
Qed.

Lemma scaled_le a b :
  0 <= a <= b -> 1024 < b < 2 ^ 32 ->
  0 <= scaled a b <= Z.min a 1024.
Proof.
  intros Ha Hb. destruct (scaled_floor a b Ha Hb) as [[_ Hhi] _].
  split.
  - unfold scaled, to_unsigned_long.
    destruct (mul _ _); try lia. apply Z.mod_pos_bound. reflexivity.
  - assert (1024 * a / b <= a) by (apply Z.div_le_upper_bound; nia).
    assert (1024 * a / b <= 1024) by (apply Z.div_le_upper_bound; nia).
    lia.
Qed.

(** X25.  With a drawing context, a picture of [w] by [h] pixels (both below
    2^32) always gives a canvas; no side of the canvas is longer than 1024 or
    longer than the same side of the picture, and the longer side of the
    canvas is the longer side of the picture, capped at 1024. *)
Theorem canvas_fits_the_box w h :
  0 <= w < 2 ^ 32 -> 0 <= h < 2 ^ 32 ->
  exists c,
    compressImage (Loaded w h) true = inr c /\
    0 <= canvas_width c <= Z.min w 1024 /\
    0 <= canvas_height c <= Z.min h 1024 /\
    Z.max (canvas_width c) (canvas_height c) = Z.min (Z.max w h) 1024.
Proof.
  intros Hw Hh. unfold compressImage, canvas_of.
  eexists. split; [reflexivity|]. cbn [canvas_width canvas_height].
  destruct (Z.lt_ge_cases h w) as [Hlt|Hge].
  - destruct (Z.lt_ge_cases 1024 w) as [Hbig|Hsmall].
    + rewrite (resize_wide w h) by lia. cbn [fst snd].
      pose proof (scaled_le h w ltac:(lia) ltac:(lia)) as Hs.
      unfold scaled in Hs. unfold MAX_WIDTH.
      rewrite (to_unsigned_long_of_int 1024) by lia. lia.
    + rewrite (resize_small w h) by lia. cbn [fst snd].
      rewrite !to_unsigned_long_of_int by lia. lia.
  - destruct (Z.lt_ge_cases 1024 h) as [Hbig|Hsmall].
    + rewrite (resize_tall w h) by lia. cbn [fst snd].
      pose proof (scaled_le w h ltac:(lia) ltac:(lia)) as Hs.
      unfold scaled in Hs. unfold MAX_HEIGHT.
      rewrite (to_unsigned_long_of_int 1024) by lia. lia.
    + rewrite (resize_small w h) by lia. cbn [fst snd].
      rewrite !to_unsigned_long_of_int by lia. lia.
Qed.

Lemma canvas_fits_the_box_witness :
  exists c,
    compressImage (Loaded 4096 3071) true = inr c /\
    0 <= canvas_width c <= Z.min 4096 1024 /\
    0 <= canvas_height c <= Z.min 3071 1024 /\
    Z.max (canvas_width c) (canvas_height c) = Z.min (Z.max 4096 3071) 1024.
Proof. apply (canvas_fits_the_box 4096 3071); lia. Defined.

(** X26.  When a picture of [w] by [h] pixels (both below 2^32) is scaled
    down, the shorter side of the canvas is the exact proportional length
    [1024 * short / long] with its fraction dropped, or one pixel less; it can
    be one less only when the exact length is a whole number. *)
Theorem scaled_side_is_within_one_pixel w h :
  0 <= w < 2 ^ 32 -> 0 <= h < 2 ^ 32 ->
  (h < w -> 1024 < w ->
   exists s,
     compressImage (Loaded w h) true = inr (Canvas 1024 s) /\
     1024 * h / w - 1 <= s <= 1024 * h / w /\
     ((1024 * h) mod w <> 0 -> s = 1024 * h / w)) /\
  (w <= h -> 1024 < h ->
   exists s,
     compressImage (Loaded w h) true = inr (Canvas s 1024) /\
     1024 * w / h - 1 <= s <= 1024 * w / h /\
     ((1024 * w) mod h <> 0 -> s = 1024 * w / h)).
Proof.
  intros Hw Hh. split; intros Hcmp Hbig; unfold compressImage, canvas_of.
  - exists (scaled h w). rewrite (resize_wide w h) by lia. cbn [fst snd].
    split; [reflexivity|]. apply scaled_floor; lia.
  - exists (scaled w h). rewrite (resize_tall w h) by lia. cbn [fst snd].
    split; [reflexivity|]. apply scaled_floor; lia.
Qed.

Lemma scaled_side_is_within_one_pixel_witness :
  (exists s,
     compressImage (Loaded 4096 3071) true = inr (Canvas 1024 s) /\
     1024 * 3071 / 4096 - 1 <= s <= 1024 * 3071 / 4096 /\
     ((1024 * 3071) mod 4096 <> 0 -> s = 1024 * 3071 / 4096)) /\
  (exists s,
     compressImage (Loaded 1568 1568) true = inr (Canvas s 1024) /\
     1024 * 1568 / 1568 - 1 <= s <= 1024 * 1568 / 1568 /\
     ((1024 * 1568) mod 1568 <> 0 -> s = 1024 * 1568 / 1568)).
Proof.
  split.
  - apply (proj1 (scaled_side_is_within_one_pixel 4096 3071
                    ltac:(lia) ltac:(lia))); lia.
  - apply (proj2 (scaled_side_is_within_one_pixel 1568 1568
                    ltac:(lia) ltac:(lia))); lia.
Defined.

(** ** Selecting and resetting *)

Lemma catch_messages_not_upload_first msg :
  In msg catch_messages -> msg <> msg_no_image.
Proof.
  unfold catch_messages. cbn [In].
  intros [<- | [<- | [<- | [<- | [<- | []]]]]]; vm_compute; discriminate.
Qed.

(** X14.  The "upload a picture first" message is never set in a reachable
    state, since the analyze button is only rendered with a picture; and were
    [handleAnalyze] called without a picture, the message would not be
    rendered either. *)
Theorem upload_first_message_is_never_set H store evs :
  error (app_state (run H evs (booted H store))) <> msg_no_image /\
  (forall today now s,
     imageFile (state (core s)) = None ->
     analyze_button_rendered (App_render s) = false /\
     error_rendered
       (App_render {| core := handleAnalyze H today now (core s);
                      panel := panel s |}) = None).
Proof.
  split.
  - apply (run_invariant H (fun r => error (app_state r) <> msg_no_image)).
    + unfold booted, start, app_state, App_initialize, getItem. cbn.
      repeat case_match; discriminate.
    + intros ev r Hr. destruct ev; cbn [step]; try exact Hr.
      * unfold handleFileSelect.
        destruct files as [[|file files]|]; try exact Hr. discriminate.
      * destruct (analyze_button_rendered (App_render (session r))) eqn:Hb;
          [|exact Hr].
        apply button_needs_idle in Hb as (_ & _ & Hfile).
        unfold handleAnalyze_begin.
        destruct (imageFile (state (core (session r)))); [|congruence].
        destruct (negb (truthy (resolveApiKey (env H) (core (session r)))));
          [vm_compute | ]; discriminate.
      * destruct (in_flight r) as [p|]; [|exact Hr].
        unfold app_state, handleAnalyze_settle. cbn [session core].
        destruct (analysis_outcome (answering H ctx model) (pending_file p)
                    (pending_apiKey p)) as [e|res].
        -- apply catch_messages_not_upload_first.
           apply (handleAnalyze_catch_message e (core (session r))).
        -- exact Hr.
      * unfold on_core, app_state, handleSaveApiKey in *. cbn [session core].
        destruct (10 <? String.length (trim key))%nat; [discriminate | exact Hr].
      * discriminate.
  - intros today now s Hfile.
    unfold handleAnalyze, error_rendered, analyze_button_rendered, App_render.
    rewrite Hfile. cbn. rewrite Hfile.
    split; now destruct (result (state (core s))).
Qed.

Lemma upload_first_message_is_never_set_witness :
  analyze_button_rendered (App_render (start silent_host ∅)) = false /\
  error_rendered
    (App_render
       {| core := handleAnalyze silent_host "2025. 1. 1." 1735689600000
                    (core (start silent_host ∅));
          panel := panel (start silent_host ∅) |}) = None.
Proof.
  apply (proj2 (upload_first_message_is_never_set silent_host ∅ [])
           "2025. 1. 1." 1735689600000 (start silent_host ∅)).
  reflexivity.
Defined.

(** X16.  [handleReset] leads to the upload view without preview, is
    idempotent, undoes any file selection, and keeps the history, the key and
    the storage. *)
Theorem reset_returns_to_the_empty_upload_screen s :
  main (App_render (handleReset s))
    = UploadView (showSettingsAlert (state (core s))) None /\
  handleReset (handleReset s) = handleReset s /\
  (forall files url, handleReset (handleFileSelect files url s) = handleReset s) /\
  history (state (core (handleReset s))) = history (state (core s)) /\
  manualApiKey (state (core (handleReset s))) = manualApiKey (state (core s)) /\
  localStorage (core (handleReset s)) = localStorage (core s).
Proof.
  split; [reflexivity|]. split; [reflexivity|]. split; [|repeat split].
  intros files url. unfold handleFileSelect.
  destruct files as [[|file files]|]; reflexivity.
Qed.

(** X15.  Selecting a file stores it with its object URL, clears result and
    error, and shows the preview without error; a null or empty file list
    changes nothing; the history and the storage are never touched. *)
Theorem selecting_a_file_clears_the_previous_outcome files url s :
  (forall file rest, files = Some (file :: rest) ->
   imageFile (state (core (handleFileSelect files url s))) = Some file /\
   imageUrl (panel (handleFileSelect files url s)) = url /\
   result (state (core (handleFileSelect files url s))) = None /\
   error (state (core (handleFileSelect files url s))) = EmptyString /\
   main (App_render (handleFileSelect files url s))
     = UploadView (showSettingsAlert (state (core s)))
         (Some {| preview_image := url; preview_error := None;
                  preview_loading := isLoading (state (core s)) |})) /\
  (files = None \/ files = Some [] -> handleFileSelect files url s = s) /\
  history (state (core (handleFileSelect files url s))) = history (state (core s)) /\
  localStorage (core (handleFileSelect files url s)) = localStorage (core s).
Proof.
  split; [|split; [|split]].
  - intros file rest ->. repeat split.
  - now intros [-> | ->].
  - destruct files as [[|file files]|]; reflexivity.
  - destruct files as [[|file files]|]; reflexivity.
Qed.

Lemma selecting_a_file_clears_the_previous_outcome_witness :
  result (state (core (handleFileSelect (Some [Loaded 800 600]) "blob:1"
                         (start silent_host ∅)))) = None /\
  handleFileSelect (Some []) "blob:1" (start silent_host ∅)
    = start silent_host ∅.
Proof.
  destruct (selecting_a_file_clears_the_previous_outcome
              (Some [Loaded 800 600]) "blob:1" (start silent_host ∅))
    as (Hsel & _).
  destruct (selecting_a_file_clears_the_previous_outcome
              (Some []) "blob:1" (start silent_host ∅)) as (_ & Hnone & _).
  split.
  - apply (Hsel (Loaded 800 600) []). reflexivity.
  - apply Hnone. right. reflexivity.
Defined.

(** ** A failed analysis on the screen *)

(** X13.  When the awaited calls of an analysis fail, the page stays on the
    upload view with one of the five messages in the preview card, the analyze
    button is back in place of the loader, and the history is unchanged. *)
Theorem failed_analysis_is_shown_in_place H today now w p file e :
  imageFile (state w) = Some file ->
  resolveApiKey (env H) w <> EmptyString ->
  analysis_outcome H file (resolveApiKey (env H) w) = inl e ->
  exists msg,
    In msg catch_messages /\
    main (App_render {| core := handleAnalyze H today now w; panel := p |})
      = UploadView (showSettingsAlert (state w))
          (Some {| preview_image := imageUrl p; preview_error := Some msg;
                   preview_loading := false |}) /\
    analyze_button_rendered
      (App_render {| core := handleAnalyze H today now w; panel := p |}) = true /\
    history (state (handleAnalyze H today now w)) = history (state w).
Proof.
  intros Hfile Hkey Hout.
  rewrite (handleAnalyze_outcome H today now w file Hfile Hkey), Hout.
  set (w1 := update (setResult None) (update (setError EmptyString)
               (update (setIsLoading true) w))).
  destruct (handleAnalyze_catch_message e w1) as (Hin & Hne).
  destruct (handleAnalyze_catch_keeps e w1)
    as (Hm & Hd & Hi & Hh & Hres & _).
  exists (error (state (handleAnalyze_catch e w1))). split; [exact Hin|].
  unfold analyze_button_rendered, App_render, showSettingsAlert.
  cbn [core panel state update main result imageFile error isLoading
       setIsLoading manualApiKey envKeyDetected history preview_loading].
  rewrite Hres, Hi, Hm, Hd, Hh. apply truthy_true in Hne. rewrite Hne.
  subst w1. cbn. rewrite Hfile. repeat split.
Qed.

Lemma failed_analysis_is_shown_in_place_witness :
  analyze_button_rendered
    (App_render {| core := handleAnalyze (sample_host no_key_env
                                            (Throws "TypeError: Failed to fetch"))
                             "2025. 1. 1." 1735689600000
                             (photo_picked (Some "AIzaSyTESTKEY1234"));
                   panel := initial_panel |}) = true.
Proof.
  destruct (failed_analysis_is_shown_in_place
              (sample_host no_key_env (Throws "TypeError: Failed to fetch"))
              "2025. 1. 1." 1735689600000
              (photo_picked (Some "AIzaSyTESTKEY1234")) initial_panel
              (Loaded 800 600) "TypeError: Failed to fetch" eq_refl
              ltac:(discriminate) eq_refl) as (msg & _ & _ & Hb & _).
  exact Hb.
Defined.

(** ** Contact Submitter *)

Lemma or_else_default_truthy v d : truthy d = true -> truthy (or_else (Some v) d) = true.
Proof. intros Hd. unfold or_else. destruct (truthy v) eqn:Hv; assumption. Qed.

(** X18.  [handleFormSubmit] always ends with the sending flag off and never
    touches the analysis state or closes the panel itself.  Without the
    EmailJS library nothing is sent and the failure message is shown;
    otherwise one call is made, with non-empty service and template ids (the
    configured ones when configured) and the template parameters; the success
    message and the 3 second closing timer follow exactly when the call
    succeeds. *)
Theorem submission_outcomes e emailjs formData s :
  isSending (panel (after (handleFormSubmit e emailjs formData s))) = false /\
  core (after (handleFormSubmit e emailjs formData s)) = core s /\
  isConsultationModalOpen (panel (after (handleFormSubmit e emailjs formData s)))
    = isConsultationModalOpen (panel s) /\
  (emailjs = None ->
   sent (handleFormSubmit e emailjs formData s) = None /\
   formMessage (panel (after (handleFormSubmit e emailjs formData s)))
     = Some msg_not_sent /\
   close_after (handleFormSubmit e emailjs formData s) = None) /\
  (forall send, emailjs = Some send ->
   exists serviceID templateID,
     sent (handleFormSubmit e emailjs formData s)
       = Some (serviceID, templateID,
               template_params formData (result (state (core s)))) /\
     serviceID <> EmptyString /\ templateID <> EmptyString /\
     (serviceId (emailJs (getEnvConfig e)) <> EmptyString ->
      serviceID = serviceId (emailJs (getEnvConfig e))) /\
     (templateId (emailJs (getEnvConfig e)) <> EmptyString ->
      templateID = templateId (emailJs (getEnvConfig e))) /\
     (send serviceID templateID
        (template_params formData (result (state (core s)))) = true ->
      formMessage (panel (after (handleFormSubmit e emailjs formData s)))
        = Some msg_sent /\
      close_after (handleFormSubmit e emailjs formData s) = Some 3000) /\
     (send serviceID templateID
        (template_params formData (result (state (core s)))) = false ->
      formMessage (panel (after (handleFormSubmit e emailjs formData s)))
        = Some msg_not_sent /\
      close_after (handleFormSubmit e emailjs formData s) = None)).
Proof.
  unfold handleFormSubmit. destruct emailjs as [send|].
  - split; [now destruct (send _ _ _)|]. split; [now destruct (send _ _ _)|].
    split; [now destruct (send _ _ _)|]. split; [discriminate|].
    intros send' [= <-].
    set (sid := or_else (Some (serviceId (emailJs (getEnvConfig e)))) "YOUR_SERVICE_ID").
    set (tid := or_else (Some (templateId (emailJs (getEnvConfig e)))) "YOUR_TEMPLATE_ID").
    exists sid, tid.
    split; [now destruct (send _ _ _)|].
    split; [apply truthy_true; now apply or_else_default_truthy|].
    split; [apply truthy_true; now apply or_else_default_truthy|].
    split; [intros Hs; apply truthy_true in Hs; subst sid; unfold or_else; now rewrite Hs|].
    split; [intros Hs; apply truthy_true in Hs; subst tid; unfold or_else; now rewrite Hs|].
    split; intros ->; split; reflexivity.
  - repeat split. discriminate.
Qed.

Lemma submission_outcomes_witness :
  sent (handleFormSubmit no_key_env None initial_formData (start silent_host ∅))
    = None /\
  close_after (handleFormSubmit no_key_env (Some (fun _ _ _ => true))
                 initial_formData (start silent_host ∅)) = Some 3000.
Proof.
  destruct (submission_outcomes no_key_env None initial_formData
              (start silent_host ∅)) as (_ & _ & _ & Hnone & _).
  destruct (submission_outcomes no_key_env (Some (fun _ _ _ => true))
              initial_formData (start silent_host ∅))
    as (_ & _ & _ & _ & Hsome).
  split; [apply Hnone; reflexivity|].
  destruct (Hsome (fun _ _ _ => true) eq_refl)
    as (sid & tid & _ & _ & _ & _ & _ & Hok & _).
  apply Hok. reflexivity.
Defined.

Lemma typed_snoc changes name value :
  typed (changes ++ [(name, value)]) = handleChange name value (typed changes).
Proof. unfold typed. now rewrite fold_left_app. Qed.

(** X19.  After any sequence of input changes the form still has its six
    fields, each is sent as typed last, and the [cobb_angle] and
    [classification] parameters always come from the current result
    ([undefined] without one). *)
Theorem form_always_carries_its_fields changes r :
  (forall f, In f form_fields -> is_Some (typed changes !! f)) /\
  (forall f, In f form_fields ->
     exists v, typed changes !! f = Some v /\
               template_params (typed changes) r !! f = Some (Str v)) /\
  (forall name value,
     typed (changes ++ [(name, value)]) !! name = Some value) /\
  (forall name value other,
     other <> name ->
     typed (changes ++ [(name, value)]) !! other = typed changes !! other) /\
  template_params (typed changes) r !! "cobb_angle"
    = Some (match r with Some r => Fixed1 (cobbAngle r) | None => Undefined end) /\
  template_params (typed changes) r !! "classification"
    = Some (match r with Some r => Str (classification r) | None => Undefined end).
Proof.
  assert (Hfields : forall f, In f form_fields -> is_Some (typed changes !! f)).
  { induction changes as [|[name value] changes IH] using rev_ind.
    - intros f Hf. cbn in Hf.
      repeat (destruct Hf as [<- | Hf]; [vm_compute; eauto|]). contradiction.
    - intros f Hf. rewrite typed_snoc. unfold handleChange.
      destruct (decide (name = f)) as [->|Hne].
      + rewrite lookup_insert_eq. eauto.
      + rewrite lookup_insert_ne by assumption. now apply IH. }
  split; [exact Hfields|]. split; [|split; [|split; [|split]]].
  - intros f Hf. destruct (Hfields f Hf) as [v Hv]. exists v. split; [exact Hv|].
    unfold template_params.
    assert (f <> "classification" /\ f <> "cobb_angle") as [H1 H2].
    { cbn in Hf. repeat (destruct Hf as [<- | Hf]; [split; discriminate|]).
      contradiction. }
    rewrite !lookup_insert_ne by congruence. now rewrite lookup_fmap, Hv.
  - intros name value. rewrite typed_snoc. apply lookup_insert_eq.
  - intros name value other Hne. rewrite typed_snoc.
    unfold handleChange. now rewrite lookup_insert_ne.
  - unfold template_params. rewrite lookup_insert_ne by discriminate.
    apply lookup_insert_eq.
  - unfold template_params. apply lookup_insert_eq.
Qed.

Lemma form_always_carries_its_fields_witness :
  typed [("name", "Kim"); ("gender", "female"); ("name", "Kim Mina")] !! "name"
    = Some "Kim Mina" /\
  is_Some (typed [("name", "Kim")] !! "gender").
Proof.
  destruct (form_always_carries_its_fields
              [("name", "Kim"); ("gender", "female")] None)
    as (_ & _ & Hlast & _).
  destruct (form_always_carries_its_fields [("name", "Kim")] None)
    as (Hfields & _).
  split; [apply (Hlast "name" "Kim Mina")|].
  apply Hfields. cbn. tauto.
Defined.

(** X2.  When the analysis in flight settles, in any reachable state, the
    loader goes off; an answer becomes the result and its stamped record is
    put in front of the history as it is at that moment (the list captured by
    the closure is still the current one) and written to storage; a failure
    leaves the history alone, no result, and one of the five messages. *)
Theorem settled_analysis_lands_on_current_history
    H store evs p ctx model today now :
  in_flight (run H evs (booted H store)) = Some p ->
  in_flight (step H (AnalysisSettles ctx model today now)
               (run H evs (booted H store))) = None /\
  isLoading (app_state (step H (AnalysisSettles ctx model today now)
                          (run H evs (booted H store)))) = false /\
  (forall res,
     analysis_outcome (answering H ctx model) (pending_file p) (pending_apiKey p)
       = inr res ->
     result (app_state (step H (AnalysisSettles ctx model today now)
                          (run H evs (booted H store)))) = Some res /\
     history (app_state (step H (AnalysisSettles ctx model today now)
                           (run H evs (booted H store))))
       = stamp today now res :: history (app_state (run H evs (booted H store))) /\
     getItem "scolio_history"
       (core (session (step H (AnalysisSettles ctx model today now)
                         (run H evs (booted H store)))))
       = Some (JSON_stringify_history H
                 (stamp today now res
                    :: history (app_state (run H evs (booted H store)))))) /\
  (forall e,
     analysis_outcome (answering H ctx model) (pending_file p) (pending_apiKey p)
       = inl e ->
     result (app_state (step H (AnalysisSettles ctx model today now)
                          (run H evs (booted H store)))) = None /\
     history (app_state (step H (AnalysisSettles ctx model today now)
                           (run H evs (booted H store))))
       = history (app_state (run H evs (booted H store))) /\
     In (error (app_state (step H (AnalysisSettles ctx model today now)
                             (run H evs (booted H store))))) catch_messages).
Proof.
  intros Hp. pose proof (flight_coherent_run H store evs) as Hc.
  set (r := run H evs (booted H store)) in *.
  unfold flight_coherent in Hc. rewrite Hp in Hc.
  destruct Hc as (_ & Hcap & Hres).
  cbn [step]. rewrite Hp. unfold app_state, handleAnalyze_settle in *.
  cbn [session core in_flight].
  split; [reflexivity|]. split; [reflexivity|]. split.
  - intros res ->. unfold getItem. cbn. rewrite Hcap.
    repeat split. apply lookup_insert_eq.
  - intros e ->.
    destruct (handleAnalyze_catch_keeps e (core (session r)))
      as (_ & _ & _ & Hh & Hr & _).
    destruct (handleAnalyze_catch_message e (core (session r))) as (Hin & _).
    cbn. rewrite Hh, Hr. repeat split; assumption.
Qed.

Lemma settled_analysis_lands_on_current_history_witness :
  map (fun i => classification (item i))
    (history (app_state
       (run silent_host
          [ SelectFiles (Some [Loaded 800 600]) "blob:1"; ClickAnalyze;
            SelectFiles (Some [Loaded 4096 3071]) "blob:2";
            AnalysisSettles true mild_answer "2025. 1. 1." 1735689600000 ]
          (booted silent_host sample_store))))
    = ["Mild"].
Proof.
  destruct (settled_analysis_lands_on_current_history silent_host sample_store
              [ SelectFiles (Some [Loaded 800 600]) "blob:1"; ClickAnalyze;
                SelectFiles (Some [Loaded 4096 3071]) "blob:2" ]
              {| pending_file := Loaded 800 600;
                 pending_apiKey := "AIzaSyTESTKEY1234";
                 pending_history := [] |}
              true mild_answer "2025. 1. 1." 1735689600000 eq_refl)
    as (_ & _ & Hok & _).
  destruct (Hok mild_12 eq_refl) as (_ & Hh & _).
  change (run silent_host
            [ SelectFiles (Some [Loaded 800 600]) "blob:1"; ClickAnalyze;
              SelectFiles (Some [Loaded 4096 3071]) "blob:2";
              AnalysisSettles true mild_answer "2025. 1. 1." 1735689600000 ]
            (booted silent_host sample_store))
    with (step silent_host
            (AnalysisSettles true mild_answer "2025. 1. 1." 1735689600000)
            (run silent_host
               [ SelectFiles (Some [Loaded 800 600]) "blob:1"; ClickAnalyze;
                 SelectFiles (Some [Loaded 4096 3071]) "blob:2" ]
               (booted silent_host sample_store))).
  rewrite Hh. reflexivity.
Defined.

Lemma one_analysis_at_a_time_witness :
  analyze_button_rendered
    (App_render (session
       (run silent_host
          [SelectFiles (Some [Loaded 800 600]) "blob:1"; ClickAnalyze]
          (booted silent_host sample_store)))) = false.
Proof.
  apply (one_analysis_at_a_time silent_host sample_store
           [SelectFiles (Some [Loaded 800 600]) "blob:1"; ClickAnalyze]
           {| pending_file := Loaded 800 600;
              pending_apiKey := "AIzaSyTESTKEY1234";
              pending_history := [] |}).
  reflexivity.
Defined.

Lemma alert_dot_tells_missing_key_witness :
  error (app_state
           (step silent_host ClickAnalyze
              (run silent_host [SelectFiles (Some [Loaded 800 600]) "blob:1"]
                 (booted silent_host ∅)))) = msg_need_key.
Proof.
  destruct (alert_dot_tells_missing_key silent_host ∅
              [SelectFiles (Some [Loaded 800 600]) "blob:1"]) as (_ & Hclick).
  apply (proj1 (Hclick eq_refl)). reflexivity.
Defined.

Lemma shown_result_is_newest_record_witness :
  exists today now rest,
    history (app_state
       (run silent_host
          [ SelectFiles (Some [Loaded 800 600]) "blob:1"; ClickAnalyze;
            AnalysisSettles true mild_answer "2025. 1. 1." 1735689600000 ]
          (booted silent_host sample_store)))
      = stamp today now mild_12 :: rest.
Proof.
  apply (shown_result_is_newest_record silent_host sample_store
           [ SelectFiles (Some [Loaded 800 600]) "blob:1"; ClickAnalyze;
             AnalysisSettles true mild_answer "2025. 1. 1." 1735689600000 ]
           mild_12).
  reflexivity.
Defined.

Lemma stored_key_stays_well_formed_witness :
  stored_key_ok
    (localStorage (core (session
       (run silent_host [SaveKey "  AIzaSyNEWKEY567890 "; SaveKey "short"]
          (booted silent_host sample_store))))).
Proof.
  apply (stored_key_stays_well_formed silent_host sample_store
           [SaveKey "  AIzaSyNEWKEY567890 "; SaveKey "short"]).
  split; [vm_compute; lia | reflexivity].
Defined.
